(** * Crash-reporting pipeline of the backend (main.go)

    A shallow embedding of the failure-capture-and-report code of
    [main.go]: the tenant resolver [extractBoardId], the trace locator and
    report encoder inside [sendErrorToEndpoint], the recovery middleware
    [panicRecoveryMiddleware] and the two start-up failure paths of [main].

    Go strings are byte sequences: they are modelled as [string], one
    [ascii] per byte.  Go [int] is the 64-bit integer of the usual server
    targets and is modelled as [Z] (the code does no arithmetic that could
    wrap; the only place where the width shows is [strconv.Atoi]).  A Go
    run-time panic (slice or index out of range) is an explicit result
    [Panic] of the [Exec] monad. *)

From Stdlib Require Import ZArith String Ascii List Bool Lia DecimalString.
From Stdlib Require DecimalPos.
From stdpp Require Import base option gmap strings.

Open Scope string_scope.
Open Scope list_scope.
Open Scope Z_scope.

(** ** Run-time panics *)

Inductive Exec (A : Type) : Type :=
| Ok (a : A)
| Panic (msg : string).
Arguments Ok {A} a.
Arguments Panic {A} msg.

Definition bind {A B : Type} (m : Exec A) (k : A -> Exec B) : Exec B :=
  match m with
  | Ok a => k a
  | Panic msg => Panic msg
  end.

Notation "'do' x <- m 'in' k" := (bind m (fun x => k))
  (at level 10, x name, m at level 100, k at level 200).

(** ** Bytes and byte strings *)

Definition byte_of (c : ascii) : Z := Z.of_nat (nat_of_ascii c).

(** The double quote, and the characters the encoder treats specially. *)
Definition dquote : ascii := "034"%char.
Definition backslash : ascii := "092"%char.
Definition LF : ascii := "010"%char.
Definition CR : ascii := "013"%char.
Definition TAB : ascii := "009"%char.

(** Go literals that contain double quotes are transcribed with an
    apostrophe standing for each double quote; [q] puts the quotes back.
    None of the transcribed literals contains an apostrophe of its own. *)
Fixpoint q (s : string) : string :=
  match s with
  | EmptyString => EmptyString
  | String c s' => String (if Ascii.eqb c "'"%char then dquote else c) (q s')
  end.

Fixpoint take_bytes (n : nat) (s : string) : string :=
  match n, s with
  | S k, String c s' => String c (take_bytes k s')
  | _, _ => EmptyString
  end.

Fixpoint drop_bytes (n : nat) (s : string) : string :=
  match n, s with
  | S k, String _ s' => drop_bytes k s'
  | _, _ => s
  end.

Fixpoint rev_bytes (s : string) : string :=
  match s with
  | EmptyString => EmptyString
  | String c s' => rev_bytes s' +:+ String c EmptyString
  end.

Definition len (s : string) : Z := Z.of_nat (String.length s).

(** [s[i:]], [s[:j]], [l[i]] and [l[:j]]: out of range is a panic. *)
Definition slice_from (s : string) (i : Z) : Exec string :=
  if (0 <=? i) && (i <=? len s) then Ok (drop_bytes (Z.to_nat i) s)
  else Panic "slice bounds out of range".

Definition slice_to (s : string) (j : Z) : Exec string :=
  if (0 <=? j) && (j <=? len s) then Ok (take_bytes (Z.to_nat j) s)
  else Panic "slice bounds out of range".

Definition index_at {A : Type} (l : list A) (i : Z) : Exec A :=
  if 0 <=? i then
    match nth_error l (Z.to_nat i) with
    | Some a => Ok a
    | None => Panic "index out of range"
    end
  else Panic "index out of range".

Definition slice_list_to {A : Type} (l : list A) (j : Z) : Exec (list A) :=
  if (0 <=? j) && (j <=? Z.of_nat (length l)) then Ok (firstn (Z.to_nat j) l)
  else Panic "slice bounds out of range".

Definition isASCII (s : string) : bool :=
  forallb (fun c => byte_of c <? 128) (list_ascii_of_string s).

(** ** The part of Go's [strings] package that the code calls *)

Module strings.

Definition HasPrefix (s prefix : string) : bool := String.prefix prefix s.

(** Byte index of the first instance of [substr] in [s], or -1. *)
Fixpoint index_from (i : Z) (s substr : string) : Z :=
  if String.prefix substr s then i
  else match s with
       | EmptyString => -1
       | String _ s' => index_from (i + 1) s' substr
       end.

Definition Index (s substr : string) : Z := index_from 0 s substr.

Definition Contains (s substr : string) : bool := 0 <=? Index s substr.

(** Byte index of the last instance of [substr] in [s], or -1. *)
Fixpoint last_index_from (i : Z) (s substr : string) : Z :=
  match s with
  | EmptyString => if String.prefix substr s then i else -1
  | String _ s' =>
      let later := last_index_from (i + 1) s' substr in
      if 0 <=? later then later
      else if String.prefix substr s then i else -1
  end.

Definition LastIndex (s substr : string) : Z := last_index_from 0 s substr.

(** [Split s sep] for a non-empty separator: the pieces between the
    non-overlapping instances of [sep], found left to right.  [skip]
    counts the bytes of a separator that remain to be passed over. *)
Fixpoint split_go (sep : string) (skip : nat) (s : string) : list string :=
  match s with
  | EmptyString => [EmptyString]
  | String c s' =>
      match skip with
      | S k => split_go sep k s'
      | O =>
          if String.prefix sep s
          then EmptyString :: split_go sep (String.length sep - 1) s'
          else match split_go sep 0 s' with
               | piece :: pieces => String c piece :: pieces
               | [] => [String c EmptyString]
               end
      end
  end.

(** With an empty separator Go splits after each UTF-8 sequence; the
    code never does that, and the model splits after each byte. *)
Definition Split (s sep : string) : list string :=
  match sep with
  | EmptyString => map (fun c => String c EmptyString) (list_ascii_of_string s)
  | _ => split_go sep 0 s
  end.

Definition Join (elems : list string) (sep : string) : string :=
  String.concat sep elems.

(** [ReplaceAll s old new] for a non-empty [old]: every non-overlapping
    instance of [old], left to right, becomes [new]. *)
Fixpoint replace_go (old new : string) (skip : nat) (s : string) : string :=
  match s with
  | EmptyString => EmptyString
  | String c s' =>
      match skip with
      | S k => replace_go old new k s'
      | O =>
          if String.prefix old s
          then new +:+ replace_go old new (String.length old - 1) s'
          else String c (replace_go old new 0 s')
      end
  end.

(** With an empty [old] Go inserts [new] around each UTF-8 sequence; the
    code never does that, and the model inserts around each byte. *)
Fixpoint insert_around (new s : string) : string :=
  match s with
  | EmptyString => new
  | String c s' => new +:+ String c (insert_around new s')
  end.

Definition ReplaceAll (s old new : string) : string :=
  match old with
  | EmptyString => insert_around new s
  | _ => replace_go old new 0 s
  end.

(** White space as [unicode.IsSpace] defines it, in UTF-8: the six ASCII
    characters, U+0085, U+00A0, U+1680, U+2000..U+200A, U+2028, U+2029,
    U+202F, U+205F and U+3000. *)
Definition bytes (l : list nat) : string :=
  string_of_list_ascii (map ascii_of_nat l).

Definition space_runes : list string :=
  map bytes
    [ [9]; [10]; [11]; [12]; [13]; [32];
      [194; 133]; [194; 160]; [225; 154; 128];
      [226; 128; 128]; [226; 128; 129]; [226; 128; 130]; [226; 128; 131];
      [226; 128; 132]; [226; 128; 133]; [226; 128; 134]; [226; 128; 135];
      [226; 128; 136]; [226; 128; 137]; [226; 128; 138];
      [226; 128; 168]; [226; 128; 169]; [226; 128; 175];
      [226; 129; 159]; [227; 128; 128] ]%nat.

(** Width in bytes of the white-space rune that [s] starts with, if any. *)
Definition leading_space (runes : list string) (s : string) : option nat :=
  match List.filter (fun r => String.prefix r s) runes with
  | r :: _ => Some (String.length r)
  | [] => None
  end.

Fixpoint trim_left_go (runes : list string) (skip : nat) (s : string) : string :=
  match s with
  | EmptyString => EmptyString
  | String _ s' =>
      match skip with
      | S k => trim_left_go runes k s'
      | O =>
          match leading_space runes s with
          | Some w => trim_left_go runes (w - 1) s'
          | None => s
          end
      end
  end.

Definition TrimLeftSpace (s : string) : string :=
  trim_left_go space_runes 0 s.

(** Trailing white space is found on the reversed bytes: a string ends
    with a white-space rune exactly when it ends with that rune's bytes,
    because the first byte of each encoding is a UTF-8 start byte. *)
Definition TrimRightSpace (s : string) : string :=
  rev_bytes (trim_left_go (map rev_bytes space_runes) 0 (rev_bytes s)).

Definition TrimSpace (s : string) : string :=
  TrimRightSpace (TrimLeftSpace s).

(** [ToLower] maps an ASCII-only string byte by byte.  Any other string
    goes through the Unicode case tables (and every byte that is not
    valid UTF-8 becomes U+FFFD), which can change the length in bytes;
    that mapping is the parameter [unicode_lower]. *)
Definition lower_byte (c : ascii) : ascii :=
  let n := byte_of c in
  if (65 <=? n) && (n <=? 90) then ascii_of_nat (Z.to_nat (n + 32)) else c.

Fixpoint ascii_lower (s : string) : string :=
  match s with
  | EmptyString => EmptyString
  | String c s' => String (lower_byte c) (ascii_lower s')
  end.

Definition ToLower (unicode_lower : string -> string) (s : string) : string :=
  if isASCII s then ascii_lower s else unicode_lower s.

End strings.

(** ** [strconv.Atoi] and the [fmt] verbs the code uses *)

Module strconv.

Definition digit (c : ascii) : option Z :=
  let n := byte_of c in
  if (48 <=? n) && (n <=? 57) then Some (n - 48) else None.

Fixpoint digits (acc : Z) (s : string) : option Z :=
  match s with
  | EmptyString => Some acc
  | String c s' =>
      match digit c with
      | Some d => digits (acc * 10 + d) s'
      | None => None
      end
  end.

Definition minInt : Z := - 2 ^ 63.
Definition maxInt : Z := 2 ^ 63 - 1.

(** An optional sign, then one or more decimal digits, and a value that
    fits [int]; anything else is an error ([None]). *)
Definition Atoi (s : string) : option Z :=
  match s with
  | EmptyString => None
  | String c s' =>
      let neg := Ascii.eqb c "-"%char in
      let signed := neg || Ascii.eqb c "+"%char in
      let body := if signed then s' else s in
      match body with
      | EmptyString => None
      | _ =>
          match digits 0 body with
          | Some n =>
              let v := if neg then - n else n in
              if (minInt <=? v) && (v <=? maxInt) then Some v else None
          | None => None
          end
      end
  end.

End strconv.

(** Values of type [interface{}] that reach the formatting verbs: a panic
    value is a string, an integer or an [error].  A value of any other
    type is represented by the text that [%v] prints for it. *)
Inductive value : Type :=
| VString (s : string)
| VInt (n : Z)
| VError (msg : string).

Module fmt.

Definition decimal (n : Z) : string := NilZero.string_of_int (Z.to_int n).

(** What [%v] prints; [%s] on a string and [%d] on an integer agree
    with it. *)
Definition render (v : value) : string :=
  match v with
  | VString s => s
  | VInt n => decimal n
  | VError msg => msg
  end.

(** [Sprintf] for formats whose verbs are [%s], [%d] and [%v], each
    applied to an operand of the matching type: the operands replace the
    verbs in order and are not scanned again.  The code passes as many
    operands as its formats have verbs. *)
Fixpoint Sprintf (format : string) (args : list value) : string :=
  match format with
  | EmptyString => EmptyString
  | String "%" (String verb rest as tail) =>
      if Ascii.eqb verb "%" then String "%" (Sprintf rest args)
      else if existsb (Ascii.eqb verb) ["s"; "d"; "v"]%char then
        match args with
        | a :: args' => render a +:+ Sprintf rest args'
        | [] => "%!" +:+ String verb "(MISSING)" +:+ Sprintf rest []
        end
      else String "%" (Sprintf tail args)
  | String c rest => String c (Sprintf rest args)
  end.

End fmt.

(** ** Requests, the environment and the response writer *)

(** [url.Values] and [http.Header] are maps from a key to its values, in
    order; [Get] is the first value, or the empty string. *)
Definition Get (m : gmap string (list string)) (key : string) : string :=
  match m !! key with
  | Some (v :: _) => v
  | _ => EmptyString
  end.

(** The fields of [*http.Request] that the code reads.  The keys of
    [Header] are in canonical form, as the server stores them; the two keys
    the code asks for, X-Board-Id and User-Agent, are canonical as written. *)
Record Request : Type := {
  Method : string;
  URL_Path : string;
  URL_Query : gmap string (list string);
  Header : gmap string (list string);
  Host : string
}.

Definition UserAgent (r : Request) : string := Get (Header r) "User-Agent".

Module os.
(** The process environment; an unset variable reads as empty. *)
Definition Getenv (env : gmap string string) (key : string) : string :=
  default EmptyString (env !! key).
End os.

Definition nonempty (s : string) : bool := negb (String.eqb s EmptyString).

(** [http.ResponseWriter] is an interface: what the code does to a
    response is the calls it makes on it, in order.  How a particular
    writer turns the calls into bytes on the wire is the business of
    net/http. *)
Inductive WriterCall : Type :=
| HeaderSet (key val : string)
| WriteHeader (statusCode : Z)
| WriteBody (data : string).

(** ** The tenant resolver *)

(** [isValidHex] ranges over the runes of [s].  A byte below 128 is its
    own rune; any other byte belongs to a rune that is no hexadecimal
    digit (or is invalid and reads as U+FFFD), so the test on runes is the
    same test on bytes. *)
Definition isHexByte (c : ascii) : bool :=
  let n := byte_of c in
  ((48 <=? n) && (n <=? 57)) || ((97 <=? n) && (n <=? 102))
  || ((65 <=? n) && (n <=? 70)).

Definition isValidHex (s : string) : bool :=
  forallb isHexByte (list_ascii_of_string s).

Section Resolver.

Variable unicode_lower : string -> string.

(** The block that [extractBoardId] runs on [r.Host] and then, word for
    word, on the endpoint URL: [Some boardId] where the source returns
    [boardId], [None] where it falls through to the next source. *)
Definition afterMarker (host : string) : Exec (option string) :=
  if nonempty host then
    let idx := strings.Index (strings.ToLower unicode_lower host) "webapi" in
    if 0 <=? idx then
      do remaining <- slice_from host (idx + 6) in
      if 24 <=? len remaining then
        do boardId <- slice_to remaining 24 in
        if isValidHex boardId then Ok (Some boardId) else Ok None
      else Ok None
    else Ok None
  else Ok None.

Definition extractBoardId (r : Request) (env : gmap string string)
  : Exec string :=
  let boardId := Get (URL_Query r) "boardId" in
  if nonempty boardId then Ok boardId else
  let boardId := Get (Header r) "X-Board-Id" in
  if nonempty boardId then Ok boardId else
  let boardId := os.Getenv env "BOARD_ID" in
  if nonempty boardId then Ok boardId else
  do fromHost <- afterMarker (Host r) in
  match fromHost with
  | Some boardId => Ok boardId
  | None =>
      do fromUrl <- afterMarker (os.Getenv env "RUNTIME_ERROR_ENDPOINT_URL") in
      match fromUrl with
      | Some boardId => Ok boardId
      | None => Ok EmptyString
      end
  end.

End Resolver.

(** ** The trace locator

    The first loop of [sendErrorToEndpoint].  [lines[i-1]], [parts[...]]
    and the slices are the partial operations of [Exec]. *)

Definition newline : string := String LF EmptyString.

Definition isRecoveryMachinery (prevLine : string) : bool :=
  strings.Contains prevLine "panicRecoveryMiddleware"
  || strings.Contains prevLine "sendErrorToEndpoint"
  || strings.Contains prevLine "runtime.Stack"
  || strings.Contains prevLine "runtime.gopanic"
  || strings.Contains prevLine "created by"
  || strings.Contains prevLine "panic(".

Definition isStandardLibrary (filePath : string) : bool :=
  strings.Contains filePath "/runtime/"
  || strings.Contains filePath "/mise/installs/go/"
  || strings.Contains filePath "/src/runtime/"
  || strings.Contains filePath "/src/net/"
  || strings.Contains filePath "/src/syscall/"
  || strings.Contains filePath "/src/internal/"
  || strings.Contains filePath "/src/database/"
  || strings.Contains filePath "/usr/local/go/"
  || strings.Contains filePath "/usr/lib/go/".

(** [fileName] from [filePath]: what follows the last slash. *)
Definition baseName (filePath : string) : Exec string :=
  let lastSlash := strings.LastIndex filePath "/" in
  if 0 <=? lastSlash then slice_from filePath (lastSlash + 1)
  else Ok filePath.

(** One iteration of the loop: [Some (fileName, lineNumber)] where the
    source assigns both and breaks, [None] where it goes on to the next
    line. *)
Definition scanLine (lines : list string) (i : Z) (line : string)
  : Exec (option (string * Z)) :=
  if strings.HasPrefix line "goroutine" then Ok None
  else if strings.Contains line ".go:" && (0 <? i) then
    do prevLine <- (if 0 <? i then index_at lines (i - 1) else Ok EmptyString) in
    if isRecoveryMachinery prevLine then Ok None
    else
      let trimmedLine := strings.TrimSpace line in
      let parts := strings.Split trimmedLine ":" in
      if 2 <=? Z.of_nat (length parts) then
        do front <- slice_list_to parts (Z.of_nat (length parts) - 1) in
        let filePath := strings.TrimSpace (strings.Join front ":") in
        if isStandardLibrary filePath then Ok None
        else
          do lastPart <- index_at parts (Z.of_nat (length parts) - 1) in
          let lineStr := strings.TrimSpace lastPart in
          let spaceIdx := strings.Index lineStr " " in
          do lineStr <- (if 0 <? spaceIdx then slice_to lineStr spaceIdx
                         else Ok lineStr) in
          match strconv.Atoi lineStr with
          | Some lineNum =>
              do fileName <- baseName filePath in
              Ok (Some (fileName, lineNum))
          | None => Ok None
          end
      else Ok None
  else Ok None.

Fixpoint locateFrom (lines : list string) (i : Z) (rest : list string)
  : Exec (string * Z) :=
  match rest with
  | [] => Ok (EmptyString, 0)
  | line :: rest' =>
      do found <- scanLine lines i line in
      match found with
      | Some located => Ok located
      | None => locateFrom lines (i + 1) rest'
      end
  end.

(** [fileName] and [lineNumber] as the loop leaves them; the zero values
    [""] and [0] stand for a frame that was not found. *)
Definition locate (stackTrace : string) : Exec (string * Z) :=
  let lines := strings.Split stackTrace newline in
  locateFrom lines 0 lines.

(** ** The report encoder *)

Definition escapeStackTrace (stackTrace : string) : string :=
  let escapedStackTrace := strings.ReplaceAll stackTrace "\" "\\" in
  let escapedStackTrace := strings.ReplaceAll escapedStackTrace (q "'") (q "\'") in
  let escapedStackTrace := strings.ReplaceAll escapedStackTrace newline "\n" in
  let escapedStackTrace := strings.ReplaceAll escapedStackTrace (String CR EmptyString) "\r" in
  strings.ReplaceAll escapedStackTrace (String TAB EmptyString) "\t".

Definition escapeMessage (err : value) : string :=
  strings.ReplaceAll
    (strings.ReplaceAll (fmt.Sprintf "%v" [err]) "\" "\\") (q "'") (q "\'").

Definition fileJson (fileName : string) : string :=
  if nonempty fileName
  then q "'" +:+ strings.ReplaceAll fileName (q "'") (q "\'") +:+ q "'"
  else "null".

Definition lineJson (lineNumber : Z) : string :=
  if 0 <? lineNumber then fmt.Sprintf "%d" [VInt lineNumber] else "null".

Definition boardIdJson (boardId : string) : string :=
  if String.eqb boardId EmptyString then "null"
  else q "'" +:+ boardId +:+ q "'".

Definition requestPayloadFormat : string := q "{
        'boardId':%s,
        'timestamp':'%s',
        'file':%s,
        'line':%s,
        'stackTrace':'%s',
        'message':'%s',
        'exceptionType':'panic',
        'requestPath':'%s',
        'requestMethod':'%s',
        'userAgent':'%s'
    }".

Definition encodeReport (now boardId : string) (r : Request) (err : value)
  (stackTrace fileName : string) (lineNumber : Z) : string :=
  fmt.Sprintf requestPayloadFormat
    [ VString (boardIdJson boardId); VString now;
      VString (fileJson fileName); VString (lineJson lineNumber);
      VString (escapeStackTrace stackTrace); VString (escapeMessage err);
      VString (URL_Path r); VString (Method r); VString (UserAgent r) ].

(** ** The report dispatcher

    [http.NewRequest] fails on an endpoint URL that does not parse, and
    [client.Do] either fails (no connection, or the 5 second timeout) or
    yields a response; both are taken from the network the process runs
    in.  The log is the list of the messages given to [log.Printf]. *)

Record HttpRequest : Type := {
  req_method : string;
  req_url : string;
  req_contentType : string;
  req_body : string
}.

Inductive DoResult : Type :=
| DoFailed (err2 : string)
| DoResponse (StatusCode : Z) (body : string).

Record Network : Type := {
  newRequestError : string -> option string;
  clientDo : HttpRequest -> DoResult
}.

(** What one run of a reporting goroutine leaves behind: its log lines
    and the request it handed to the HTTP client, if it got that far. *)
Record Sent : Type := {
  sent_log : list string;
  sent_request : option HttpRequest
}.

Definition sendErrorToEndpoint (net : Network) (now : string)
  (endpointUrl boardId : string) (r : Request) (err : value)
  (stackTrace : string) : Exec Sent :=
  do located <- locate stackTrace in
  let fileName := fst located in
  let lineNumber := snd located in
  let payload := encodeReport now boardId r err stackTrace fileName lineNumber in
  match newRequestError net endpointUrl with
  | Some err2 =>
      Ok {| sent_log :=
              [fmt.Sprintf "[PANIC RECOVERY] Failed to create request: %v" [VError err2]];
            sent_request := None |}
  | None =>
      let req := {| req_method := "POST"; req_url := endpointUrl;
                    req_contentType := "application/json";
                    req_body := payload |} in
      match clientDo net req with
      | DoFailed err2 =>
          Ok {| sent_log :=
                  [fmt.Sprintf "[PANIC RECOVERY] Failed to send error to endpoint: %v" [VError err2]];
                sent_request := Some req |}
      | DoResponse StatusCode body =>
          if negb (StatusCode =? 200) then
            Ok {| sent_log :=
                    [fmt.Sprintf "[PANIC RECOVERY] Error endpoint response: %d - %s"
                       [VInt StatusCode; VString body]];
                  sent_request := Some req |}
          else
            Ok {| sent_log :=
                    [fmt.Sprintf "[PANIC RECOVERY] Error endpoint response: %d"
                       [VInt StatusCode]];
                  sent_request := Some req |}
      end
  end.

(** ** The recovery middleware *)

Module runtime.
(** [runtime.Stack(buf, all)] fills [buf] with the trace the run time
    formats, cut to the size of the buffer. *)
Definition Stack (size : Z) (trace : string) : string :=
  take_bytes (Z.to_nat size) trace.
End runtime.

(** A goroutine started with [go], with the values it captured. *)
Inductive Task : Type :=
| GoSendError (endpointUrl boardId : string) (r : Request) (err : value)
    (stackTrace : string)
| GoStartupPanicReport (endpointUrl boardId : string) (r : value)
| GoStartupErrorReport (endpointUrl boardId : string) (err : string).

(** One run of the wrapped handler: the calls it made on the response
    writer and, if it panicked, the value that [recover] returns.  (From
    Go 1.21 on that value is never nil: [panic(nil)] raises a
    [*runtime.PanicNilError].) *)
Record HandlerRun : Type := {
  run_calls : list WriterCall;
  run_panic : option value
}.

(** What serving one request through the middleware amounts to. *)
Record Served : Type := {
  calls : list WriterCall;
  logged : list string;
  started : list Task
}.

Definition panicBodyFormat : string :=
  q "{'error':'An error occurred while processing your request','message':'%s'}".

Section Middleware.

Variable unicode_lower : string -> string.

(** [next] is the wrapped handler, [env] the process environment and
    [allStacks] the trace of all goroutines at the time of recovery.
    A result [Panic] is a panic that leaves the middleware. *)
Definition panicRecoveryMiddleware (next : Request -> HandlerRun)
  (env : gmap string string) (allStacks : string) (r : Request)
  : Exec Served :=
  let run := next r in
  match run_panic run with
  | None => Ok {| calls := run_calls run; logged := []; started := [] |}
  | Some err =>
      let log1 := fmt.Sprintf "[PANIC RECOVERY] Recovered from panic: %v" [err] in
      let stackTrace := runtime.Stack 8192 allStacks in
      do boardId <- extractBoardId unicode_lower r env in
      let log2 := fmt.Sprintf "[PANIC RECOVERY] Extracted boardId: %s"
                    [VString (if String.eqb boardId EmptyString then "NULL" else boardId)] in
      let runtimeErrorEndpointUrl := os.Getenv env "RUNTIME_ERROR_ENDPOINT_URL" in
      let report :=
        if nonempty runtimeErrorEndpointUrl then
          ([fmt.Sprintf "[PANIC RECOVERY] Sending error to endpoint: %s"
              [VString runtimeErrorEndpointUrl]],
           [GoSendError runtimeErrorEndpointUrl boardId r err stackTrace])
        else
          (["[PANIC RECOVERY] RUNTIME_ERROR_ENDPOINT_URL is not set - skipping error reporting"],
           []) in
      Ok {| calls :=
              run_calls run ++
              [ HeaderSet "Content-Type" "application/json";
                WriteHeader 500;
                WriteBody (fmt.Sprintf panicBodyFormat
                             [VString (fmt.Sprintf "%v" [err])]) ];
            logged := [log1; log2] ++ fst report;
            started := snd report |}
  end.

End Middleware.

(** ** Start-up failures

    The end of [main]: [http.ListenAndServe] either returns an error or
    panics, in which case the deferred function recovers.  Both paths end
    in [os.Exit(1)]. *)

Inductive ListenResult : Type :=
| ListenReturned (err : string)
| ListenPanicked (r : value).

Record Exit : Type := {
  exit_log : list string;
  exit_started : list Task;
  exit_code : Z
}.

Definition startup (env : gmap string string) (listen : ListenResult) : Exit :=
  let runtimeErrorEndpointUrl := os.Getenv env "RUNTIME_ERROR_ENDPOINT_URL" in
  let boardId := os.Getenv env "BOARD_ID" in
  match listen with
  | ListenPanicked r =>
      {| exit_log := [fmt.Sprintf "[STARTUP ERROR] Application failed to start: %v" [r]];
         exit_started :=
           if nonempty runtimeErrorEndpointUrl
           then [GoStartupPanicReport runtimeErrorEndpointUrl boardId r]
           else [];
         exit_code := 1 |}
  | ListenReturned err =>
      {| exit_log := [fmt.Sprintf "[STARTUP ERROR] Server failed to start: %v" [VError err]];
         exit_started :=
           if nonempty runtimeErrorEndpointUrl
           then [GoStartupErrorReport runtimeErrorEndpointUrl boardId err]
           else [];
         exit_code := 1 |}
  end.

(** The loop of the two start-up goroutines: no frame is skipped, the
    line is not trimmed and no offset is cut off. *)
Definition scanStartupLine (i : Z) (line : string) : Exec (option (string * Z)) :=
  if strings.Contains line ".go:" && (0 <? i) then
    let parts := strings.Split line ":" in
    if 2 <=? Z.of_nat (length parts) then
      do lastPart <- index_at parts (Z.of_nat (length parts) - 1) in
      let lineStr := strings.TrimSpace lastPart in
      match strconv.Atoi lineStr with
      | Some lineNum =>
          do front <- slice_list_to parts (Z.of_nat (length parts) - 1) in
          let filePath := strings.TrimSpace (strings.Join front ":") in
          do fileName <- baseName filePath in
          Ok (Some (fileName, lineNum))
      | None => Ok None
      end
    else Ok None
  else Ok None.

Fixpoint locateStartupFrom (i : Z) (rest : list string) : Exec (string * Z) :=
  match rest with
  | [] => Ok (EmptyString, 0)
  | line :: rest' =>
      do found <- scanStartupLine i line in
      match found with
      | Some located => Ok located
      | None => locateStartupFrom (i + 1) rest'
      end
  end.

Definition startupPanicPayloadFormat : string := q "{
                        'boardId':%s,
                        'timestamp':'%s',
                        'file':%s,
                        'line':%s,
                        'stackTrace':'%s',
                        'message':'%s',
                        'exceptionType':'panic',
                        'requestPath':'STARTUP',
                        'requestMethod':'STARTUP',
                        'userAgent':'STARTUP_ERROR'
                    }".

Definition startupErrorPayloadFormat : string := q "{
                    'boardId':%s,
                    'timestamp':'%s',
                    'file':%s,
                    'line':%s,
                    'stackTrace':'%s',
                    'message':'%s',
                    'exceptionType':'error',
                    'requestPath':'STARTUP',
                    'requestMethod':'STARTUP',
                    'userAgent':'STARTUP_ERROR'
                }".

Definition encodeStartupReport (format now boardId : string) (failure : value)
  (stackTrace fileName : string) (lineNumber : Z) : string :=
  fmt.Sprintf format
    [ VString (boardIdJson boardId); VString now;
      VString (fileJson fileName); VString (lineJson lineNumber);
      VString (escapeStackTrace stackTrace); VString (escapeMessage failure) ].

(** The body of either start-up goroutine, up to the format of the
    payload and the value reported: [ownStack] is the trace of the
    goroutine itself. *)
Definition startupReport (format : string) (net : Network) (now ownStack : string)
  (endpointUrl boardId : string) (failure : value) : Exec Sent :=
  let stackTrace := runtime.Stack 4096 ownStack in
  do located <- locateStartupFrom 0 (strings.Split stackTrace newline) in
  let fileName := fst located in
  let lineNumber := snd located in
  let payload :=
    encodeStartupReport format now boardId failure stackTrace fileName lineNumber in
  match newRequestError net endpointUrl with
  | Some _ => Ok {| sent_log := []; sent_request := None |}
  | None =>
      Ok {| sent_log := [];
            sent_request :=
              Some {| req_method := "POST"; req_url := endpointUrl;
                      req_contentType := "application/json";
                      req_body := payload |} |}
  end.


(** ** JSON text (RFC 8259)

    The reference against which the encoder is judged: the decoder of a
    JSON string, and a recogniser of JSON documents.  Both work on bytes;
    a byte of 32 or more other than the quote and the backslash stands for
    itself inside a string. *)

Module json.

Definition hexval (c : ascii) : option Z :=
  let n := byte_of c in
  if (48 <=? n) && (n <=? 57) then Some (n - 48)
  else if (97 <=? n) && (n <=? 102) then Some (n - 87)
  else if (65 <=? n) && (n <=? 70) then Some (n - 55)
  else None.

Definition hex4 (a b c d : ascii) : option Z :=
  match hexval a, hexval b, hexval c, hexval d with
  | Some x, Some y, Some z, Some w => Some (((x * 16 + y) * 16 + z) * 16 + w)
  | _, _, _, _ => None
  end.

Definition byte (n : Z) : ascii := ascii_of_nat (Z.to_nat n).

(** UTF-8 of a code point below 0x110000. *)
Definition utf8 (u : Z) : string :=
  if u <? 128 then String (byte u) EmptyString
  else if u <? 2048 then
    String (byte (192 + u / 64)) (String (byte (128 + u mod 64)) EmptyString)
  else if u <? 65536 then
    String (byte (224 + u / 4096))
      (String (byte (128 + (u / 64) mod 64))
         (String (byte (128 + u mod 64)) EmptyString))
  else
    String (byte (240 + u / 262144))
      (String (byte (128 + (u / 4096) mod 64))
         (String (byte (128 + (u / 64) mod 64))
            (String (byte (128 + u mod 64)) EmptyString))).

Definition isHighSurrogate (u : Z) : bool := (55296 <=? u) && (u <? 56320).
Definition isLowSurrogate (u : Z) : bool := (56320 <=? u) && (u <? 57344).
Definition replacement : string := utf8 65533.

(** The character a two-character escape stands for. *)
Definition simpleEscape (e : ascii) : option ascii :=
  if Ascii.eqb e dquote then Some dquote
  else if Ascii.eqb e backslash then Some backslash
  else if Ascii.eqb e "/" then Some "/"%char
  else if Ascii.eqb e "b" then Some "008"%char
  else if Ascii.eqb e "f" then Some "012"%char
  else if Ascii.eqb e "n" then Some LF
  else if Ascii.eqb e "r" then Some CR
  else if Ascii.eqb e "t" then Some TAB
  else None.

Definition push (d : string) (res : option (string * string))
  : option (string * string) :=
  match res with
  | Some (decoded, rest) => Some (d +:+ decoded, rest)
  | None => None
  end.

(** [unquote s] reads a JSON string whose opening quote has just been
    passed: the text it denotes and what follows its closing quote.
    [None] if [s] does not continue a JSON string.  A surrogate that is
    not part of a pair decodes to U+FFFD. *)
Fixpoint unquote (s : string) : option (string * string) :=
  match s with
  | EmptyString => None
  | String c s' =>
      if Ascii.eqb c dquote then Some (EmptyString, s')
      else if Ascii.eqb c backslash then
        match s' with
        | EmptyString => None
        | String e s'' =>
            match simpleEscape e with
            | Some d => push (String d EmptyString) (unquote s'')
            | None =>
                if Ascii.eqb e "u" then
                  match s'' with
                  | String h1 (String h2 (String h3 (String h4 s4))) =>
                      match hex4 h1 h2 h3 h4 with
                      | Some u =>
                          if isHighSurrogate u then
                            match s4 with
                            | String b (String e2 (String l1 (String l2
                                (String l3 (String l4 s10))))) =>
                                match (if Ascii.eqb b backslash && Ascii.eqb e2 "u"
                                       then hex4 l1 l2 l3 l4 else None) with
                                | Some lo =>
                                    if isLowSurrogate lo
                                    then push (utf8 (65536 + (u - 55296) * 1024 + (lo - 56320)))
                                           (unquote s10)
                                    else push replacement (unquote s4)
                                | None => push replacement (unquote s4)
                                end
                            | _ => push replacement (unquote s4)
                            end
                          else if isLowSurrogate u then push replacement (unquote s4)
                          else push (utf8 u) (unquote s4)
                      | None => None
                      end
                  | _ => None
                  end
                else None
            end
        end
      else if byte_of c <? 32 then None
      else push (String c EmptyString) (unquote s')
  end.

(** The standard unescape of the body of a JSON string: [body] between
    quotes must be one whole string. *)
Definition unescape (body : string) : option string :=
  match unquote (body +:+ String dquote EmptyString) with
  | Some (decoded, EmptyString) => Some decoded
  | _ => None
  end.

Definition isWhitespace (c : ascii) : bool :=
  Ascii.eqb c " " || Ascii.eqb c TAB || Ascii.eqb c LF || Ascii.eqb c CR.

Fixpoint skipWhitespace (s : string) : string :=
  match s with
  | String c s' => if isWhitespace c then skipWhitespace s' else s
  | EmptyString => s
  end.

Definition isDigit (c : ascii) : bool :=
  (48 <=? byte_of c) && (byte_of c <=? 57).

Fixpoint skipDigits (s : string) : string :=
  match s with
  | String c s' => if isDigit c then skipDigits s' else s
  | EmptyString => s
  end.

(** One or more digits. *)
Definition digits1 (s : string) : option string :=
  match s with
  | String c s' => if isDigit c then Some (skipDigits s') else None
  | EmptyString => None
  end.

Definition fraction (s : string) : option string :=
  match s with
  | String "." s' => digits1 s'
  | _ => Some s
  end.

Definition exponent (s : string) : option string :=
  match s with
  | String c s' =>
      if Ascii.eqb c "e" || Ascii.eqb c "E" then
        match s' with
        | String sign s'' =>
            if Ascii.eqb sign "+" || Ascii.eqb sign "-" then digits1 s''
            else digits1 s'
        | EmptyString => None
        end
      else Some s
  | EmptyString => Some s
  end.

Definition number (s : string) : option string :=
  let unsigned := match s with String "-" s' => s' | _ => s end in
  match unsigned with
  | String c s' =>
      if Ascii.eqb c "0" then mbind exponent (fraction s')
      else if isDigit c then mbind exponent (fraction (skipDigits s'))
      else None
  | EmptyString => None
  end.

Definition literal (word s : string) : option string :=
  if String.prefix word s then Some (drop_bytes (String.length word) s)
  else None.

(** [value fuel s]: what follows the JSON value that [s] starts with.
    [members] and [elements] read the rest of an object or an array from
    the start of a member or an element on.  Every call consumes a byte,
    so the length of the text is fuel enough. *)
Fixpoint value (fuel : nat) (s : string) {struct fuel} : option string :=
  match fuel with
  | O => None
  | S fuel' =>
      match s with
      | EmptyString => None
      | String c s' =>
          if Ascii.eqb c "{" then
            match skipWhitespace s' with
            | String "}" rest => Some rest
            | inside => members fuel' inside
            end
          else if Ascii.eqb c "[" then
            match skipWhitespace s' with
            | String "]" rest => Some rest
            | inside => elements fuel' inside
            end
          else if Ascii.eqb c dquote then option_map snd (unquote s')
          else if Ascii.eqb c "t" then literal "true" s
          else if Ascii.eqb c "f" then literal "false" s
          else if Ascii.eqb c "n" then literal "null" s
          else number s
      end
  end
with members (fuel : nat) (s : string) {struct fuel} : option string :=
  match fuel with
  | O => None
  | S fuel' =>
      match s with
      | String c s' =>
          if Ascii.eqb c dquote then
            match unquote s' with
            | Some (_, afterName) =>
                match skipWhitespace afterName with
                | String ":" afterColon =>
                    match value fuel' (skipWhitespace afterColon) with
                    | Some afterValue =>
                        match skipWhitespace afterValue with
                        | String "," more => members fuel' (skipWhitespace more)
                        | String "}" rest => Some rest
                        | _ => None
                        end
                    | None => None
                    end
                | _ => None
                end
            | None => None
            end
          else None
      | EmptyString => None
      end
  end
with elements (fuel : nat) (s : string) {struct fuel} : option string :=
  match fuel with
  | O => None
  | S fuel' =>
      match value fuel' s with
      | Some afterValue =>
          match skipWhitespace afterValue with
          | String "," more => elements fuel' (skipWhitespace more)
          | String "]" rest => Some rest
          | _ => None
          end
      | None => None
      end
  end.

(** [s] is one JSON value with white space around it. *)
Definition valid (s : string) : bool :=
  match value (S (String.length s)) (skipWhitespace s) with
  | Some rest => String.eqb (skipWhitespace rest) EmptyString
  | None => false
  end.

End json.

(** ** The specification's own wording, for comparison with the code *)

Section ResolverSpec.

Variable unicode_lower : string -> string.

(** A source that holds a value only if it is not empty. *)
Definition present (s : string) : option string :=
  if nonempty s then Some s else None.

(** Sources 4 and 5: locate the marker, without regard to case; take
    the 24 characters that follow it; accept them only if all 24 are
    hexadecimal digits. *)
Definition hexAfterMarker (s : string) : option string :=
  let idx := strings.Index (strings.ToLower unicode_lower s) "webapi" in
  if 0 <=? idx then
    let candidate := take_bytes 24 (drop_bytes (Z.to_nat idx + 6) s) in
    if (String.length candidate =? 24)%nat && isValidHex candidate
    then Some candidate else None
  else None.

(** The five sources, in the order of their priority. *)
Definition tenantSources (r : Request) (env : gmap string string)
  : list (option string) :=
  [ present (Get (URL_Query r) "boardId");
    present (Get (Header r) "X-Board-Id");
    present (os.Getenv env "BOARD_ID");
    hexAfterMarker (Host r);
    hexAfterMarker (os.Getenv env "RUNTIME_ERROR_ENDPOINT_URL") ].

(** Stop at the first source that matches. *)
Fixpoint firstMatch (sources : list (option string)) : option string :=
  match sources with
  | [] => None
  | Some tenant :: _ => Some tenant
  | None :: rest => firstMatch rest
  end.

Definition resolve (r : Request) (env : gmap string string) : option string :=
  firstMatch (tenantSources r env).

(** No tenant id in the query parameter, the header or the
    environment variable. *)
Definition noExplicitTenant (r : Request) (env : gmap string string) : Prop :=
  Get (URL_Query r) "boardId" = EmptyString /\
  Get (Header r) "X-Board-Id" = EmptyString /\
  os.Getenv env "BOARD_ID" = EmptyString.




End ResolverSpec.

(** Sample inputs.  On an ASCII string [strings.ToLower] does not consult
    the Unicode tables, so any function can stand for them. *)
Definition noUnicode : string -> string := fun s => s.

Definition sampleRequest (query header : list string) (host : string) : Request :=
  {| Method := "GET"; URL_Path := "/api/test";
     URL_Query := {[ "boardId" := query ]};
     Header := {[ "X-Board-Id" := header; "User-Agent" := ["curl/8.5.0"] ]};
     Host := host |}.


(** Replacing every byte of a string by a string. *)
Fixpoint mapBytes (f : ascii -> string) (s : string) : string :=
  match s with
  | EmptyString => EmptyString
  | String c s' => f c +:+ mapBytes f s'
  end.

(** The escaping rule of the specification, byte by byte: backslash,
    double quote, newline, carriage return and tab become two-character
    escape sequences; every other byte stays. *)
Definition escapedByte (c : ascii) : string :=
  if Ascii.eqb c backslash then "\\"
  else if Ascii.eqb c dquote then String backslash (String dquote EmptyString)
  else if Ascii.eqb c LF then "\n"
  else if Ascii.eqb c CR then "\r"
  else if Ascii.eqb c TAB then "\t"
  else String c EmptyString.

(** The same rule without its last three cases. *)
Definition escapedQuoteByte (c : ascii) : string :=
  if Ascii.eqb c backslash then "\\"
  else if Ascii.eqb c dquote then String backslash (String dquote EmptyString)
  else String c EmptyString.

(** The bytes below 32 are the control characters, which JSON does not
    admit in a string unescaped. *)
Definition isControl (c : ascii) : bool := byte_of c <? 32.

Definition noControls (s : string) : bool :=
  forallb (fun c => negb (isControl c)) (list_ascii_of_string s).

Definition onlyLineControls (s : string) : bool :=
  forallb (fun c => negb (isControl c)
                    || Ascii.eqb c LF || Ascii.eqb c CR || Ascii.eqb c TAB)
    (list_ascii_of_string s).


(** The report as a flat record (section 4.3 of the specification): the
    ten keys in their order, each on a line of its own behind [indent],
    with the tokens and texts given.  [tenant], [file] and [line] are
    JSON tokens; the other values stand between quotes. *)
Definition reportLayout (indent closing : string)
  (tenant now file line trace message kind path method agent : string) : string :=
  "{" +:+ newline +:+
  indent +:+ q "'boardId':" +:+ tenant +:+ "," +:+ newline +:+
  indent +:+ q "'timestamp':'" +:+ now +:+ q "'," +:+ newline +:+
  indent +:+ q "'file':" +:+ file +:+ "," +:+ newline +:+
  indent +:+ q "'line':" +:+ line +:+ "," +:+ newline +:+
  indent +:+ q "'stackTrace':'" +:+ trace +:+ q "'," +:+ newline +:+
  indent +:+ q "'message':'" +:+ message +:+ q "'," +:+ newline +:+
  indent +:+ q "'exceptionType':'" +:+ kind +:+ q "'," +:+ newline +:+
  indent +:+ q "'requestPath':'" +:+ path +:+ q "'," +:+ newline +:+
  indent +:+ q "'requestMethod':'" +:+ method +:+ q "'," +:+ newline +:+
  indent +:+ q "'userAgent':'" +:+ agent +:+ q "'" +:+ newline +:+
  closing +:+ "}".

Fixpoint spaces (n : nat) : string :=
  match n with
  | O => EmptyString
  | S k => String " " (spaces k)
  end.

(** The token of an optional value: [null] when the value is absent. *)
Definition optionalToken (value : option string) : string :=
  match value with
  | Some token => token
  | None => "null"
  end.

Definition quoted (text : string) : string :=
  String dquote text +:+ String dquote EmptyString.

(** *** The trace locator in the words of the specification *)

(** A path line: it does not open a new unit of execution and holds the
    separator of path and line behind a source-file extension. *)
Definition isFrameLine (line : string) : bool :=
  negb (strings.HasPrefix line "goroutine") && strings.Contains line ".go:".

(** The file path of a path line: what stands before its last colon. *)
Definition framePath (line : string) : string :=
  strings.TrimSpace
    (strings.Join (List.removelast (strings.Split (strings.TrimSpace line) ":")) ":").

(** Anything from the first space on is an offset annotation. *)
Definition stripOffset (lineStr : string) : string :=
  let spaceIdx := strings.Index lineStr " " in
  if 0 <? spaceIdx then take_bytes (Z.to_nat spaceIdx) lineStr else lineStr.

(** The line number text of a path line: what stands after its last
    colon, without the offset. *)
Definition frameLineText (line : string) : string :=
  stripOffset
    (strings.TrimSpace
       (List.last (strings.Split (strings.TrimSpace line) ":") EmptyString)).

(** The final segment of a path. *)
Definition finalSegment (filePath : string) : string :=
  drop_bytes (Z.to_nat (strings.LastIndex filePath "/" + 1)) filePath.

(** A frame is a descriptor line followed by a path line.  It is rejected
    if the descriptor names the recovery machinery or the path is one of
    the standard library. *)
Definition rejectedFrame (descriptor line : string) : bool :=
  isRecoveryMachinery descriptor || isStandardLibrary (framePath line).

Definition acceptedFrame (descriptor line : string) : bool :=
  isFrameLine line && negb (rejectedFrame descriptor line).

(** What a frame yields: the file and line of an accepted frame whose
    line number text is an integer. *)
Definition frameOf (descriptor line : string) : option (string * Z) :=
  if acceptedFrame descriptor line then
    match strconv.Atoi (frameLineText line) with
    | Some lineNum => Some (finalSegment (framePath line), lineNum)
    | None => None
    end
  else None.

(** The first frame in scan order that yields something; [prev] is the
    line before [rest], if there is one. *)
Fixpoint firstFrame (prev : option string) (rest : list string)
  : option (string * Z) :=
  match rest with
  | [] => None
  | line :: rest' =>
      match from_option (fun descriptor => frameOf descriptor line) None prev with
      | Some located => Some located
      | None => firstFrame (Some line) rest'
      end
  end.

(** [descriptor] and [line] are consecutive lines of [lines]. *)
Definition adjacent (lines : list string) (descriptor line : string) : Prop :=
  exists before after, lines = before ++ descriptor :: line :: after.

Fixpoint hasByte (c : ascii) (s : string) : bool :=
  match s with
  | EmptyString => false
  | String x s' => Ascii.eqb x c || hasByte c s'
  end.

Definition is_Some_bool {A : Type} (o : option A) : bool :=
  match o with
  | Some _ => true
  | None => false
  end.

(** The pairs of consecutive lines, for checking a trace at hand. *)
Fixpoint adjacentPairs (lines : list string) : list (string * string) :=
  match lines with
  | descriptor :: (line :: _) as rest => (descriptor, line) :: adjacentPairs rest
  | _ => []
  end.

(** A machinery frame: its descriptor is no path line itself, and the
    frame is rejected. *)
Definition machineryFrame (frame : string * string) : Prop :=
  isFrameLine (fst frame) = false /\ rejectedFrame (fst frame) (snd frame) = true.

Definition frameLines (frames : list (string * string)) : list string :=
  flat_map (fun frame => [fst frame; snd frame]) frames.

(** The locator as the specification states it: absent if every frame is
    rejected; otherwise the file and the positive line number of the
    first accepted frame. *)
Definition locatorAsStated (stackTrace : string) : Prop :=
  let lines := strings.Split stackTrace newline in
  ((forall descriptor line,
      adjacent lines descriptor line -> isFrameLine line = true ->
      rejectedFrame descriptor line = true) ->
   locate stackTrace = Ok (EmptyString, 0)) /\
  (forall before descriptor line after,
     lines = before ++ descriptor :: line :: after ->
     acceptedFrame descriptor line = true ->
     (forall d' l', adjacent (before ++ [descriptor]) d' l' ->
                    acceptedFrame d' l' = false) ->
     exists lineNum,
       0 < lineNum /\
       strconv.Atoi (frameLineText line) = Some lineNum /\
       locate stackTrace = Ok (finalSegment (framePath line), lineNum)).

(** Sample traces. *)
Definition traceOf (lines : list string) : string := strings.Join lines newline.

Definition tabbed (s : string) : string := String TAB s.

Definition scenarioTrace : string :=
  traceOf
    [ "goroutine 7 [running]:";
      "main.panicRecoveryMiddleware.func1.1()";
      tabbed "/app/main.go:53 +0x9c";
      "panic({0x5e3a20, 0x6a1f50})";
      tabbed "/usr/local/go/src/runtime/panic.go:770 +0x132";
      "main.handler(...)";
      tabbed "/app/app.go:42 +0x1d";
      "net/http.HandlerFunc.ServeHTTP(...)";
      tabbed "/usr/local/go/src/net/http/server.go:2166 +0x29" ].

Definition machineryOnlyTrace : string :=
  traceOf
    [ "goroutine 7 [running]:";
      "main.panicRecoveryMiddleware.func1.1()";
      tabbed "/app/main.go:53 +0x9c";
      "net/http.HandlerFunc.ServeHTTP(...)";
      tabbed "/usr/local/go/src/net/http/server.go:2166 +0x29" ].

Definition garbledTrace : string :=
  traceOf
    [ "goroutine 7 [running]:";
      "main.handler(...)";
      tabbed "/app/app.go:4x2";
      "main.helper(...)";
      tabbed "/app/util.go:7 +0x1d" ].

(** *** Start-up failures in the words of the specification *)

(** A network on which every dispatch succeeds. *)
Definition reachable : Network :=
  {| newRequestError := fun _ => None;
     clientDo := fun _ => DoResponse 200 EmptyString |}.

Definition sampleEnv : gmap string string :=
  {[ "RUNTIME_ERROR_ENDPOINT_URL" := "https://telemetry.example.com/errors";
     "BOARD_ID" := "deadbeefdeadbeefdeadbeef" ]}.




(** *** The recovery middleware: sample handlers *)

(** A handler that fails before it has written anything. *)
Definition dividingHandler (_ : Request) : HandlerRun :=
  {| run_calls := []; run_panic := Some (VError "division by zero") |}.

Definition scenarioRequest : Request :=
  sampleRequest [] ["deadbeefdeadbeefdeadbeef"] "api.example.com".

(** *** The body of the 500 response *)

Definition needsEscape (c : ascii) : bool :=
  Ascii.eqb c dquote || Ascii.eqb c backslash || isControl c.

(** The text holds a double quote, a backslash or a control character. *)
Definition needsEscaping (s : string) : bool :=
  existsb needsEscape (list_ascii_of_string s).

Definition hasControl (s : string) : bool :=
  existsb isControl (list_ascii_of_string s).

(** The body that the middleware writes for the panic value [err]. *)
Definition panicBody (err : value) : string :=
  fmt.Sprintf panicBodyFormat [VString (fmt.Sprintf "%v" [err])].

(** The property as stated: a panic text that would need escaping makes
    the body ill-formed. *)
Definition panicBodyAsStated (err : value) : Prop :=
  needsEscaping (fmt.Sprintf "%v" [err]) = true ->
  json.valid (panicBody err) = false.

(** [s] continues a JSON string that denotes [decoded] and is followed by
    [rest]: the raw text of the string is free of control characters and
    at least as long as what it denotes, and of the same length only if
    it holds no escape at all. *)
Definition decodesFrom (s decoded rest : string) : Prop :=
  exists raw,
    s = raw +:+ String dquote rest /\
    noControls raw = true /\
    (String.length decoded <= String.length raw)%nat /\
    (String.length decoded = String.length raw ->
     decoded = raw /\ needsEscaping raw = false).

(** * The rest of main.go and the controller *)

(** ** [corsMiddleware] *)

Definition corsHeaders : list WriterCall :=
  [ HeaderSet "Access-Control-Allow-Origin" "*";
    HeaderSet "Access-Control-Allow-Methods" "GET, POST, PUT, DELETE, OPTIONS";
    HeaderSet "Access-Control-Allow-Headers" "Content-Type" ].

(** The three headers are set first; an OPTIONS request is answered at
    once with the status 200 and [next] is not called. *)
Definition corsMiddleware (next : Request -> HandlerRun) (r : Request) : HandlerRun :=
  if String.eqb (Method r) "OPTIONS" then
    {| run_calls := corsHeaders ++ [WriteHeader 200]; run_panic := None |}
  else
    let run := next r in
    {| run_calls := corsHeaders ++ run_calls run; run_panic := run_panic run |}.

(** ** The database and the replies of the controller *)

(** Modelled from the spec: [models.TestProjects], whose package
    backend/Models is not among the sources.  The specification speaks of
    a single relational table only; the fields [Id] and [Name] are the two
    that the controller reads and writes and that the OpenAPI document in
    main.go lists. *)
Record TestProjects : Type := {
  Id : Z;
  Name : string
}.

(** A Go slice is nil until something is appended to it. *)
Inductive Slice (A : Type) : Type :=
| NilSlice
| Items (elems : list A).
Arguments NilSlice {A}.
Arguments Items {A} elems.

Definition append {A : Type} (s : Slice A) (x : A) : Slice A :=
  match s with
  | NilSlice => Items [x]
  | Items elems => Items (elems ++ [x])
  end.

Inductive SqlArg : Type :=
| SqlInt (n : Z)
| SqlString (s : string).

(** A statement as it is handed to the driver: its text and the values
    bound to its placeholders. *)
Definition Statement : Type := string * list SqlArg.

(** What the driver answers.  [RowsAffected] can fail on its own; a query
    yields the results of scanning its rows one after the other, up to the
    point where [rows.Next] returns false; [QueryRow(...).Scan] tells the
    absence of a row ([sql.ErrNoRows]) from other failures. *)
Inductive Affected : Type :=
| AffectedError (err : string)
| AffectedRows (rowsAffected : Z).

Inductive ExecOutcome : Type :=
| ExecError (err : string)
| ExecResult (result : Affected).

Inductive ScanOutcome : Type :=
| ScanError (err : string)
| ScanRow (project : TestProjects).

Inductive QueryOutcome : Type :=
| QueryError (err : string)
| QueryRows (rows : list ScanOutcome).

Inductive RowOutcome : Type :=
| ErrNoRows
| RowError (err : string)
| RowScanned (project : TestProjects).

Record Driver (Conn : Type) : Type := {
  dbExec : Conn -> string -> list SqlArg -> ExecOutcome * Conn;
  dbQuery : Conn -> string -> list SqlArg -> QueryOutcome * Conn;
  dbQueryRow : Conn -> string -> list SqlArg -> RowOutcome * Conn
}.
Arguments dbExec {Conn} _ _ _ _.
Arguments dbQuery {Conn} _ _ _ _.
Arguments dbQueryRow {Conn} _ _ _ _.

(** What [json.NewDecoder(r.Body).Decode(&project)] gives. *)
Inductive Decoded : Type :=
| DecodeError (err : string)
| DecodeOK (project : TestProjects).

(** What is handed to [json.NewEncoder(w).Encode]. *)
Inductive Body : Type :=
| JProjects (projects : Slice TestProjects)
| JProject (project : TestProjects)
| JMessage (message : string).

(** A handler answers once: with [http.Error(w, error, code)], with
    [http.NotFound(w, r)], or by setting the content type
    application/json, calling [WriteHeader] if [status] is given, and
    encoding [body]. *)
Inductive Response : Type :=
| ReplyError (error : string) (code : Z)
| ReplyNotFound
| ReplyJSON (status : option Z) (body : Body).

(** ** The controller (Controllers/test_controller.go) *)

Section Controller.

Context {Conn : Type} (DB : Driver Conn).

(** The connection and the statements issued on it so far. *)
Record Session : Type := {
  conn : Conn;
  issued : list Statement
}.

Definition Exec_ (s : Session) (query : string) (args : list SqlArg)
  : ExecOutcome * Session :=
  let (res, c) := dbExec DB (conn s) query args in
  (res, {| conn := c; issued := issued s ++ [(query, args)] |}).

Definition Query (s : Session) (query : string) (args : list SqlArg)
  : QueryOutcome * Session :=
  let (res, c) := dbQuery DB (conn s) query args in
  (res, {| conn := c; issued := issued s ++ [(query, args)] |}).

Definition QueryRow (s : Session) (query : string) (args : list SqlArg)
  : RowOutcome * Session :=
  let (res, c) := dbQueryRow DB (conn s) query args in
  (res, {| conn := c; issued := issued s ++ [(query, args)] |}).

(** The error of [setSearchPath], if any. *)
Definition setSearchPath (s : Session) : option string * Session :=
  let (res, s) := Exec_ s (q "SET search_path = public, '$user'") [] in
  match res with
  | ExecError err => (Some err, s)
  | ExecResult _ => (None, s)
  end.

(** The loop over the rows: the first scan that fails ends it. *)
Fixpoint scanRows (projects : Slice TestProjects) (rows : list ScanOutcome)
  : string + Slice TestProjects :=
  match rows with
  | [] => inr projects
  | ScanError err :: _ => inl err
  | ScanRow project :: rows' => scanRows (append projects project) rows'
  end.

Definition GetAll (s : Session) : Response * Session :=
  let (err, s) := setSearchPath s in
  match err with
  | Some err => (ReplyError ("Database error: " +:+ err) 500, s)
  | None =>
      let (res, s) :=
        Query s (q "SELECT 'Id', 'Name' FROM 'TestProjects' ORDER BY 'Id'") [] in
      match res with
      | QueryError err => (ReplyError ("Database error: " +:+ err) 500, s)
      | QueryRows rows =>
          match scanRows NilSlice rows with
          | inl err => (ReplyError ("Database error: " +:+ err) 500, s)
          | inr projects => (ReplyJSON None (JProjects projects), s)
          end
      end
  end.

Definition GetById (s : Session) (id : Z) : Response * Session :=
  let (err, s) := setSearchPath s in
  match err with
  | Some err => (ReplyError ("Database error: " +:+ err) 500, s)
  | None =>
      let (res, s) :=
        QueryRow s (q "SELECT 'Id', 'Name' FROM 'TestProjects' WHERE 'Id' = $1")
          [SqlInt id] in
      match res with
      | ErrNoRows => (ReplyError "Project not found" 404, s)
      | RowError err => (ReplyError ("Database error: " +:+ err) 500, s)
      | RowScanned project => (ReplyJSON None (JProject project), s)
      end
  end.

Definition Create (s : Session) (body : Decoded) : Response * Session :=
  match body with
  | DecodeError err => (ReplyError ("Invalid JSON: " +:+ err) 400, s)
  | DecodeOK project =>
      let (err, s) := setSearchPath s in
      match err with
      | Some err => (ReplyError ("Database error: " +:+ err) 500, s)
      | None =>
          let (res, s) :=
            QueryRow s
              (q "INSERT INTO 'TestProjects' ('Name') VALUES ($1) RETURNING 'Id', 'Name'")
              [SqlString (Name project)] in
          match res with
          | ErrNoRows =>
              (ReplyError ("Database error: " +:+ "sql: no rows in result set") 500, s)
          | RowError err => (ReplyError ("Database error: " +:+ err) 500, s)
          | RowScanned project => (ReplyJSON (Some 201) (JProject project), s)
          end
      end
  end.

Definition Update (s : Session) (body : Decoded) (id : Z) : Response * Session :=
  match body with
  | DecodeError err => (ReplyError ("Invalid JSON: " +:+ err) 400, s)
  | DecodeOK project =>
      let (err, s) := setSearchPath s in
      match err with
      | Some err => (ReplyError ("Database error: " +:+ err) 500, s)
      | None =>
          let (res, s) :=
            Exec_ s (q "UPDATE 'TestProjects' SET 'Name' = $1 WHERE 'Id' = $2")
              [SqlString (Name project); SqlInt id] in
          match res with
          | ExecError err => (ReplyError ("Database error: " +:+ err) 500, s)
          | ExecResult (AffectedError err) =>
              (ReplyError ("Database error: " +:+ err) 500, s)
          | ExecResult (AffectedRows rowsAffected) =>
              if rowsAffected =? 0 then (ReplyError "Project not found" 404, s)
              else
                (ReplyJSON None (JProject {| Id := id; Name := Name project |}), s)
          end
      end
  end.

Definition Delete (s : Session) (id : Z) : Response * Session :=
  let (err, s) := setSearchPath s in
  match err with
  | Some err => (ReplyError ("Database error: " +:+ err) 500, s)
  | None =>
      let (res, s) :=
        Exec_ s (q "DELETE FROM 'TestProjects' WHERE 'Id' = $1") [SqlInt id] in
      match res with
      | ExecError err => (ReplyError ("Database error: " +:+ err) 500, s)
      | ExecResult (AffectedError err) =>
          (ReplyError ("Database error: " +:+ err) 500, s)
      | ExecResult (AffectedRows rowsAffected) =>
          if rowsAffected =? 0 then (ReplyError "Project not found" 404, s)
          else (ReplyJSON None (JMessage "Deleted successfully"), s)
      end
  end.

(** ** The routes under /api/test (the closure [apiTestHandler] of [main]) *)

Definition TrimPrefix (s prefix : string) : string :=
  if strings.HasPrefix s prefix then drop_bytes (String.length prefix) s else s.

(** The [switch] on the method for a path without an id. *)
Definition collection (s : Session) (body : Decoded) (r : Request)
  : Response * Session :=
  if String.eqb (Method r) "GET" then GetAll s
  else if String.eqb (Method r) "POST" then Create s body
  else (ReplyError "Method not allowed" 405, s).

Definition apiTestHandler (s : Session) (body : Decoded) (r : Request)
  : Response * Session :=
  let path := URL_Path r in
  if String.eqb path "/api/test" || String.eqb path "/api/test/" then
    collection s body r
  else if strings.HasPrefix path "/api/test/" then
    let idStr := TrimPrefix path "/api/test/" in
    if String.eqb idStr EmptyString then collection s body r
    else
      match strconv.Atoi idStr with
      | None => (ReplyError "Invalid ID" 400, s)
      | Some id =>
          if String.eqb (Method r) "GET" then GetById s id
          else if String.eqb (Method r) "PUT" then Update s body id
          else if String.eqb (Method r) "DELETE" then Delete s id
          else (ReplyError "Method not allowed" 405, s)
      end
  else (ReplyNotFound, s).

End Controller.

(** [ExtractId]: the slice panics on a path shorter than the prefix. *)
Definition ExtractId (path : string) : Exec (option Z) :=
  do idStr <- slice_from path (len "/api/test/") in
  Ok (strconv.Atoi idStr).

(** ** The start of [main]

    [log.Fatal] prints and ends the process with [os.Exit(1)]; once the
    database answers, the server listens, and [startup] describes how
    that ends. *)

Inductive DatabaseStart : Type :=
| OpenFailed (err : string)
| PingFailed (err : string)
| DatabaseReady.

Definition fatal (message : string) : Exit :=
  {| exit_log := [message]; exit_started := []; exit_code := 1 |}.

Definition main (env : gmap string string) (database : DatabaseStart)
  (listen : ListenResult) : Exit :=
  let databaseUrl := os.Getenv env "DATABASE_URL" in
  if String.eqb databaseUrl EmptyString
  then fatal "DATABASE_URL environment variable not set"
  else
    match database with
    | OpenFailed err => fatal ("Failed to connect to database: " +:+ err)
    | PingFailed err => fatal ("Failed to ping database: " +:+ err)
    | DatabaseReady =>
        let port := os.Getenv env "PORT" in
        let port := if String.eqb port EmptyString then "8080" else port in
        let served := startup env listen in
        {| exit_log :=
             fmt.Sprintf "Server starting on 0.0.0.0:%s" [VString port]
             :: exit_log served;
           exit_started := exit_started served;
           exit_code := exit_code served |}
    end.

(** ** Auxiliary definitions for the further properties *)

(** Undoing the escaping of the encoder: a backslash stands for the
    character that the byte after it names. *)
Definition unescapedByte (e : ascii) : ascii :=
  if Ascii.eqb e "n" then LF
  else if Ascii.eqb e "r" then CR
  else if Ascii.eqb e "t" then TAB
  else e.

Fixpoint unescapeBytes (s : string) : string :=
  match s with
  | EmptyString => EmptyString
  | String c s' =>
      if Ascii.eqb c backslash then
        match s' with
        | String e s'' => String (unescapedByte e) (unescapeBytes s'')
        | EmptyString => String c EmptyString
        end
      else String c (unescapeBytes s')
  end.

(** The text after the last colon of a line of the start-up trace. *)
Definition startupLineText (line : string) : string :=
  strings.TrimSpace (List.last (strings.Split line ":") EmptyString).

(** Sample inputs for the further properties. *)
Definition requestOf (method path : string) : Request :=
  {| Method := method; URL_Path := path; URL_Query := ∅;
     Header := {[ "User-Agent" := ["curl/8.5.0"] ]};
     Host := "api.example.com" |}.

Definition listingHandler (_ : Request) : HandlerRun :=
  {| run_calls := [ HeaderSet "Content-Type" "application/json";
                    WriteBody "[]" ];
     run_panic := None |}.

Definition databaseEnv : gmap string string :=
  <[ "DATABASE_URL" := "postgres://app@db.internal/app" ]> sampleEnv.

(** The statements of the controller: the text is fixed, and what the
    request brings is bound to the placeholders. *)
Definition searchPathStatement : Statement :=
  (q "SET search_path = public, '$user'", []).

Definition selectAll : Statement :=
  (q "SELECT 'Id', 'Name' FROM 'TestProjects' ORDER BY 'Id'", []).

Definition selectOne (id : Z) : Statement :=
  (q "SELECT 'Id', 'Name' FROM 'TestProjects' WHERE 'Id' = $1", [SqlInt id]).

Definition insertOne (name : string) : Statement :=
  (q "INSERT INTO 'TestProjects' ('Name') VALUES ($1) RETURNING 'Id', 'Name'",
   [SqlString name]).

Definition updateOne (name : string) (id : Z) : Statement :=
  (q "UPDATE 'TestProjects' SET 'Name' = $1 WHERE 'Id' = $2",
   [SqlString name; SqlInt id]).

Definition deleteOne (id : Z) : Statement :=
  (q "DELETE FROM 'TestProjects' WHERE 'Id' = $1", [SqlInt id]).

Definition dataStatement (st : Statement) : Prop :=
  st = selectAll \/
  (exists id, st = selectOne id \/ st = deleteOne id) \/
  (exists name, st = insertOne name \/ exists id, st = updateOne name id).

(** Replies that turn the request down on its form alone. *)
Definition rejected (reply : Response) : bool :=
  match reply with
  | ReplyError _ code => (code =? 400) || (code =? 405)
  | ReplyNotFound => true
  | ReplyJSON _ _ => false
  end.

(** The name that a decoded body carries. *)
Definition decodedName (body : Decoded) : option string :=
  match body with
  | DecodeError _ => None
  | DecodeOK project => Some (Name project)
  end.

(** A nil slice stays nil when there is nothing to append. *)
Definition sliceOf {A : Type} (l : list A) : Slice A :=
  match l with
  | [] => NilSlice
  | _ => Items l
  end.

(** A driver that gives the same answers to every statement, for
    examples. *)
Definition cannedDriver (rows : list ScanOutcome) (row : RowOutcome)
  (result : ExecOutcome) : Driver unit :=
  {| dbExec := fun c _ _ => (result, c);
     dbQuery := fun c _ _ => (QueryRows rows, c);
     dbQueryRow := fun c _ _ => (row, c) |}.

Definition alpha : TestProjects := {| Id := 1; Name := "alpha" |}.
Definition beta : TestProjects := {| Id := 2; Name := "beta" |}.

Definition sampleDriver : Driver unit :=
  cannedDriver [ScanRow alpha; ScanRow beta] (RowScanned alpha)
    (ExecResult (AffectedRows 1)).

Definition newSession : @Session unit := {| conn := tt; issued := [] |}.

(** The same request for another path. *)
Definition withPath (r : Request) (path : string) : Request :=
  {| Method := Method r; URL_Path := path; URL_Query := URL_Query r;
     Header := Header r; Host := Host r |}.

(** A member of a report, on a line of its own behind [n] spaces: the
    name between quotes, the colon, and what follows it. *)
Definition memberLine (n : nat) (name rest : string) : string :=
  newline +:+ spaces n +:+
  String dquote (name +:+ String dquote (String ":" rest)).

(** A token that the JSON reader takes as one value when a comma
    follows it. *)
Definition jsonToken (t : string) : Prop :=
  forall fuel more,
    json.value (S fuel) (json.skipWhitespace (t +:+ String "," more)) =
    Some (String "," more).

(** A text that the JSON reader takes as the body of a string up to the
    quote that follows it. *)
Definition jsonText (t : string) : Prop :=
  forall rest, exists d, json.unquote (t +:+ String dquote rest) = Some (d, rest).

(** The escaping that a file name gets: the double quote only. *)
Definition quoteEscapedByte (c : ascii) : string :=
  if Ascii.eqb c dquote then String backslash (String dquote EmptyString)
  else String c EmptyString.

(** No backslash and no control character. *)
Definition plainButQuotes (s : string) : bool :=
  forallb (fun c => negb (Ascii.eqb c backslash) && negb (isControl c))
    (list_ascii_of_string s).
(** * Properties *)

(** ** Byte strings *)

Lemma append_cons c a b : String c a +:+ b = String c (a +:+ b).
Proof. reflexivity. Qed.

Lemma append_nil_l a : EmptyString +:+ a = a.
Proof. reflexivity. Qed.

Lemma length_take_bytes n s :
  String.length (take_bytes n s) = Nat.min n (String.length s).
Proof.
  revert s; induction n as [|n IH]; intros [|c s]; simpl; auto.
Qed.

Lemma length_drop_bytes n s :
  String.length (drop_bytes n s) = (String.length s - n)%nat.
Proof.
  revert s; induction n as [|n IH]; intros [|c s]; simpl; auto.
Qed.

Lemma take_drop_bytes n s : take_bytes n s +:+ drop_bytes n s = s.
Proof.
  revert s; induction n as [|n IH]; intros [|c s]; simpl; auto.
  rewrite append_cons. f_equal. apply IH.
Qed.

Lemma drop_bytes_S n c s : drop_bytes (S n) (String c s) = drop_bytes n s.
Proof. reflexivity. Qed.

Lemma string_prefix_length p s :
  String.prefix p s = true -> (String.length p <= String.length s)%nat.
Proof.
  revert s; induction p as [|c p IH]; intros [|d s]; simpl; try lia; try discriminate.
  destruct (ascii_dec c d); [|discriminate].
  intros H; apply IH in H; lia.
Qed.

Lemma length_ascii_lower s :
  String.length (strings.ascii_lower s) = String.length s.
Proof. induction s; simpl; auto. Qed.

(** [index_from] finds the first instance: the instance is inside the
    string, and no earlier offset starts one. *)
Lemma index_from_spec sub s i :
  let r := strings.index_from i s sub in
  r = -1 /\ (forall j : nat, String.prefix sub (drop_bytes j s) = false) \/
  exists k : nat,
    r = i + Z.of_nat k /\
    (k + String.length sub <= String.length s)%nat /\
    String.prefix sub (drop_bytes k s) = true /\
    forall j : nat, (j < k)%nat -> String.prefix sub (drop_bytes j s) = false.
Proof.
  revert i; induction s as [|c s IH]; intros i; cbn zeta.
  - unfold strings.index_from. destruct (String.prefix sub "") eqn:E.
    + right. exists 0%nat. repeat split; try lia.
      * apply string_prefix_length in E. simpl in *. lia.
      * exact E.
    + left. split; auto. intros [|j]; exact E.
  - unfold strings.index_from; fold strings.index_from.
    destruct (String.prefix sub (String c s)) eqn:E.
    + right. exists 0%nat. repeat split; try lia.
      * apply string_prefix_length in E. lia.
      * exact E.
    + destruct (IH (i + 1)) as [[Hr Hn] | [k (Hr & Hb & Hp & Hn)]].
      * left. split; auto. intros [|j]; simpl; auto.
      * right. exists (S k). repeat split; simpl; try lia; auto.
        intros [|j] Hj; simpl; auto. apply Hn. lia.
Qed.

Lemma Index_range s sub :
  strings.Index s sub = -1 \/
  0 <= strings.Index s sub /\ strings.Index s sub + len sub <= len s.
Proof.
  unfold strings.Index.
  destruct (index_from_spec sub s 0) as [[Hr _] | [k (Hr & Hb & _)]]; cbn zeta in *.
  - now left.
  - right. unfold len. lia.
Qed.

(** ** The tenant resolver *)

Lemma nonempty_false s : nonempty s = false -> s = EmptyString.
Proof.
  unfold nonempty. destruct (String.eqb_spec s EmptyString); [auto | discriminate].
Qed.

Lemma nonempty_true s : s <> EmptyString -> nonempty s = true.
Proof.
  unfold nonempty. destruct (String.eqb_spec s EmptyString); [contradiction | auto].
Qed.

Lemma slice_from_ok s i :
  0 <= i <= len s -> slice_from s i = Ok (drop_bytes (Z.to_nat i) s).
Proof.
  intros H. unfold slice_from.
  destruct (Z.leb_spec 0 i); [|lia]. destruct (Z.leb_spec i (len s)); [|lia].
  reflexivity.
Qed.

Lemma slice_to_ok s j :
  0 <= j <= len s -> slice_to s j = Ok (take_bytes (Z.to_nat j) s).
Proof.
  intros H. unfold slice_to.
  destruct (Z.leb_spec 0 j); [|lia]. destruct (Z.leb_spec j (len s)); [|lia].
  reflexivity.
Qed.

Section ResolverProofs.

Variable unicode_lower : string -> string.

(** On an ASCII string the block of the source computes what the
    specification describes, and does not panic. *)
Lemma afterMarker_spec s :
  isASCII s = true ->
  afterMarker unicode_lower s = Ok (hexAfterMarker unicode_lower s).
Proof.
  intros Hascii. unfold afterMarker, hexAfterMarker, strings.ToLower.
  rewrite Hascii.
  destruct (nonempty s) eqn:Hne.
  2:{ apply nonempty_false in Hne. subst s. reflexivity. }
  pose proof (Index_range (strings.ascii_lower s) "webapi") as Hr.
  set (idx := strings.Index (strings.ascii_lower s) "webapi") in *.
  destruct (Z.leb_spec 0 idx) as [Hidx|Hidx]; [|reflexivity].
  destruct Hr as [Hr|[_ Hr]]; [lia|].
  unfold len in Hr. rewrite length_ascii_lower in Hr. simpl in Hr.
  rewrite slice_from_ok by (unfold len; lia). cbn [bind].
  replace (Z.to_nat (idx + 6)) with (Z.to_nat idx + 6)%nat by lia.
  set (remaining := drop_bytes (Z.to_nat idx + 6) s).
  pose proof (length_take_bytes 24 remaining) as Hlen.
  destruct (Z.leb_spec 24 (len remaining)) as [H24|H24]; unfold len in H24.
  - rewrite slice_to_ok by (unfold len; lia). cbn [bind].
    change (Z.to_nat 24) with 24%nat.
    replace (String.length (take_bytes 24 remaining) =? 24)%nat with true
      by (symmetry; apply Nat.eqb_eq; lia).
    destruct (isValidHex (take_bytes 24 remaining)); reflexivity.
  - replace (String.length (take_bytes 24 remaining) =? 24)%nat with false
      by (symmetry; apply Nat.eqb_neq; lia).
    reflexivity.
Qed.


Lemma extractBoardId_resolve r env :
  isASCII (Host r) = true ->
  isASCII (os.Getenv env "RUNTIME_ERROR_ENDPOINT_URL") = true ->
  extractBoardId unicode_lower r env =
  Ok (default EmptyString (resolve unicode_lower r env)).
Proof.
  intros Hhost Hurl.
  unfold extractBoardId, resolve, tenantSources, present.
  destruct (nonempty (Get (URL_Query r) "boardId")); [reflexivity|].
  destruct (nonempty (Get (Header r) "X-Board-Id")); [reflexivity|].
  destruct (nonempty (os.Getenv env "BOARD_ID")); [reflexivity|].
  rewrite !afterMarker_spec by assumption. cbn [bind firstMatch].
  destruct (hexAfterMarker unicode_lower (Host r)); [reflexivity|].
  destruct (hexAfterMarker unicode_lower _); reflexivity.
Qed.

End ResolverProofs.


Section HostPattern.

Variable unicode_lower : string -> string.



End HostPattern.






(** ** The report encoder: escaping *)

Lemma append_nil_r a : a +:+ EmptyString = a.
Proof. induction a as [|c a IH]; [reflexivity|]. rewrite append_cons. now f_equal. Qed.

Lemma append_assoc a b c : (a +:+ b) +:+ c = a +:+ (b +:+ c).
Proof.
  induction a as [|x a IH]; [reflexivity|]. rewrite !append_cons. now f_equal.
Qed.

Lemma mapBytes_app f a b : mapBytes f (a +:+ b) = mapBytes f a +:+ mapBytes f b.
Proof.
  induction a as [|x a IH]; [reflexivity|].
  rewrite append_cons. cbn [mapBytes]. now rewrite IH, append_assoc.
Qed.

Lemma mapBytes_mapBytes f g s :
  mapBytes g (mapBytes f s) = mapBytes (fun c => mapBytes g (f c)) s.
Proof.
  induction s as [|c s IH]; [reflexivity|].
  cbn [mapBytes]. now rewrite mapBytes_app, IH.
Qed.

Lemma mapBytes_ext f g s : (forall c, f c = g c) -> mapBytes f s = mapBytes g s.
Proof.
  intros H. induction s as [|c s IH]; [reflexivity|].
  cbn [mapBytes]. now rewrite H, IH.
Qed.

(** Replacing a one-byte [old] is a map over the bytes. *)
Lemma ReplaceAll_byte s c new :
  strings.ReplaceAll s (String c EmptyString) new =
  mapBytes (fun x => if Ascii.eqb x c then new else String x EmptyString) s.
Proof.
  unfold strings.ReplaceAll.
  induction s as [|x s IH]; [reflexivity|].
  cbn [strings.replace_go mapBytes String.prefix String.length].
  rewrite (Ascii.eqb_sym x c).
  destruct (ascii_dec c x) as [->|Hne].
  - rewrite Ascii.eqb_refl. destruct s; cbn [Nat.sub]; now rewrite IH.
  - apply Ascii.eqb_neq in Hne. rewrite Hne.
    rewrite IH. reflexivity.
Qed.

(** What the five replacements on the trace amount to. *)
Lemma escapeStackTrace_bytes s : escapeStackTrace s = mapBytes escapedByte s.
Proof.
  unfold escapeStackTrace, newline, q.
  change "\" with (String backslash EmptyString).
  change (String (if Ascii.eqb "'" "'" then dquote else "'") "")
    with (String dquote EmptyString).
  rewrite !ReplaceAll_byte, !mapBytes_mapBytes.
  apply mapBytes_ext.
  intros [[] [] [] [] [] [] [] []]; reflexivity.
Qed.

(** What the two replacements on the message amount to. *)
Lemma escapeMessage_bytes err :
  escapeMessage err = mapBytes escapedQuoteByte (fmt.render err).
Proof.
  unfold escapeMessage, q.
  change "\" with (String backslash EmptyString).
  change (String (if Ascii.eqb "'" "'" then dquote else "'") "")
    with (String dquote EmptyString).
  cbn [fmt.Sprintf existsb Ascii.eqb Bool.eqb orb]. rewrite append_nil_r.
  rewrite !ReplaceAll_byte, !mapBytes_mapBytes.
  apply mapBytes_ext.
  intros [[] [] [] [] [] [] [] []]; reflexivity.
Qed.

(** ** The round trip through the JSON decoder *)

Lemma unquote_escapedByte c t :
  negb (isControl c) || Ascii.eqb c LF || Ascii.eqb c CR || Ascii.eqb c TAB = true ->
  json.unquote (escapedByte c +:+ t) = json.push (String c EmptyString) (json.unquote t).
Proof.
  destruct c as [[] [] [] [] [] [] [] []]; intros H;
    try discriminate H; reflexivity.
Qed.

Lemma unquote_escapedQuoteByte c t :
  negb (isControl c) = true ->
  json.unquote (escapedQuoteByte c +:+ t) = json.push (String c EmptyString) (json.unquote t).
Proof.
  destruct c as [[] [] [] [] [] [] [] []]; intros H;
    try discriminate H; reflexivity.
Qed.

Lemma unquote_escaped s rest :
  onlyLineControls s = true ->
  json.unquote (mapBytes escapedByte s +:+ String dquote rest) = Some (s, rest).
Proof.
  unfold onlyLineControls.
  induction s as [|c s IH]; intros H; [reflexivity|].
  cbn [list_ascii_of_string forallb] in H. apply andb_true_iff in H as [Hc Hs].
  cbn [mapBytes]. rewrite append_assoc, unquote_escapedByte, IH by assumption.
  reflexivity.
Qed.

Lemma unquote_escapedQuote s rest :
  noControls s = true ->
  json.unquote (mapBytes escapedQuoteByte s +:+ String dquote rest) = Some (s, rest).
Proof.
  unfold noControls.
  induction s as [|c s IH]; intros H; [reflexivity|].
  cbn [list_ascii_of_string forallb] in H. apply andb_true_iff in H as [Hc Hs].
  cbn [mapBytes]. rewrite append_assoc, unquote_escapedQuoteByte, IH by assumption.
  reflexivity.
Qed.

(** C4 -- the code at a message of two lines: the trace gets all five
    replacements, the message only the first two, so that the line break
    of the message reaches the payload as it is and the JSON decoder
    rejects the field. *)
Theorem escapeMessage_keeps_line_break :
  let text := "open db: refused" +:+ newline +:+ "retry later" in
  escapeStackTrace text = "open db: refused\nretry later" /\
  escapeMessage (VError text) = text /\
  json.unescape (escapeMessage (VError text)) = None.
Proof. repeat split. Qed.




(** ** The report encoder: layout of the payload *)

Lemma encodeReport_layout now boardId r err stackTrace fileName lineNumber :
  encodeReport now boardId r err stackTrace fileName lineNumber =
  reportLayout (spaces 8) (spaces 4)
    (boardIdJson boardId) now (fileJson fileName) (lineJson lineNumber)
    (escapeStackTrace stackTrace) (escapeMessage err) "panic"
    (URL_Path r) (Method r) (UserAgent r).
Proof.
  unfold encodeReport.
  generalize (boardIdJson boardId), (fileJson fileName), (lineJson lineNumber),
    (escapeStackTrace stackTrace), (escapeMessage err), (URL_Path r), (Method r),
    (UserAgent r).
  intros. reflexivity.
Qed.

Lemma encodeStartupPanic_layout now boardId failure stackTrace fileName lineNumber :
  encodeStartupReport startupPanicPayloadFormat now boardId failure stackTrace
    fileName lineNumber =
  reportLayout (spaces 24) (spaces 20)
    (boardIdJson boardId) now (fileJson fileName) (lineJson lineNumber)
    (escapeStackTrace stackTrace) (escapeMessage failure) "panic"
    "STARTUP" "STARTUP" "STARTUP_ERROR".
Proof.
  unfold encodeStartupReport.
  generalize (boardIdJson boardId), (fileJson fileName), (lineJson lineNumber),
    (escapeStackTrace stackTrace), (escapeMessage failure).
  intros. reflexivity.
Qed.

Lemma encodeStartupError_layout now boardId failure stackTrace fileName lineNumber :
  encodeStartupReport startupErrorPayloadFormat now boardId failure stackTrace
    fileName lineNumber =
  reportLayout (spaces 20) (spaces 16)
    (boardIdJson boardId) now (fileJson fileName) (lineJson lineNumber)
    (escapeStackTrace stackTrace) (escapeMessage failure) "error"
    "STARTUP" "STARTUP" "STARTUP_ERROR".
Proof.
  unfold encodeStartupReport.
  generalize (boardIdJson boardId), (fileJson fileName), (lineJson lineNumber),
    (escapeStackTrace stackTrace), (escapeMessage failure).
  intros. reflexivity.
Qed.

(** ** The trace locator *)

Lemma prefix_split p s :
  String.prefix p s = true -> s = p +:+ drop_bytes (String.length p) s.
Proof.
  revert s; induction p as [|c p IH]; intros [|d s]; simpl; try discriminate; auto.
  destruct (ascii_dec c d) as [->|]; [|discriminate].
  intros H. rewrite append_cons. f_equal. now apply IH.
Qed.

Lemma hasByte_app c a b : hasByte c (a +:+ b) = hasByte c a || hasByte c b.
Proof.
  induction a as [|x a IH]; [reflexivity|].
  rewrite append_cons. cbn [hasByte]. rewrite IH. now rewrite orb_assoc.
Qed.

Lemma hasByte_drop c n s : hasByte c (drop_bytes n s) = true -> hasByte c s = true.
Proof.
  intros H. rewrite <- (take_drop_bytes n s), hasByte_app, H. apply orb_true_r.
Qed.

Lemma Contains_hasByte s sub c :
  strings.Contains s sub = true -> hasByte c sub = true -> hasByte c s = true.
Proof.
  unfold strings.Contains, strings.Index. intros Hc Hsub.
  destruct (index_from_spec sub s 0) as [[Hr _] | [k (_ & _ & Hp & _)]]; cbn zeta in *.
  - rewrite Hr in Hc. discriminate.
  - apply prefix_split in Hp. apply (hasByte_drop c k). rewrite Hp, hasByte_app, Hsub.
    reflexivity.
Qed.

(** *** White space is removed at the two ends only *)

Lemma trim_left_go_skip runes k s :
  strings.trim_left_go runes k s = strings.trim_left_go runes 0 (drop_bytes k s).
Proof.
  revert k; induction s as [|c s IH]; intros [|k]; try reflexivity.
  cbn [strings.trim_left_go drop_bytes]. apply IH.
Qed.

Lemma leading_space_rune runes s w :
  strings.leading_space runes s = Some w ->
  exists r, In r runes /\ String.prefix r s = true /\ w = String.length r.
Proof.
  unfold strings.leading_space.
  destruct (List.filter _ runes) as [|r rs] eqn:E; [discriminate|].
  intros [= <-]. exists r.
  assert (Hin : In r (List.filter (fun r => String.prefix r s) runes))
    by (rewrite E; now left).
  apply filter_In in Hin as [Hin Hp]. auto.
Qed.

(** Left trimming removes a prefix made of white-space runes; if none of
    the runes holds the byte [c], the prefix does not hold it either. *)
Lemma trim_left_go_prefix runes c s :
  forallb (fun r => negb (hasByte c r) && negb (String.eqb r EmptyString)) runes = true ->
  exists pre, s = pre +:+ strings.trim_left_go runes 0 s /\ hasByte c pre = false.
Proof.
  intros Hrunes.
  assert (Hlen : forall n s, (String.length s <= n)%nat ->
            exists pre, s = pre +:+ strings.trim_left_go runes 0 s /\ hasByte c pre = false).
  { clear s. induction n as [|n IH]; intros s Hn.
    - destruct s; [|simpl in Hn; lia]. exists EmptyString. auto.
    - destruct s as [|x s]; [exists EmptyString; auto|].
      cbn [strings.trim_left_go].
      destruct (strings.leading_space runes (String x s)) as [w|] eqn:E.
      + apply leading_space_rune in E as (r & Hin & Hp & ->).
        rewrite forallb_forall in Hrunes. specialize (Hrunes r Hin).
        apply andb_true_iff in Hrunes as [Hc Hne].
        apply negb_true_iff in Hc.
        destruct r as [|y r]; [discriminate|].
        cbn [String.length Nat.sub]. rewrite Nat.sub_0_r.
        rewrite trim_left_go_skip.
        pose proof (prefix_split _ _ Hp) as Hs.
        cbn [String.length drop_bytes] in Hs.
        destruct (IH (drop_bytes (String.length r) s)) as (pre & Hpre & Hcpre).
        { rewrite length_drop_bytes. simpl in Hn. lia. }
        exists (String y r +:+ pre). split.
        * rewrite append_assoc, <- Hpre. exact Hs.
        * rewrite hasByte_app, Hc, Hcpre. reflexivity.
      + exists EmptyString. auto. }
  apply (Hlen (String.length s)). lia.
Qed.

Lemma rev_bytes_app a b : rev_bytes (a +:+ b) = rev_bytes b +:+ rev_bytes a.
Proof.
  induction a as [|x a IH].
  - cbn [rev_bytes]. now rewrite append_nil_l, append_nil_r.
  - rewrite append_cons. cbn [rev_bytes]. now rewrite IH, append_assoc.
Qed.

Lemma rev_bytes_involutive s : rev_bytes (rev_bytes s) = s.
Proof.
  induction s as [|x s IH]; [reflexivity|].
  cbn [rev_bytes]. rewrite rev_bytes_app, IH. reflexivity.
Qed.

Lemma hasByte_rev c s : hasByte c (rev_bytes s) = hasByte c s.
Proof.
  induction s as [|x s IH]; [reflexivity|].
  cbn [rev_bytes hasByte]. rewrite hasByte_app, IH. cbn [hasByte].
  rewrite orb_false_r. apply orb_comm.
Qed.

(** A byte that no white-space rune holds survives [TrimSpace]. *)
Lemma TrimSpace_hasByte c s :
  forallb (fun r => negb (hasByte c r)) strings.space_runes = true ->
  hasByte c s = true -> hasByte c (strings.TrimSpace s) = true.
Proof.
  intros Hrunes Hs.
  assert (Hne : forallb (fun r => negb (String.eqb r EmptyString))
                  strings.space_runes = true) by reflexivity.
  assert (Hne' : forallb (fun r => negb (String.eqb (rev_bytes r) EmptyString))
                   strings.space_runes = true) by reflexivity.
  rewrite forallb_forall in Hrunes, Hne, Hne'.
  assert (Hl : forallb (fun r => negb (hasByte c r) && negb (String.eqb r EmptyString))
                 strings.space_runes = true).
  { apply forallb_forall. intros r Hin. now rewrite (Hrunes r Hin), (Hne r Hin). }
  assert (Hr : forallb (fun r => negb (hasByte c r) && negb (String.eqb r EmptyString))
                 (map rev_bytes strings.space_runes) = true).
  { apply forallb_forall. intros r Hin.
    apply in_map_iff in Hin as (r0 & <- & Hin).
    now rewrite hasByte_rev, (Hrunes r0 Hin), (Hne' r0 Hin). }
  unfold strings.TrimSpace, strings.TrimRightSpace, strings.TrimLeftSpace.
  destruct (trim_left_go_prefix _ c s Hl) as (pre & Hpre & Hcpre).
  set (t := strings.trim_left_go strings.space_runes 0 s) in *.
  assert (Ht : hasByte c t = true).
  { rewrite Hpre, hasByte_app, Hcpre in Hs. exact Hs. }
  destruct (trim_left_go_prefix _ c (rev_bytes t) Hr) as (pre' & Hpre' & Hcpre').
  rewrite hasByte_rev.
  rewrite <- hasByte_rev, Hpre', hasByte_app, Hcpre' in Ht. exact Ht.
Qed.

(** *** Splitting at a colon *)

Lemma split_go_byte_nonempty c s : strings.split_go (String c EmptyString) 0 s <> [].
Proof.
  induction s as [|x s IH]; [discriminate|].
  cbn [strings.split_go String.prefix String.length Nat.sub].
  destruct (ascii_dec c x); [destruct s; discriminate|].
  destruct (strings.split_go _ 0 s); [contradiction | discriminate].
Qed.

Lemma Split_byte_length c s :
  hasByte c s = true ->
  (2 <= length (strings.Split s (String c EmptyString)))%nat.
Proof.
  unfold strings.Split.
  induction s as [|x s IH]; [discriminate|].
  cbn [hasByte strings.split_go String.prefix String.length Nat.sub].
  destruct (ascii_dec c x) as [->|Hne].
  - intros _.
    assert (Hs : strings.split_go (String x EmptyString) 0 s <> [])
      by apply split_go_byte_nonempty.
    destruct s; destruct (strings.split_go (String x EmptyString) 0 _);
      try contradiction; simpl; lia.
  - intros H. apply orb_true_iff in H as [H|H].
    + apply Ascii.eqb_eq in H. congruence.
    + specialize (IH H).
      destruct (strings.split_go (String c EmptyString) 0 s); simpl in *; lia.
Qed.

(** *** The partial operations of the loop succeed *)

Lemma last_index_from_range sub s i :
  let r := strings.last_index_from i s sub in
  r = -1 \/ i <= r /\ r - i + len sub <= len s.
Proof.
  revert i; induction s as [|c s IH]; intros i; cbn zeta.
  - cbn [strings.last_index_from].
    destruct (String.prefix sub "") eqn:E; [right | now left].
    apply string_prefix_length in E. unfold len. simpl in *. lia.
  - cbn [strings.last_index_from].
    destruct (Z.leb_spec 0 (strings.last_index_from (i + 1) s sub)) as [Hl|Hl].
    + destruct (IH (i + 1)) as [Hr|Hr]; cbn zeta in Hr; [lia|].
      right. unfold len in *. cbn [String.length]. lia.
    + destruct (String.prefix sub (String c s)) eqn:E; [right | now left].
      apply string_prefix_length in E. unfold len. lia.
Qed.

Lemma baseName_ok filePath : baseName filePath = Ok (finalSegment filePath).
Proof.
  unfold baseName, finalSegment, strings.LastIndex.
  pose proof (last_index_from_range "/" filePath 0) as Hr. cbn zeta in Hr.
  set (lastSlash := strings.last_index_from 0 filePath "/") in *.
  destruct (Z.leb_spec 0 lastSlash) as [H0|H0].
  - destruct Hr as [Hr|Hr]; [lia|].
    change (len "/") with 1 in Hr. apply slice_from_ok. lia.
  - destruct Hr as [Hr|Hr]; [|lia]. rewrite Hr. reflexivity.
Qed.

Lemma index_at_last {A : Type} (l : list A) (d : A) :
  l <> [] -> index_at l (Z.of_nat (length l) - 1) = Ok (List.last l d).
Proof.
  intros Hne. unfold index_at.
  destruct l as [|a l]; [contradiction|].
  destruct (Z.leb_spec 0 (Z.of_nat (length (a :: l)) - 1)) as [_|H];
    [|simpl in H; lia].
  replace (Z.to_nat (Z.of_nat (length (a :: l)) - 1)) with (length l)
    by (simpl; lia).
  clear Hne. revert a. induction l as [|b l IH]; intros a; [reflexivity|].
  change (nth_error (a :: b :: l) (length (b :: l)))
    with (nth_error (b :: l) (length l)).
  rewrite IH. reflexivity.
Qed.

Lemma slice_list_to_removelast {A : Type} (l : list A) :
  l <> [] -> slice_list_to l (Z.of_nat (length l) - 1) = Ok (List.removelast l).
Proof.
  intros Hne. unfold slice_list_to.
  destruct l as [|a l]; [contradiction|].
  destruct (Z.leb_spec 0 (Z.of_nat (length (a :: l)) - 1)) as [_|H];
    [|simpl in H; lia].
  destruct (Z.leb_spec (Z.of_nat (length (a :: l)) - 1) (Z.of_nat (length (a :: l))));
    [|lia].
  cbn [andb]. f_equal.
  replace (Z.to_nat (Z.of_nat (length (a :: l)) - 1)) with (Nat.pred (length (a :: l)))
    by (simpl; lia).
  symmetry. apply removelast_firstn_len.
Qed.

Lemma stripOffset_ok lineStr :
  (let spaceIdx := strings.Index lineStr " " in
   if 0 <? spaceIdx then slice_to lineStr spaceIdx else Ok lineStr)
  = Ok (stripOffset lineStr).
Proof.
  cbn zeta. unfold stripOffset.
  pose proof (Index_range lineStr " ") as Hr.
  destruct (Z.ltb_spec 0 (strings.Index lineStr " ")); [|reflexivity].
  destruct Hr as [Hr|Hr]; [lia|].
  apply slice_to_ok. change (len " ") with 1 in Hr. lia.
Qed.

Lemma index_at_nth_error {A : Type} (l : list A) (i : Z) (a : A) :
  0 <= i -> nth_error l (Z.to_nat i) = Some a -> index_at l i = Ok a.
Proof.
  intros Hi Hn. unfold index_at.
  destruct (Z.leb_spec 0 i); [|lia]. now rewrite Hn.
Qed.

(** One iteration of the loop yields what the frame made of the line and
    its predecessor yields; the first line of the trace yields nothing. *)
Lemma scanLine_first lines line : scanLine lines 0 line = Ok None.
Proof.
  unfold scanLine. destruct (strings.HasPrefix line "goroutine"); [reflexivity|].
  now rewrite andb_false_r.
Qed.

Lemma scanLine_frameOf lines i descriptor line :
  0 < i ->
  nth_error lines (Z.to_nat (i - 1)) = Some descriptor ->
  scanLine lines i line = Ok (frameOf descriptor line).
Proof.
  intros Hi Hprev.
  unfold scanLine, frameOf, acceptedFrame, isFrameLine, rejectedFrame.
  destruct (strings.HasPrefix line "goroutine"); [reflexivity|]. cbn [negb andb].
  destruct (Z.ltb_spec 0 i); [|lia]. rewrite andb_true_r.
  destruct (strings.Contains line ".go:") eqn:Hgo; [|reflexivity].
  rewrite (index_at_nth_error lines (i - 1) descriptor) by (auto; lia).
  cbn [bind andb].
  destruct (isRecoveryMachinery descriptor); [reflexivity|]. cbn [orb].
  assert (Hlen : (2 <= length (strings.Split (strings.TrimSpace line) ":"))%nat).
  { apply Split_byte_length, TrimSpace_hasByte; [reflexivity|].
    now apply (Contains_hasByte line ".go:"). }
  assert (Hne : strings.Split (strings.TrimSpace line) ":" <> [])
    by (destruct (strings.Split _ ":"); [simpl in Hlen; lia | discriminate]).
  destruct (Z.leb_spec 2 (Z.of_nat (length (strings.Split (strings.TrimSpace line) ":"))));
    [|lia].
  rewrite slice_list_to_removelast by assumption. cbn [bind].
  fold (framePath line).
  destruct (isStandardLibrary (framePath line)); [reflexivity|]. cbn [negb].
  rewrite (index_at_last _ EmptyString) by assumption. cbn [bind].
  rewrite stripOffset_ok. cbn [bind]. fold (frameLineText line).
  destruct (strconv.Atoi (frameLineText line)); [|reflexivity].
  rewrite baseName_ok. reflexivity.
Qed.

(** The loop, started anywhere in the trace, finds the first frame that
    yields something. *)
Lemma locateFrom_firstFrame done rest :
  locateFrom (done ++ rest) (Z.of_nat (length done)) rest =
  Ok (default (EmptyString, 0) (firstFrame (last done) rest)).
Proof.
  revert done; induction rest as [|line rest IH]; intros done; [reflexivity|].
  cbn [locateFrom firstFrame].
  assert (Hscan : scanLine (done ++ line :: rest) (Z.of_nat (length done)) line =
                  Ok (from_option (fun d => frameOf d line) None (last done))).
  { destruct done as [|a done] using rev_ind.
    - apply scanLine_first.
    - rewrite last_snoc. cbn [from_option].
      apply scanLine_frameOf; rewrite length_app; simpl; [lia|].
      replace (Z.to_nat (Z.of_nat (length done + 1) - 1)) with (length done) by lia.
      rewrite <- app_assoc. rewrite nth_error_app2 by lia.
      now rewrite Nat.sub_diag. }
  rewrite Hscan. cbn [bind].
  destruct (from_option _ None (last done)) as [located|]; [reflexivity|].
  specialize (IH (done ++ [line])).
  rewrite <- app_assoc, length_app, last_snoc in IH. cbn [app length] in IH.
  replace (Z.of_nat (length done) + 1) with (Z.of_nat (length done + 1)) by lia.
  exact IH.
Qed.

Lemma locate_firstFrame stackTrace :
  locate stackTrace =
  Ok (default (EmptyString, 0)
        (firstFrame None (strings.Split stackTrace newline))).
Proof. unfold locate. apply (locateFrom_firstFrame []). Qed.

(** *** The first frame that yields something *)

Lemma frameOf_not_accepted descriptor line :
  acceptedFrame descriptor line = false -> frameOf descriptor line = None.
Proof. unfold frameOf. now intros ->. Qed.

Lemma frameOf_accepted descriptor line :
  acceptedFrame descriptor line = true ->
  frameOf descriptor line =
  match strconv.Atoi (frameLineText line) with
  | Some lineNum => Some (finalSegment (framePath line), lineNum)
  | None => None
  end.
Proof. unfold frameOf. now intros ->. Qed.

Lemma firstFrame_none done rest :
  (forall d l, adjacent (done ++ rest) d l -> frameOf d l = None) ->
  firstFrame (last done) rest = None.
Proof.
  revert done; induction rest as [|line rest IH]; intros done H; [reflexivity|].
  cbn [firstFrame].
  assert (Hhere : from_option (fun d => frameOf d line) None (last done) = None).
  { destruct done as [|a done] using rev_ind; [reflexivity|].
    rewrite last_snoc. cbn [from_option]. apply H.
    exists done, rest. now rewrite <- app_assoc. }
  rewrite Hhere.
  specialize (IH (done ++ [line])). rewrite last_snoc in IH. apply IH.
  intros d l Hadj. apply H. now rewrite <- app_assoc in Hadj.
Qed.

Lemma firstFrame_found done before d l after located :
  frameOf d l = Some located ->
  (forall d' l', adjacent (done ++ before ++ [d]) d' l' -> frameOf d' l' = None) ->
  firstFrame (last done) (before ++ d :: l :: after) = Some located.
Proof.
  intros Hhit. revert done.
  induction before as [|b before IH]; intros done H.
  - cbn [app firstFrame].
    assert (Hhere : from_option (fun x => frameOf x d) None (last done) = None).
    { destruct done as [|a done] using rev_ind; [reflexivity|].
      rewrite last_snoc. cbn [from_option]. apply H.
      exists done, []. now rewrite <- app_assoc. }
    rewrite Hhere. cbn [from_option]. now rewrite Hhit.
  - cbn [app firstFrame].
    assert (Hhere : from_option (fun x => frameOf x b) None (last done) = None).
    { destruct done as [|a done] using rev_ind; [reflexivity|].
      rewrite last_snoc. cbn [from_option]. apply H.
      exists done, (before ++ [d]). now rewrite <- app_assoc. }
    rewrite Hhere.
    specialize (IH (done ++ [b])). rewrite last_snoc in IH. apply IH.
    intros d' l' Hadj. apply H. now rewrite <- app_assoc in Hadj.
Qed.

Lemma firstFrame_skip prev line rest :
  isFrameLine line = false ->
  firstFrame prev (line :: rest) = firstFrame (Some line) rest.
Proof.
  intros H. cbn [firstFrame].
  replace (from_option (fun d => frameOf d line) None prev) with (@None (string * Z));
    [reflexivity|].
  destruct prev as [d|]; [|reflexivity]. cbn [from_option].
  symmetry. apply frameOf_not_accepted. unfold acceptedFrame. now rewrite H.
Qed.

Lemma firstFrame_rejected prev d l rest :
  isFrameLine d = false -> rejectedFrame d l = true ->
  firstFrame prev (d :: l :: rest) = firstFrame (Some l) rest.
Proof.
  intros Hd Hrej. rewrite firstFrame_skip by assumption.
  cbn [firstFrame from_option].
  rewrite frameOf_not_accepted; [reflexivity|].
  unfold acceptedFrame. rewrite Hrej. apply andb_false_r.
Qed.

Lemma firstFrame_after_machinery prev header machinery d l after located :
  Forall (fun h => isFrameLine h = false) header ->
  Forall machineryFrame machinery ->
  isFrameLine d = false ->
  frameOf d l = Some located ->
  firstFrame prev (header ++ frameLines machinery ++ d :: l :: after) = Some located.
Proof.
  intros Hheader Hmach Hd Hhit. revert prev.
  induction Hheader as [|h header Hh _ IHh]; intros prev.
  - cbn [app]. revert prev.
    induction Hmach as [|[dm lm] machinery [Hdm Hrej] _ IHm]; intros prev.
    + cbn [frameLines flat_map app]. rewrite firstFrame_skip by assumption.
      cbn [firstFrame from_option]. now rewrite Hhit.
    + cbn [frameLines flat_map app fst snd].
      rewrite firstFrame_rejected by assumption. apply IHm.
  - cbn [app]. rewrite firstFrame_skip by assumption. apply IHh.
Qed.

Lemma adjacent_pairs lines d l :
  adjacent lines d l -> In (d, l) (adjacentPairs lines).
Proof.
  intros (before & after & ->).
  induction before as [|b before IH]; [now left|].
  destruct before as [|b' before]; cbn [app adjacentPairs] in *; now right.
Qed.

Lemma adjacent_check (ok : string -> string -> bool) lines :
  forallb (fun pair => ok (fst pair) (snd pair)) (adjacentPairs lines) = true ->
  forall d l, adjacent lines d l -> ok d l = true.
Proof.
  intros H d l Hadj. rewrite forallb_forall in H.
  apply (H (d, l)). now apply adjacent_pairs.
Qed.

(** C2 (as stated) fails: in the trace below the first accepted frame is
    that of app.go, whose line number text 4x2 is no integer; the locator
    passes it over and reports util.go, line 7, a later frame. *)
Lemma locatorAsStated_counterexample : ~ locatorAsStated garbledTrace.
Proof.
  intros [_ H].
  destruct (H ["goroutine 7 [running]:"] "main.handler(...)"
              (tabbed "/app/app.go:4x2")
              ["main.helper(...)"; tabbed "/app/util.go:7 +0x1d"])
    as (lineNum & _ & Hparse & _).
  - reflexivity.
  - reflexivity.
  - intros d' l' Hadj.
    apply (adjacent_check (fun d l => negb (acceptedFrame d l))) in Hadj;
      [now apply negb_true_iff in Hadj | reflexivity].
  - vm_compute in Hparse. discriminate Hparse.
Qed.

(** C2 (amended) -- For every trace text: if every frame is rejected (its
    descriptor names the recovery machinery or its path is a recognised
    standard-library path), or more generally if no accepted frame has a
    line number text that parses as an integer, the locator returns absent
    file and line.  Otherwise it returns, from the first accepted frame in
    scan order whose line number text (the text after the last colon,
    without the offset from the first space on) parses as an integer, the
    final segment of the path as the file and that integer as the line;
    accepted frames whose text does not parse are passed over.  In
    particular, after any number of machinery frames the first application
    frame that parses is returned. *)
Theorem locate_first_parsed_frame (stackTrace : string) :
  let lines := strings.Split stackTrace newline in
  ((forall descriptor line,
      adjacent lines descriptor line -> isFrameLine line = true ->
      rejectedFrame descriptor line = true) ->
   locate stackTrace = Ok (EmptyString, 0)) /\
  ((forall descriptor line,
      adjacent lines descriptor line -> acceptedFrame descriptor line = true ->
      strconv.Atoi (frameLineText line) = None) ->
   locate stackTrace = Ok (EmptyString, 0)) /\
  (forall before descriptor line after lineNum,
     lines = before ++ descriptor :: line :: after ->
     acceptedFrame descriptor line = true ->
     strconv.Atoi (frameLineText line) = Some lineNum ->
     (forall d' l', adjacent (before ++ [descriptor]) d' l' ->
                    acceptedFrame d' l' = true ->
                    strconv.Atoi (frameLineText l') = None) ->
     locate stackTrace = Ok (finalSegment (framePath line), lineNum)) /\
  (forall header machinery descriptor line after lineNum,
     lines = header ++ frameLines machinery ++ descriptor :: line :: after ->
     Forall (fun h => isFrameLine h = false) header ->
     Forall machineryFrame machinery ->
     isFrameLine descriptor = false ->
     acceptedFrame descriptor line = true ->
     strconv.Atoi (frameLineText line) = Some lineNum ->
     locate stackTrace = Ok (finalSegment (framePath line), lineNum)).
Proof.
  intros lines. rewrite locate_firstFrame. fold lines.
  assert (Hunparsed :
            (forall d l, adjacent lines d l -> acceptedFrame d l = true ->
                         strconv.Atoi (frameLineText l) = None) ->
            Ok (default (EmptyString, 0) (firstFrame None lines)) =
            Ok (EmptyString, 0)).
  { intros H.
    replace (firstFrame None lines) with (@None (string * Z)); [reflexivity|].
    symmetry. apply (firstFrame_none [] lines).
    intros d l Hadj. destruct (acceptedFrame d l) eqn:Hacc.
    - rewrite frameOf_accepted by assumption. now rewrite (H d l Hadj Hacc).
    - now apply frameOf_not_accepted. }
  repeat split.
  - intros H. apply Hunparsed. intros d l Hadj Hacc.
    unfold acceptedFrame in Hacc. apply andb_true_iff in Hacc as [Hframe Hrej].
    rewrite (H d l Hadj Hframe) in Hrej. discriminate Hrej.
  - exact Hunparsed.
  - intros before d l after lineNum Hlines Hacc Hparse Hbefore.
    rewrite Hlines.
    replace (firstFrame None (before ++ d :: l :: after))
      with (Some (finalSegment (framePath l), lineNum)); [reflexivity|].
    symmetry. apply (firstFrame_found [] before d l after).
    + rewrite frameOf_accepted by assumption. now rewrite Hparse.
    + intros d' l' Hadj. destruct (acceptedFrame d' l') eqn:Hacc'.
      * rewrite frameOf_accepted by assumption. now rewrite (Hbefore d' l' Hadj Hacc').
      * now apply frameOf_not_accepted.
  - intros header machinery d l after lineNum Hlines Hheader Hmach Hd Hacc Hparse.
    rewrite Hlines.
    rewrite (firstFrame_after_machinery None header machinery d l after
               (finalSegment (framePath l), lineNum)); auto.
    rewrite frameOf_accepted by assumption. now rewrite Hparse.
Qed.

Lemma locate_first_parsed_frame_witness :
  locate machineryOnlyTrace = Ok (EmptyString, 0) /\
  locate garbledTrace = Ok ("util.go", 7) /\
  locate scenarioTrace = Ok ("app.go", 42).
Proof.
  split; [|split].
  - apply (proj1 (locate_first_parsed_frame machineryOnlyTrace)).
    intros d l Hadj.
    apply (adjacent_check (fun d l => negb (isFrameLine l) || rejectedFrame d l)) in Hadj;
      [|reflexivity].
    intros Hframe. rewrite Hframe in Hadj. exact Hadj.
  - apply (proj1 (proj2 (proj2 (locate_first_parsed_frame garbledTrace)))
             ["goroutine 7 [running]:"; "main.handler(...)"; tabbed "/app/app.go:4x2"]
             "main.helper(...)" (tabbed "/app/util.go:7 +0x1d") [] 7).
    + reflexivity.
    + reflexivity.
    + reflexivity.
    + intros d' l' Hadj.
      apply (adjacent_check
               (fun d l => negb (acceptedFrame d l)
                           || negb (is_Some_bool (strconv.Atoi (frameLineText l)))))
        in Hadj; [|reflexivity].
      intros Hacc. rewrite Hacc in Hadj. cbn [negb orb] in Hadj.
      destruct (strconv.Atoi (frameLineText l')); [discriminate Hadj | reflexivity].
  - apply (proj2 (proj2 (proj2 (locate_first_parsed_frame scenarioTrace)))
             ["goroutine 7 [running]:"]
             [ ("main.panicRecoveryMiddleware.func1.1()", tabbed "/app/main.go:53 +0x9c");
               ("panic({0x5e3a20, 0x6a1f50})",
                tabbed "/usr/local/go/src/runtime/panic.go:770 +0x132") ]
             "main.handler(...)" (tabbed "/app/app.go:42 +0x1d")
             [ "net/http.HandlerFunc.ServeHTTP(...)";
               tabbed "/usr/local/go/src/net/http/server.go:2166 +0x29" ] 42).
    + reflexivity.
    + repeat constructor.
    + repeat constructor.
    + reflexivity.
    + reflexivity.
    + reflexivity.
Defined.

(** ** The report encoder: absent values *)

Lemma mapBytes_nonempty f s :
  (forall c, f c <> EmptyString) -> s <> EmptyString -> mapBytes f s <> EmptyString.
Proof.
  intros Hf Hs. destruct s as [|c s]; [contradiction|].
  cbn [mapBytes]. specialize (Hf c). destruct (f c); [contradiction | discriminate].
Qed.

Lemma quoted_nonempty text : text <> EmptyString -> quoted text <> quoted EmptyString.
Proof.
  intros Hne H. unfold quoted in H. rewrite !append_cons in H.
  injection H as H. destruct text as [|c text]; [contradiction|].
  rewrite append_cons in H. injection H as _ H.
  destruct text; discriminate H.
Qed.

(** C8 -- Every payload, the request report and the two start-up reports
    alike, has the keys boardId, file and line, and the token behind each
    is [null] when the value is absent (empty tenant id, empty file name,
    line not positive); otherwise it is the quoted text, or the decimal
    number.  No value is ever written as the empty string. *)
Theorem absent_values_are_null now boardId r err stackTrace fileName lineNumber :
  let tenant := if String.eqb boardId EmptyString then None else Some (quoted boardId) in
  let file :=
    if String.eqb fileName EmptyString then None
    else Some (quoted (mapBytes (fun c => if Ascii.eqb c dquote
                                          then String backslash (String dquote EmptyString)
                                          else String c EmptyString) fileName)) in
  let line := if 0 <? lineNumber then Some (fmt.decimal lineNumber) else None in
  encodeReport now boardId r err stackTrace fileName lineNumber =
    reportLayout (spaces 8) (spaces 4)
      (optionalToken tenant) now (optionalToken file) (optionalToken line)
      (escapeStackTrace stackTrace) (escapeMessage err) "panic"
      (URL_Path r) (Method r) (UserAgent r) /\
  encodeStartupReport startupPanicPayloadFormat now boardId err stackTrace
      fileName lineNumber =
    reportLayout (spaces 24) (spaces 20)
      (optionalToken tenant) now (optionalToken file) (optionalToken line)
      (escapeStackTrace stackTrace) (escapeMessage err) "panic"
      "STARTUP" "STARTUP" "STARTUP_ERROR" /\
  encodeStartupReport startupErrorPayloadFormat now boardId err stackTrace
      fileName lineNumber =
    reportLayout (spaces 20) (spaces 16)
      (optionalToken tenant) now (optionalToken file) (optionalToken line)
      (escapeStackTrace stackTrace) (escapeMessage err) "error"
      "STARTUP" "STARTUP" "STARTUP_ERROR" /\
  optionalToken (@None string) = "null" /\
  optionalToken tenant <> quoted EmptyString /\
  optionalToken file <> quoted EmptyString.
Proof.
  intros tenant file line.
  assert (Htenant : boardIdJson boardId = optionalToken tenant).
  { unfold boardIdJson, tenant. destruct (String.eqb boardId EmptyString); reflexivity. }
  assert (Hfile : fileJson fileName = optionalToken file).
  { unfold fileJson, file, nonempty.
    destruct (String.eqb fileName EmptyString); [reflexivity|]. cbn [negb optionalToken].
    unfold q. change (String (if Ascii.eqb "'" "'" then dquote else "'") "")
      with (String dquote EmptyString).
    rewrite ReplaceAll_byte. reflexivity. }
  assert (Hline : lineJson lineNumber = optionalToken line).
  { unfold lineJson, line. destruct (0 <? lineNumber); [|reflexivity].
    cbn [optionalToken fmt.Sprintf existsb Ascii.eqb Bool.eqb orb fmt.render].
    apply append_nil_r. }
  rewrite encodeReport_layout, encodeStartupPanic_layout, encodeStartupError_layout.
  rewrite Htenant, Hfile, Hline.
  repeat split.
  - unfold tenant. destruct (String.eqb_spec boardId EmptyString) as [|Hne];
      [discriminate|]. now apply quoted_nonempty.
  - unfold file. destruct (String.eqb_spec fileName EmptyString) as [|Hne];
      [discriminate|]. cbn [optionalToken].
    apply quoted_nonempty, mapBytes_nonempty; [|assumption].
    intros c. destruct (Ascii.eqb c dquote); discriminate.
Qed.

(** ** The report dispatcher *)

Lemma locate_total stackTrace : exists located, locate stackTrace = Ok located.
Proof. rewrite locate_firstFrame. eauto. Qed.


(** C9 -- The dispatcher returns normally on every input.  A request
    that cannot be built, a failed exchange and a status other than 200
    each leave one line in the log and nothing else; only the status 200
    is logged as a plain response. *)
Theorem sendErrorToEndpoint_swallows_failures
  net now endpointUrl boardId r err stackTrace :
  exists sent,
    sendErrorToEndpoint net now endpointUrl boardId r err stackTrace = Ok sent /\
    match newRequestError net endpointUrl with
    | Some err2 =>
        sent_request sent = None /\
        sent_log sent = ["[PANIC RECOVERY] Failed to create request: " +:+ err2]
    | None =>
        exists req,
          sent_request sent = Some req /\
          req_method req = "POST" /\ req_url req = endpointUrl /\
          req_contentType req = "application/json" /\
          match clientDo net req with
          | DoFailed err2 =>
              sent_log sent =
              ["[PANIC RECOVERY] Failed to send error to endpoint: " +:+ err2]
          | DoResponse StatusCode body =>
              sent_log sent =
              [ if StatusCode =? 200
                then "[PANIC RECOVERY] Error endpoint response: 200"
                else "[PANIC RECOVERY] Error endpoint response: "
                     +:+ fmt.decimal StatusCode +:+ " - " +:+ body ]
          end
    end.
Proof.
  unfold sendErrorToEndpoint.
  destruct (locate_total stackTrace) as [located ->]. cbn [bind].
  destruct (newRequestError net endpointUrl) as [err2|].
  - eexists. split; [reflexivity|]. split; [reflexivity|].
    cbn. now rewrite append_nil_r.
  - set (req := {| req_method := "POST"; req_url := endpointUrl;
                   req_contentType := "application/json"; req_body := _ |}).
    destruct (clientDo net req) as [err2|StatusCode body] eqn:Hdo.
    + eexists. split; [reflexivity|]. exists req. rewrite Hdo.
      repeat split. cbn. now rewrite append_nil_r.
    + destruct (Z.eqb_spec StatusCode 200) as [->|Hne]; cbn [negb].
      * eexists. split; [reflexivity|]. exists req. rewrite Hdo.
        repeat split.
      * eexists. split; [reflexivity|]. exists req. rewrite Hdo.
        repeat split. cbn [sent_log]. destruct (Z.eqb_spec StatusCode 200); [lia|].
        cbn. now rewrite append_nil_r.
Qed.

(** ** Start-up failures *)







(** ** The recovery middleware *)

Lemma extractBoardId_total unicode_lower r env :
  isASCII (Host r) = true ->
  isASCII (os.Getenv env "RUNTIME_ERROR_ENDPOINT_URL") = true ->
  exists boardId, extractBoardId unicode_lower r env = Ok boardId.
Proof. intros H1 H2. rewrite extractBoardId_resolve by assumption. eauto. Qed.



(** ** Reading a JSON string back *)

Lemma length_append a b :
  String.length (a +:+ b) = (String.length a + String.length b)%nat.
Proof.
  induction a as [|c a IH]; [reflexivity|].
  rewrite append_cons. cbn [String.length]. now rewrite IH.
Qed.

Lemma bytes_append a b :
  list_ascii_of_string (a +:+ b) = list_ascii_of_string a ++ list_ascii_of_string b.
Proof.
  induction a as [|c a IH]; [reflexivity|].
  rewrite append_cons. cbn [list_ascii_of_string app]. now rewrite IH.
Qed.

Lemma noControls_app a b : noControls (a +:+ b) = noControls a && noControls b.
Proof. unfold noControls. now rewrite bytes_append, forallb_app. Qed.

Lemma needsEscaping_app a b :
  needsEscaping (a +:+ b) = needsEscaping a || needsEscaping b.
Proof. unfold needsEscaping. now rewrite bytes_append, existsb_app. Qed.

Lemma hasControl_app a b : hasControl (a +:+ b) = hasControl a || hasControl b.
Proof. unfold hasControl. now rewrite bytes_append, existsb_app. Qed.

Lemma hasControl_noControls s : hasControl s = negb (noControls s).
Proof.
  unfold hasControl, noControls.
  induction (list_ascii_of_string s) as [|c l IH]; [reflexivity|].
  cbn [existsb forallb]. rewrite IH, negb_andb, negb_involutive. reflexivity.
Qed.

Lemma simpleEscape_not_control e x :
  json.simpleEscape e = Some x -> isControl e = false.
Proof.
  destruct e as [[] [] [] [] [] [] [] []]; intros H; try discriminate H; reflexivity.
Qed.

Lemma hexval_not_control h v : json.hexval h = Some v -> isControl h = false.
Proof.
  destruct h as [[] [] [] [] [] [] [] []]; intros H; try discriminate H; reflexivity.
Qed.

Lemma hex4_not_control a b c d u :
  json.hex4 a b c d = Some u ->
  noControls (String a (String b (String c (String d EmptyString)))) = true.
Proof.
  unfold json.hex4.
  destruct (json.hexval a) eqn:Ha; [|discriminate].
  destruct (json.hexval b) eqn:Hb; [|discriminate].
  destruct (json.hexval c) eqn:Hc; [|discriminate].
  destruct (json.hexval d) eqn:Hd; [|discriminate].
  intros _. unfold noControls. cbn [list_ascii_of_string forallb].
  now rewrite (hexval_not_control _ _ Ha), (hexval_not_control _ _ Hb),
    (hexval_not_control _ _ Hc), (hexval_not_control _ _ Hd).
Qed.

Lemma length_utf8 u : (String.length (json.utf8 u) <= 4)%nat.
Proof.
  unfold json.utf8.
  destruct (u <? 128); [simpl; lia|].
  destruct (u <? 2048); [simpl; lia|].
  destruct (u <? 65536); simpl; lia.
Qed.

Lemma push_Some p res d rest :
  json.push p res = Some (d, rest) ->
  exists d', res = Some (d', rest) /\ d = p +:+ d'.
Proof.
  destruct res as [[d' rest']|]; [|discriminate].
  cbn [json.push]. intros [= <- <-]. eauto.
Qed.

(** An escape sequence [pre] that denotes the shorter text [p]. *)
Lemma decodesFrom_escape pre p t d' rest :
  (String.length p < String.length pre)%nat ->
  noControls pre = true ->
  decodesFrom t d' rest ->
  decodesFrom (pre +:+ t) (p +:+ d') rest.
Proof.
  intros Hlen Hpre (raw & -> & Hraw & Hle & _).
  exists (pre +:+ raw). rewrite append_assoc, noControls_app, Hpre, Hraw.
  rewrite !length_append. repeat split; lia.
Qed.

(** A byte that stands for itself. *)
Lemma decodesFrom_plain c t d' rest :
  needsEscape c = false ->
  decodesFrom t d' rest ->
  decodesFrom (String c t) (String c EmptyString +:+ d') rest.
Proof.
  intros Hc (raw & -> & Hraw & Hle & Heq).
  exists (String c raw). split; [reflexivity|].
  unfold needsEscape in Hc. apply orb_false_iff in Hc as [Hc Hctl].
  split; [|split].
  - unfold noControls in *. cbn [list_ascii_of_string forallb].
    now rewrite Hctl, Hraw.
  - rewrite append_cons. cbn [String.length]. rewrite append_nil_l. lia.
  - rewrite append_cons, append_nil_l. cbn [String.length]. intros Hl.
    destruct Heq as [-> Hesc]; [lia|]. split; [reflexivity|].
    unfold needsEscaping in *. cbn [list_ascii_of_string existsb].
    rewrite Hesc. unfold needsEscape. now rewrite Hc, Hctl.
Qed.

Lemma unquote_decodesFrom n :
  forall s d rest,
    (String.length s <= n)%nat ->
    json.unquote s = Some (d, rest) -> decodesFrom s d rest.
Proof.
  induction n as [|n IH]; intros s d rest Hn H.
  - destruct s; [discriminate H | simpl in Hn; lia].
  - destruct s as [|c s']; [discriminate H|].
    cbn [json.unquote] in H. cbn [String.length] in Hn.
    destruct (Ascii.eqb c dquote) eqn:Hq.
    { apply Ascii.eqb_eq in Hq. subst c. injection H as <- <-.
      exists EmptyString. repeat split; reflexivity. }
    destruct (Ascii.eqb c backslash) eqn:Hb.
    2:{ destruct (byte_of c <? 32) eqn:Hctl; [discriminate H|].
        apply push_Some in H as (d' & H & ->).
        apply decodesFrom_plain.
        - unfold needsEscape, isControl. now rewrite Hq, Hb, Hctl.
        - apply IH; [lia | assumption]. }
    apply Ascii.eqb_eq in Hb. subst c.
    destruct s' as [|e s'']; [discriminate H|]. cbn [String.length] in Hn.
    destruct (json.simpleEscape e) as [x|] eqn:He.
    { apply push_Some in H as (d' & H & ->).
      apply (decodesFrom_escape (String backslash (String e EmptyString))).
      - simpl. lia.
      - unfold noControls. cbn [list_ascii_of_string forallb].
        now rewrite (simpleEscape_not_control _ _ He).
      - apply IH; [lia | assumption]. }
    destruct (Ascii.eqb e "u") eqn:Hu; [|discriminate H].
    apply Ascii.eqb_eq in Hu. subst e.
    destruct s'' as [|h1 [|h2 [|h3 [|h4 s4]]]]; try discriminate H.
    cbn [String.length] in Hn.
    destruct (json.hex4 h1 h2 h3 h4) as [u|] eqn:Hhex; [|discriminate H].
    pose proof (hex4_not_control _ _ _ _ _ Hhex) as Hh.
    assert (Hsix : forall p d',
               (String.length p <= 4)%nat ->
               json.unquote s4 = Some (d', rest) ->
               decodesFrom (String backslash (String "u" (String h1 (String h2
                              (String h3 (String h4 s4))))))
                 (p +:+ d') rest).
    { intros p d' Hp Hs4.
      apply (decodesFrom_escape
               (String backslash (String "u" (String h1 (String h2
                  (String h3 (String h4 EmptyString))))))).
      - simpl. lia.
      - unfold noControls in *. cbn [list_ascii_of_string forallb] in *.
        exact Hh.
      - apply IH; [lia | assumption]. }
    assert (Hrepl : forall res,
               json.push json.replacement res = Some (d, rest) ->
               res = json.unquote s4 ->
               decodesFrom (String backslash (String "u" (String h1 (String h2
                              (String h3 (String h4 s4)))))) d rest).
    { intros res Hres ->. apply push_Some in Hres as (d' & Hres & ->).
      apply Hsix; [simpl; lia | assumption]. }
    destruct (json.isHighSurrogate u).
    2:{ destruct (json.isLowSurrogate u); [now apply (Hrepl _ H)|].
        apply push_Some in H as (d' & H & ->).
        apply Hsix; [apply length_utf8 | assumption]. }
    destruct s4 as [|b [|e2 [|l1 [|l2 [|l3 [|l4 s10]]]]]];
      try (now apply (Hrepl _ H)).
    destruct (Ascii.eqb b backslash && Ascii.eqb e2 "u") eqn:Hpair;
      [|now apply (Hrepl _ H)].
    destruct (json.hex4 l1 l2 l3 l4) as [lo|] eqn:Hlo; [|now apply (Hrepl _ H)].
    destruct (json.isLowSurrogate lo); [|now apply (Hrepl _ H)].
    apply andb_true_iff in Hpair as [Hb2 He2].
    apply Ascii.eqb_eq in Hb2, He2. subst b e2.
    apply push_Some in H as (d' & H & ->).
    pose proof (hex4_not_control _ _ _ _ _ Hlo) as Hl.
    apply (decodesFrom_escape
             (String backslash (String "u" (String h1 (String h2 (String h3 (String h4
                (String backslash (String "u" (String l1 (String l2 (String l3
                   (String l4 EmptyString))))))))))))).
    + pose proof (length_utf8 (65536 + (u - 55296) * 1024 + (lo - 56320))).
      simpl. lia.
    + unfold noControls in *. cbn [list_ascii_of_string forallb] in *.
      apply andb_true_iff in Hh as [-> Hh]. apply andb_true_iff in Hh as [-> Hh].
      apply andb_true_iff in Hh as [-> Hh]. apply andb_true_iff in Hh as [-> _].
      exact Hl.
    + apply IH; [cbn [String.length] in Hn; lia | assumption].
Qed.

Lemma append_eq_split a x b y :
  a +:+ x = b +:+ y ->
  (exists z, b = a +:+ z) \/ (exists c z, a = b +:+ String c z /\ y = String c z +:+ x).
Proof.
  revert b; induction a as [|c a IH]; intros b H.
  - left. exists b. reflexivity.
  - destruct b as [|c' b].
    + right. exists c, a. split; [reflexivity|]. now rewrite append_nil_l in H.
    + rewrite !append_cons in H. injection H as -> H.
      destruct (IH b H) as [[z ->]|(d & z & -> & ->)].
      * left. exists z. reflexivity.
      * right. exists d, z. split; reflexivity.
Qed.

(** A text with a control character and no double quote cannot be the
    start of a JSON string, whatever follows it. *)
Lemma unquote_control text rest :
  hasControl text = true -> hasByte dquote text = false ->
  json.unquote (text +:+ String dquote rest) = None.
Proof.
  intros Hctl Hq.
  destruct (json.unquote (text +:+ String dquote rest)) as [[d rest']|] eqn:H;
    [|reflexivity].
  apply (unquote_decodesFrom _ _ _ _ (Nat.le_refl _)) in H
    as (raw & Hraw & Hnc & _).
  destruct (append_eq_split _ _ _ _ Hraw) as [[z ->]|(c & z & -> & Hrest)].
  - rewrite noControls_app in Hnc. apply andb_true_iff in Hnc as [Hnc _].
    rewrite hasControl_noControls, Hnc in Hctl. discriminate Hctl.
  - rewrite append_cons in Hrest. injection Hrest as <- _.
    rewrite hasByte_app in Hq. cbn [hasByte] in Hq.
    rewrite Ascii.eqb_refl, orb_true_r in Hq. discriminate Hq.
Qed.

(** A text that needs escaping is not what the string made of it
    denotes. *)
Lemma unquote_not_verbatim text rest :
  needsEscaping text = true ->
  json.unquote (text +:+ String dquote (String "}" EmptyString)) <> Some (text, rest).
Proof.
  intros Hesc H.
  apply (unquote_decodesFrom _ _ _ _ (Nat.le_refl _)) in H
    as (raw & Hraw & _ & Hle & Heq).
  assert (Hlen : (String.length text + 2 = String.length raw + 1 + String.length rest)%nat).
  { apply (f_equal String.length) in Hraw. rewrite !length_append in Hraw.
    cbn [String.length] in Hraw. lia. }
  destruct (Nat.eq_dec (String.length text) (String.length raw)) as [Hl|Hl].
  - destruct (Heq Hl) as [-> Hno]. rewrite Hno in Hesc. discriminate Hesc.
  - assert (rest = EmptyString) by (destruct rest; [reflexivity | simpl in Hlen; lia]).
    subst rest. apply (f_equal rev_bytes) in Hraw.
    rewrite !rev_bytes_app in Hraw. cbn [rev_bytes] in Hraw.
    rewrite !append_nil_l, !append_cons, !append_nil_l in Hraw.
    discriminate Hraw.
Qed.

Lemma panicBody_text err :
  panicBody err =
  q "{'error':'An error occurred while processing your request','message':'"
  +:+ fmt.Sprintf "%v" [err] +:+ String dquote (String "}" EmptyString).
Proof.
  unfold panicBody. generalize (fmt.Sprintf "%v" [err]). intros text. reflexivity.
Qed.

(** *** Walking through the body of the 500 response *)

Lemma unquote_plain_byte c t :
  needsEscape c = false ->
  json.unquote (String c t) = json.push (String c EmptyString) (json.unquote t).
Proof.
  unfold needsEscape, isControl. intros H.
  apply orb_false_iff in H as [H Hctl]. apply orb_false_iff in H as [Hq Hb].
  cbn [json.unquote]. now rewrite Hq, Hb, Hctl.
Qed.

Lemma unquote_plain name rest :
  needsEscaping name = false ->
  json.unquote (name +:+ String dquote rest) = Some (name, rest).
Proof.
  unfold needsEscaping.
  induction name as [|c name IH]; intros H; [reflexivity|].
  cbn [list_ascii_of_string existsb] in H. apply orb_false_iff in H as [Hc Hname].
  rewrite append_cons, unquote_plain_byte, IH by assumption. reflexivity.
Qed.

(** A member whose name needs no escaping and whose value is a string. *)
Lemma members_string_member fuel name valueText :
  needsEscaping name = false ->
  json.members (S fuel)
    (String dquote (name +:+ String dquote (String ":" (String dquote valueText)))) =
  match json.value fuel (String dquote valueText) with
  | Some afterValue =>
      match json.skipWhitespace afterValue with
      | String "," more => json.members fuel (json.skipWhitespace more)
      | String "}" rest => Some rest
      | _ => None
      end
  | None => None
  end.
Proof.
  intros Hname.
  change (json.members (S fuel) (String dquote ?s))
    with (match json.unquote s with
          | Some (_, afterName) =>
              match json.skipWhitespace afterName with
              | String ":" afterColon =>
                  match json.value fuel (json.skipWhitespace afterColon) with
                  | Some afterValue =>
                      match json.skipWhitespace afterValue with
                      | String "," more => json.members fuel (json.skipWhitespace more)
                      | String "}" rest => Some rest
                      | _ => None
                      end
                  | None => None
                  end
              | _ => None
              end
          | None => None
          end).
  rewrite unquote_plain by assumption. reflexivity.
Qed.

Lemma value_string fuel s :
  json.value (S fuel) (String dquote s) = option_map snd (json.unquote s).
Proof. reflexivity. Qed.

Lemma panicBody_members err :
  panicBody err =
  String "{" (String dquote
    ("error" +:+ String dquote (String ":" (String dquote
       ("An error occurred while processing your request" +:+
        String dquote (String "," (String dquote
          ("message" +:+ String dquote (String ":" (String dquote
             (fmt.Sprintf "%v" [err] +:+
              String dquote (String "}" EmptyString)))))))))))).
Proof.
  rewrite panicBody_text. generalize (fmt.Sprintf "%v" [err]). intros text.
  reflexivity.
Qed.

Lemma panicBody_control_invalid err :
  hasControl (fmt.Sprintf "%v" [err]) = true ->
  hasByte dquote (fmt.Sprintf "%v" [err]) = false ->
  json.valid (panicBody err) = false.
Proof.
  intros Hctl Hq. rewrite panicBody_members.
  pose proof (unquote_control _ (String "}" EmptyString) Hctl Hq) as Hnone.
  set (tail := fmt.Sprintf "%v" [err] +:+ String dquote (String "}" EmptyString)) in *.
  set (second := "message" +:+ String dquote (String ":" (String dquote tail))).
  set (first := "error" +:+ _).
  unfold json.valid.
  change (json.skipWhitespace (String "{" (String dquote first)))
    with (String "{" (String dquote first)).
  change (String.length (String "{" (String dquote first)))
    with (S (S (String.length first))).
  assert (Hfirst : exists n, String.length first = S (S n)).
  { subst first. rewrite length_append. cbn [String.length Nat.add].
    eexists. reflexivity. }
  destruct Hfirst as [n ->].
  change (json.value (S (S (S (S (S n))))) (String "{" (String dquote first)))
    with (json.members (S (S (S (S n)))) (String dquote first)).
  subst first. rewrite members_string_member by reflexivity.
  rewrite value_string, unquote_plain by reflexivity.
  cbn [option_map snd].
  change (json.skipWhitespace (String "," (String dquote second)))
    with (String "," (String dquote second)).
  cbv iota beta.
  change (json.skipWhitespace (String dquote second)) with (String dquote second).
  subst second. rewrite members_string_member by reflexivity.
  rewrite value_string, Hnone. reflexivity.
Qed.

(** C10 (as stated) fails: the panic text below holds double quotes, and
    the body made of it is a well-formed JSON object all the same, with a
    member that the panic text has put there. *)
Lemma panicBodyAsStated_counterexample :
  ~ panicBodyAsStated (VString (q "boom','debug':'true")).
Proof. intros H. specialize (H eq_refl). vm_compute in H. discriminate H. Qed.

(** C10 (amended) -- The middleware puts the panic value, as [%v] prints
    it, into the body of the 500 response as it is, without any escaping.
    Consequently, for every panic value whose text holds a double quote, a
    backslash or a control character, the JSON string that starts at the
    message is either malformed or denotes a text other than the panic
    text; and for every panic value whose text holds a control character
    and no double quote, the body is not a well-formed JSON document. *)
Theorem panic_body_is_not_escaped err :
  let text := fmt.Sprintf "%v" [err] in
  panicBody err =
    q "{'error':'An error occurred while processing your request','message':'"
    +:+ text +:+ q "'}" /\
  (forall unicode_lower next env allStacks r served,
     run_panic (next r) = Some err ->
     panicRecoveryMiddleware unicode_lower next env allStacks r = Ok served ->
     exists before, calls served = before ++ [WriteBody (panicBody err)]) /\
  (needsEscaping text = true ->
   forall rest, json.unquote (text +:+ q "'}") <> Some (text, rest)) /\
  (hasControl text = true -> hasByte dquote text = false ->
   json.valid (panicBody err) = false).
Proof.
  intros text. subst text.
  change (q "'}") with (String dquote (String "}" EmptyString)).
  split; [apply panicBody_text|]. split; [|split].
  - intros unicode_lower next env allStacks r served Hpanic.
    unfold panicRecoveryMiddleware. rewrite Hpanic.
    destruct (extractBoardId unicode_lower r env) as [boardId|msg];
      cbn [bind]; [|discriminate].
    intros [= <-]. cbn [calls].
    exists (run_calls (next r) ++
            [HeaderSet "Content-Type" "application/json"; WriteHeader 500]).
    rewrite <- app_assoc. reflexivity.
  - intros Hesc rest. now apply unquote_not_verbatim.
  - apply panicBody_control_invalid.
Qed.

Lemma panic_body_is_not_escaped_witness :
  json.unquote (q "no such key 'id''}") <> Some (q "no such key 'id'", "}") /\
  json.valid (panicBody (VError ("open db: refused" +:+ newline +:+ "retry later")))
  = false.
Proof.
  split.
  - apply (proj1 (proj2 (proj2 (panic_body_is_not_escaped
             (VString (q "no such key 'id'")))))).
    reflexivity.
  - apply (proj2 (proj2 (proj2 (panic_body_is_not_escaped
             (VError ("open db: refused" +:+ newline +:+ "retry later"))))));
      reflexivity.
Defined.

(** * Further properties *)

(** ** More on the tenant resolver *)

Lemma hexAfterMarker_Some unicode_lower s boardId :
  hexAfterMarker unicode_lower s = Some boardId ->
  String.length boardId = 24%nat /\ isValidHex boardId = true.
Proof.
  unfold hexAfterMarker.
  destruct (0 <=? _); [|discriminate].
  destruct (Nat.eqb_spec (String.length (take_bytes 24
              (drop_bytes (Z.to_nat (strings.Index (strings.ToLower unicode_lower s) "webapi") + 6) s)))
              24) as [Hlen|]; [|discriminate].
  destruct (isValidHex _) eqn:Hhex; [|discriminate].
  intros [= <-]. auto.
Qed.

(** X1 -- A tenant id that comes from the host name or from the endpoint
    URL is always 24 hexadecimal characters: with no id in the query
    parameter, the header or the environment variable, the resolver
    returns either nothing or such an id, and it does not panic. *)
Theorem pattern_tenant_is_24_hex unicode_lower r env :
  noExplicitTenant r env ->
  isASCII (Host r) = true ->
  isASCII (os.Getenv env "RUNTIME_ERROR_ENDPOINT_URL") = true ->
  exists boardId,
    extractBoardId unicode_lower r env = Ok boardId /\
    (boardId = EmptyString \/
     String.length boardId = 24%nat /\ isValidHex boardId = true).
Proof.
  intros (Hq & Hh & He) Hhost Hurl.
  rewrite extractBoardId_resolve by assumption.
  eexists. split; [reflexivity|].
  unfold resolve, tenantSources. rewrite Hq, Hh, He.
  cbn [present nonempty String.eqb negb firstMatch].
  pose proof (hexAfterMarker_Some unicode_lower (Host r)) as H1.
  pose proof (hexAfterMarker_Some unicode_lower
                (os.Getenv env "RUNTIME_ERROR_ENDPOINT_URL")) as H2.
  destruct (hexAfterMarker unicode_lower (Host r)) as [b1|].
  { right. now apply H1. }
  destruct (hexAfterMarker unicode_lower
              (os.Getenv env "RUNTIME_ERROR_ENDPOINT_URL")) as [b2|].
  { right. now apply H2. }
  now left.
Qed.

Lemma pattern_tenant_is_24_hex_witness :
  exists boardId,
    extractBoardId noUnicode
      (sampleRequest [] [] "WEBAPI0123456789abcdef01234567.up.example.com") ∅
    = Ok boardId /\
    (boardId = EmptyString \/
     String.length boardId = 24%nat /\ isValidHex boardId = true).
Proof.
  apply (pattern_tenant_is_24_hex noUnicode
           (sampleRequest [] [] "WEBAPI0123456789abcdef01234567.up.example.com") ∅).
  - repeat split.
  - reflexivity.
  - reflexivity.
Defined.

(** ** More on the trace locator *)

Lemma last_index_byte c s i :
  0 <= i ->
  let r := strings.last_index_from i s (String c EmptyString) in
  r = -1 /\ hasByte c s = false \/
  exists k : nat, r = i + Z.of_nat k /\ hasByte c (drop_bytes (S k) s) = false.
Proof.
  revert i; induction s as [|x s IH]; intros i Hi; cbn zeta.
  - left. split; reflexivity.
  - cbn [strings.last_index_from String.prefix].
    destruct (IH (i + 1)) as [[Hr Hno]|(k & Hr & Hno)]; [lia| |]; cbn zeta in Hr.
    + rewrite Hr. cbn [Z.leb Z.compare].
      destruct (ascii_dec c x) as [->|Hne].
      * destruct s; cbn [String.prefix]; right; exists 0%nat;
          (split; [lia | exact Hno]).
      * left. split; [reflexivity|]. cbn [hasByte]. rewrite Hno.
        assert (Ascii.eqb x c = false) by (apply Ascii.eqb_neq; congruence).
        now rewrite H.
    + rewrite Hr. destruct (Z.leb_spec 0 (i + 1 + Z.of_nat k)); [|lia].
      right. exists (S k). split; [lia | exact Hno].
Qed.

Lemma finalSegment_no_slash filePath : hasByte "/" (finalSegment filePath) = false.
Proof.
  unfold finalSegment, strings.LastIndex.
  destruct (last_index_byte "/" filePath 0) as [[-> Hno]|(k & -> & Hno)];
    [lia | exact Hno |].
  replace (Z.to_nat (0 + Z.of_nat k + 1)) with (S k) by lia. exact Hno.
Qed.

Lemma firstFrame_Some prev rest located :
  firstFrame prev rest = Some located ->
  exists descriptor line, frameOf descriptor line = Some located.
Proof.
  revert prev; induction rest as [|line rest IH]; intros prev; [discriminate|].
  cbn [firstFrame].
  destruct (from_option _ None prev) as [found|] eqn:E.
  - intros [= <-]. destruct prev as [d|]; [|discriminate E]. eauto.
  - apply IH.
Qed.

(** X2 -- The file that the locator reports is a bare file name: it never
    holds a slash, whatever the trace.  When nothing is located, file and
    line are the zero values. *)
Theorem located_file_has_no_slash stackTrace :
  exists fileName lineNumber,
    locate stackTrace = Ok (fileName, lineNumber) /\
    hasByte "/" fileName = false.
Proof.
  rewrite locate_firstFrame.
  destruct (firstFrame None _) as [[f n]|] eqn:E.
  - exists f, n. split; [reflexivity|].
    apply firstFrame_Some in E as (d & l & E). unfold frameOf in E.
    destruct (acceptedFrame d l); [|discriminate].
    destruct (strconv.Atoi _); [|discriminate].
    injection E as <- _. apply finalSegment_no_slash.
  - exists EmptyString, 0. split; reflexivity.
Qed.

(** ** The locator of the start-up reports *)

Lemma digits_space acc s : hasByte " " s = true -> strconv.digits acc s = None.
Proof.
  revert acc; induction s as [|c s IH]; intros acc H; [discriminate|].
  cbn [strconv.digits]. cbn [hasByte] in H.
  destruct (strconv.digit c) as [d|] eqn:Hd; [|reflexivity].
  apply IH. destruct (Ascii.eqb_spec c " ") as [->|]; [discriminate Hd | exact H].
Qed.

Lemma Atoi_space s : hasByte " " s = true -> strconv.Atoi s = None.
Proof.
  intros H. unfold strconv.Atoi. destruct s as [|c s]; [reflexivity|].
  set (signed := Ascii.eqb c "-" || Ascii.eqb c "+").
  assert (Hbody : hasByte " " (if signed then s else String c s) = true).
  { destruct signed eqn:E; [|exact H]. cbn [hasByte] in H.
    destruct (Ascii.eqb_spec c " ") as [->|]; [discriminate E | exact H]. }
  cbn zeta. fold signed.
  destruct (if signed then s else String c s); [reflexivity|].
  now rewrite digits_space.
Qed.

Lemma scanStartupLine_offset i line :
  hasByte " " (startupLineText line) = true -> scanStartupLine i line = Ok None.
Proof.
  intros H. unfold scanStartupLine.
  destruct (strings.Contains line ".go:") eqn:Hgo; [|reflexivity].
  destruct (0 <? i); [|reflexivity]. cbn [andb].
  assert (Hlen : (2 <= length (strings.Split line ":"))%nat).
  { apply Split_byte_length. now apply (Contains_hasByte line ".go:"). }
  assert (Hne : strings.Split line ":" <> [])
    by (destruct (strings.Split _ ":"); [simpl in Hlen; lia | discriminate]).
  destruct (Z.leb_spec 2 (Z.of_nat (length (strings.Split line ":")))); [|lia].
  rewrite (index_at_last _ EmptyString) by assumption. cbn [bind].
  fold (startupLineText line). now rewrite Atoi_space.
Qed.

Lemma locateStartupFrom_offset_lines i lines :
  Forall (fun line => negb (strings.Contains line ".go:")
                      || hasByte " " (startupLineText line) = true) lines ->
  locateStartupFrom i lines = Ok (EmptyString, 0).
Proof.
  intros H. revert i. induction H as [|line lines Hline _ IH]; intros i;
    [reflexivity|].
  cbn [locateStartupFrom].
  assert (Hscan : scanStartupLine i line = Ok None).
  { apply orb_true_iff in Hline as [Hgo|Hsp].
    - unfold scanStartupLine. apply negb_true_iff in Hgo. now rewrite Hgo.
    - now apply scanStartupLine_offset. }
  rewrite Hscan. cbn [bind]. apply IH.
Qed.

(** X3 -- The locator of the start-up reports does not cut off the offset
    that follows a line number.  If in every path line of the trace the
    text after the last colon holds a space, as in the lines
    [path:line +0x1d] that the Go run time prints, it finds no frame at
    all, and the report is sent with file null and line null. *)
Theorem startup_report_has_no_location
  format net now ownStack endpointUrl boardId failure :
  Forall (fun line => negb (strings.Contains line ".go:")
                      || hasByte " " (startupLineText line) = true)
    (strings.Split (runtime.Stack 4096 ownStack) newline) ->
  newRequestError net endpointUrl = None ->
  exists sent,
    startupReport format net now ownStack endpointUrl boardId failure = Ok sent /\
    option_map req_body (sent_request sent) =
    Some (fmt.Sprintf format
            [ VString (boardIdJson boardId); VString now;
              VString "null"; VString "null";
              VString (escapeStackTrace (runtime.Stack 4096 ownStack));
              VString (escapeMessage failure) ]).
Proof.
  intros Hlines Hnet. unfold startupReport.
  rewrite (locateStartupFrom_offset_lines 0 _ Hlines). cbn [bind fst snd].
  rewrite Hnet. eexists. split; reflexivity.
Qed.

Lemma startup_report_has_no_location_witness :
  exists sent,
    startupReport startupErrorPayloadFormat reachable "2026-01-01T00:00:00Z"
      scenarioTrace "https://telemetry.example.com/errors" ""
      (VError "listen tcp 0.0.0.0:8080: bind: address already in use") = Ok sent /\
    option_map req_body (sent_request sent) =
    Some (fmt.Sprintf startupErrorPayloadFormat
            [ VString "null"; VString "2026-01-01T00:00:00Z";
              VString "null"; VString "null";
              VString (escapeStackTrace (runtime.Stack 4096 scenarioTrace));
              VString "listen tcp 0.0.0.0:8080: bind: address already in use" ]).
Proof.
  apply (startup_report_has_no_location startupErrorPayloadFormat reachable
           "2026-01-01T00:00:00Z" scenarioTrace
           "https://telemetry.example.com/errors" ""
           (VError "listen tcp 0.0.0.0:8080: bind: address already in use")).
  - vm_compute. repeat constructor.
  - reflexivity.
Defined.

(** ** More on the recovery middleware *)

Lemma length_mapBytes_le f s :
  (forall c, (String.length (f c) <= 2)%nat) ->
  (String.length (mapBytes f s) <= 2 * String.length s)%nat.
Proof.
  intros Hf. induction s as [|c s IH]; [simpl; lia|].
  cbn [mapBytes String.length]. rewrite length_append. specialize (Hf c). lia.
Qed.

Lemma length_escapeStackTrace s :
  (String.length (escapeStackTrace s) <= 2 * String.length s)%nat.
Proof.
  rewrite escapeStackTrace_bytes. apply length_mapBytes_le.
  intros c. unfold escapedByte.
  repeat (destruct (Ascii.eqb c _); [simpl; lia|]). simpl; lia.
Qed.

(** X4 -- When a handler panics, a report is started exactly when the
    endpoint URL is configured: no goroutine at all if it is empty, and
    otherwise one, for that URL, with the tenant id that the resolver
    gives and a trace of at most 8192 bytes, which escaping at most
    doubles. *)
Theorem report_started_iff_endpoint unicode_lower next env allStacks r err :
  run_panic (next r) = Some err ->
  isASCII (Host r) = true ->
  isASCII (os.Getenv env "RUNTIME_ERROR_ENDPOINT_URL") = true ->
  let url := os.Getenv env "RUNTIME_ERROR_ENDPOINT_URL" in
  exists served boardId,
    panicRecoveryMiddleware unicode_lower next env allStacks r = Ok served /\
    extractBoardId unicode_lower r env = Ok boardId /\
    (url = EmptyString -> started served = []) /\
    (url <> EmptyString ->
     exists stackTrace,
       started served = [GoSendError url boardId r err stackTrace] /\
       len stackTrace <= 8192 /\
       len (escapeStackTrace stackTrace) <= 16384).
Proof.
  intros Hpanic Hhost Hurl url.
  destruct (extractBoardId_total unicode_lower r env Hhost Hurl) as [boardId Hb].
  unfold panicRecoveryMiddleware. rewrite Hpanic, Hb. cbn [bind].
  eexists. exists boardId. split; [reflexivity|]. split; [reflexivity|].
  cbn [started]. fold url. split.
  - intros ->. reflexivity.
  - intros Hne. rewrite (nonempty_true _ Hne). cbn [snd].
    eexists. split; [reflexivity|].
    assert (Hlen : len (runtime.Stack 8192 allStacks) <= 8192).
    { unfold runtime.Stack, len. rewrite length_take_bytes.
      pose proof (Nat.le_min_l (Z.to_nat 8192) (String.length allStacks)). lia. }
    split; [exact Hlen|].
    pose proof (length_escapeStackTrace (runtime.Stack 8192 allStacks)).
    unfold len in *. lia.
Qed.

Lemma report_started_iff_endpoint_witness :
  exists served,
    panicRecoveryMiddleware noUnicode dividingHandler ∅ scenarioTrace
      scenarioRequest = Ok served /\
    started served = [].
Proof.
  destruct (report_started_iff_endpoint noUnicode dividingHandler ∅ scenarioTrace
              scenarioRequest (VError "division by zero"))
    as (served & boardId & Hrun & _ & Hnone & _); [reflexivity ..|].
  exists served. split; [exact Hrun | apply Hnone; reflexivity].
Defined.

(** ** More on the escaping *)

Lemma unescapeBytes_escapedByte c t :
  unescapeBytes (escapedByte c +:+ t) = String c (unescapeBytes t).
Proof. destruct c as [[] [] [] [] [] [] [] []]; reflexivity. Qed.

Lemma unescapeBytes_escaped s : unescapeBytes (mapBytes escapedByte s) = s.
Proof.
  induction s as [|c s IH]; [reflexivity|].
  cbn [mapBytes]. now rewrite unescapeBytes_escapedByte, IH.
Qed.

(** X5 -- The escaping of the trace loses nothing: two traces with the
    same escaped text are the same trace, control characters and invalid
    bytes included. *)
Theorem escapeStackTrace_injective a b :
  escapeStackTrace a = escapeStackTrace b -> a = b.
Proof.
  rewrite !escapeStackTrace_bytes. intros H.
  apply (f_equal unescapeBytes) in H. now rewrite !unescapeBytes_escaped in H.
Qed.

Lemma escapeStackTrace_injective_witness :
  String "027" "[0m" = String "027" "[0m".
Proof.
  apply escapeStackTrace_injective. reflexivity.
Defined.

(** ** [corsMiddleware] under the recovery middleware

    [main] serves [panicRecoveryMiddleware(corsMiddleware(mux))]. *)

(** X6 -- An OPTIONS request is answered by [corsMiddleware] itself: the
    three CORS headers and the status 200.  The wrapped handler is not
    run, so nothing can panic, nothing is logged and no report is
    started, whatever the handler would have done. *)
Theorem preflight_is_answered_by_cors unicode_lower next env allStacks r :
  Method r = "OPTIONS" ->
  panicRecoveryMiddleware unicode_lower (corsMiddleware next) env allStacks r =
  Ok {| calls :=
          [ HeaderSet "Access-Control-Allow-Origin" "*";
            HeaderSet "Access-Control-Allow-Methods" "GET, POST, PUT, DELETE, OPTIONS";
            HeaderSet "Access-Control-Allow-Headers" "Content-Type";
            WriteHeader 200 ];
        logged := []; started := [] |}.
Proof.
  intros Hm. unfold panicRecoveryMiddleware, corsMiddleware. rewrite Hm.
  reflexivity.
Qed.

Lemma preflight_is_answered_by_cors_witness :
  panicRecoveryMiddleware noUnicode (corsMiddleware dividingHandler) sampleEnv
    scenarioTrace (requestOf "OPTIONS" "/api/test") =
  Ok {| calls :=
          [ HeaderSet "Access-Control-Allow-Origin" "*";
            HeaderSet "Access-Control-Allow-Methods" "GET, POST, PUT, DELETE, OPTIONS";
            HeaderSet "Access-Control-Allow-Headers" "Content-Type";
            WriteHeader 200 ];
        logged := []; started := [] |}.
Proof.
  apply (preflight_is_answered_by_cors noUnicode dividingHandler sampleEnv
           scenarioTrace (requestOf "OPTIONS" "/api/test")).
  reflexivity.
Defined.

Lemma corsMiddleware_other next r :
  Method r <> "OPTIONS" ->
  corsMiddleware next r =
  {| run_calls := corsHeaders ++ run_calls (next r);
     run_panic := run_panic (next r) |}.
Proof.
  intros Hm. unfold corsMiddleware.
  destruct (String.eqb_spec (Method r) "OPTIONS"); [contradiction | reflexivity].
Qed.

(** X7 -- When a handler behind both middlewares panics on a request
    other than OPTIONS, the 500 response still carries the CORS headers:
    they were set before the handler ran, and the recovery adds the
    content type, the status and the error body after whatever the
    handler had written. *)
Theorem recovered_response_keeps_cors_headers
  unicode_lower next env allStacks r err :
  Method r <> "OPTIONS" ->
  run_panic (next r) = Some err ->
  isASCII (Host r) = true ->
  isASCII (os.Getenv env "RUNTIME_ERROR_ENDPOINT_URL") = true ->
  exists served,
    panicRecoveryMiddleware unicode_lower (corsMiddleware next) env allStacks r
    = Ok served /\
    calls served =
      [ HeaderSet "Access-Control-Allow-Origin" "*";
        HeaderSet "Access-Control-Allow-Methods" "GET, POST, PUT, DELETE, OPTIONS";
        HeaderSet "Access-Control-Allow-Headers" "Content-Type" ]
      ++ run_calls (next r)
      ++ [ HeaderSet "Content-Type" "application/json";
           WriteHeader 500;
           WriteBody (panicBody err) ].
Proof.
  intros Hm Hpanic Hhost Hurl.
  destruct (extractBoardId_total unicode_lower r env Hhost Hurl) as [boardId Hb].
  unfold panicRecoveryMiddleware. rewrite (corsMiddleware_other _ _ Hm).
  cbn [run_panic run_calls]. rewrite Hpanic, Hb. cbn [bind].
  eexists. split; [reflexivity|]. cbn [calls].
  rewrite <- app_assoc. unfold panicBody, corsHeaders. reflexivity.
Qed.

Lemma recovered_response_keeps_cors_headers_witness :
  exists served,
    panicRecoveryMiddleware noUnicode (corsMiddleware dividingHandler) sampleEnv
      scenarioTrace (requestOf "GET" "/api/test") = Ok served /\
    calls served =
      [ HeaderSet "Access-Control-Allow-Origin" "*";
        HeaderSet "Access-Control-Allow-Methods" "GET, POST, PUT, DELETE, OPTIONS";
        HeaderSet "Access-Control-Allow-Headers" "Content-Type";
        HeaderSet "Content-Type" "application/json";
        WriteHeader 500;
        WriteBody (panicBody (VError "division by zero")) ].
Proof.
  apply (recovered_response_keeps_cors_headers noUnicode dividingHandler sampleEnv
           scenarioTrace (requestOf "GET" "/api/test") (VError "division by zero"));
    [discriminate | reflexivity ..].
Defined.

(** X8 -- A handler that does not panic passes through both middlewares
    untouched but for the CORS headers in front of what it writes: the
    recovery middleware adds no call, logs nothing and starts nothing. *)
Theorem sound_handler_passes_through unicode_lower next env allStacks r :
  Method r <> "OPTIONS" ->
  run_panic (next r) = None ->
  panicRecoveryMiddleware unicode_lower (corsMiddleware next) env allStacks r =
  Ok {| calls :=
          [ HeaderSet "Access-Control-Allow-Origin" "*";
            HeaderSet "Access-Control-Allow-Methods" "GET, POST, PUT, DELETE, OPTIONS";
            HeaderSet "Access-Control-Allow-Headers" "Content-Type" ]
          ++ run_calls (next r);
        logged := []; started := [] |}.
Proof.
  intros Hm Hpanic. unfold panicRecoveryMiddleware.
  rewrite (corsMiddleware_other _ _ Hm). cbn [run_panic run_calls].
  now rewrite Hpanic.
Qed.

Lemma sound_handler_passes_through_witness :
  panicRecoveryMiddleware noUnicode (corsMiddleware listingHandler) sampleEnv
    scenarioTrace (requestOf "GET" "/api/test") =
  Ok {| calls :=
          [ HeaderSet "Access-Control-Allow-Origin" "*";
            HeaderSet "Access-Control-Allow-Methods" "GET, POST, PUT, DELETE, OPTIONS";
            HeaderSet "Access-Control-Allow-Headers" "Content-Type";
            HeaderSet "Content-Type" "application/json";
            WriteBody "[]" ];
        logged := []; started := [] |}.
Proof.
  apply (sound_handler_passes_through noUnicode listingHandler sampleEnv
           scenarioTrace (requestOf "GET" "/api/test")); [discriminate | reflexivity].
Defined.

(** ** The start of [main] *)

(** X9 -- [main] ends with the exit code 1 on every path, and a failure
    is reported only if it is the listener that failed: with no
    DATABASE_URL, or a database that cannot be opened or reached, the
    process exits without starting a report, though an endpoint is
    configured. *)
Theorem main_exits_with_one env database listen :
  let exit := main env database listen in
  exit_code exit = 1 /\
  (exit_started exit <> [] ->
   os.Getenv env "DATABASE_URL" <> EmptyString /\
   database = DatabaseReady /\
   os.Getenv env "RUNTIME_ERROR_ENDPOINT_URL" <> EmptyString).
Proof.
  cbn zeta. unfold main.
  destruct (String.eqb_spec (os.Getenv env "DATABASE_URL") EmptyString) as [|Hurl].
  { split; [reflexivity|]. intros H. now contradiction H. }
  destruct database; cbn [fatal exit_code exit_started];
    try (split; [reflexivity|]; intros H; now contradiction H).
  split.
  - destruct listen; reflexivity.
  - intros H. repeat split; [assumption|].
    intros Hnone. apply H. unfold startup. rewrite Hnone.
    destruct listen; reflexivity.
Qed.

Lemma main_exits_with_one_witness :
  exit_code (main databaseEnv DatabaseReady
               (ListenReturned "listen tcp 0.0.0.0:8080: bind: address already in use")) = 1 /\
  os.Getenv databaseEnv "RUNTIME_ERROR_ENDPOINT_URL" <> EmptyString.
Proof.
  destruct (main_exits_with_one databaseEnv DatabaseReady
              (ListenReturned "listen tcp 0.0.0.0:8080: bind: address already in use"))
    as [Hcode Hstarted].
  split; [exact Hcode|]. apply Hstarted. vm_compute. discriminate.
Defined.

(** ** Decimal numbers: what [%d] prints and what [strconv.Atoi] reads *)

Ltac digit_step :=
  match goal with
  | |- context [strconv.digit ?c] =>
      let v := eval vm_compute in (strconv.digit c) in
      change (strconv.digit c) with v
  end;
  cbv beta iota.

Lemma digits_uint_acc d acc :
  strconv.digits (Z.pos acc) (NilEmpty.string_of_uint d) =
  Some (Z.pos (Pos.of_uint_acc d acc)).
Proof.
  revert acc; induction d; intros acc;
    cbn [NilEmpty.string_of_uint strconv.digits Pos.of_uint_acc];
    try reflexivity;
    digit_step;
    match goal with
    | |- strconv.digits ?a _ = Some (Z.pos (Pos.of_uint_acc _ ?b)) =>
        replace a with (Z.pos b) by lia
    end;
    apply IHd.
Qed.

Lemma digits_uint d :
  strconv.digits 0 (NilEmpty.string_of_uint d) = Some (Z.of_N (Pos.of_uint d)).
Proof.
  induction d; cbn [NilEmpty.string_of_uint strconv.digits Pos.of_uint];
    try reflexivity;
    digit_step;
    [ exact IHd | .. ];
    match goal with
    | |- strconv.digits ?a _ = Some (Z.of_N (N.pos (Pos.of_uint_acc _ ?b))) =>
        change a with (Z.pos b)
    end;
    apply digits_uint_acc.
Qed.

Lemma decimal_pos p :
  fmt.decimal (Z.pos p) = NilEmpty.string_of_uint (Pos.to_uint p).
Proof.
  unfold fmt.decimal. cbn [Z.to_int NilZero.string_of_int].
  unfold NilZero.string_of_uint.
  pose proof (DecimalPos.Unsigned.to_uint_nonnil p).
  destruct (Pos.to_uint p); [contradiction | reflexivity ..].
Qed.

Lemma decimal_neg p :
  fmt.decimal (Z.neg p) = String "-" (fmt.decimal (Z.pos p)).
Proof. reflexivity. Qed.

(** A number that is not negative is printed as digits only, and at
    least one. *)
Lemma decimal_head n :
  0 <= n ->
  exists c s, fmt.decimal n = String c s /\
              Ascii.eqb c "-" = false /\ Ascii.eqb c "+" = false.
Proof.
  intros Hn. destruct n as [|p|p]; [| |lia].
  - exists "0"%char, EmptyString. repeat split.
  - rewrite decimal_pos.
    pose proof (DecimalPos.Unsigned.to_uint_nonnil p).
    destruct (Pos.to_uint p); [contradiction | ..];
      cbn [NilEmpty.string_of_uint]; eexists _, _; repeat split.
Qed.

Lemma digits_decimal n :
  0 <= n -> strconv.digits 0 (fmt.decimal n) = Some n.
Proof.
  intros Hn. destruct n as [|p|p]; [reflexivity | | lia].
  rewrite decimal_pos, digits_uint.
  now rewrite DecimalPos.Unsigned.of_to.
Qed.

(** [strconv.Atoi] reads back what [%d] prints, if the number fits
    [int]; if it does not, the text is refused. *)
Lemma Atoi_decimal n :
  strconv.Atoi (fmt.decimal n) =
  if (strconv.minInt <=? n) && (n <=? strconv.maxInt) then Some n else None.
Proof.
  destruct (Z.le_gt_cases 0 n) as [Hn|Hn].
  - destruct (decimal_head n Hn) as (c & s & E & Hneg & Hplus).
    pose proof (digits_decimal n Hn) as Hdig. rewrite E in *.
    unfold strconv.Atoi. rewrite Hneg, Hplus. cbn [orb]. now rewrite Hdig.
  - destruct n as [|p|p]; [lia | lia |]. rewrite decimal_neg.
    destruct (decimal_head (Z.pos p)) as (c & s & E & _); [lia|].
    pose proof (digits_decimal (Z.pos p)) as Hdig. rewrite E in *.
    unfold strconv.Atoi. cbn [Ascii.eqb Bool.eqb orb].
    rewrite Hdig by lia. reflexivity.
Qed.

Lemma Atoi_decimal_int n :
  strconv.minInt <= n <= strconv.maxInt ->
  strconv.Atoi (fmt.decimal n) = Some n.
Proof.
  intros [Hlo Hhi]. rewrite Atoi_decimal.
  destruct (Z.leb_spec strconv.minInt n); [|lia].
  destruct (Z.leb_spec n strconv.maxInt); [|lia]. reflexivity.
Qed.

Lemma decimal_nonempty n : fmt.decimal n <> EmptyString.
Proof.
  destruct (Z.le_gt_cases 0 n) as [Hn|Hn].
  - destruct (decimal_head n Hn) as (c & s & E & _). now rewrite E.
  - destruct n; [lia | lia | discriminate].
Qed.

(** A byte that is not a digit makes the whole text unreadable, unless
    it is a sign in front. *)
Lemma digits_nondigit a c b acc :
  strconv.digit c = None -> strconv.digits acc (a +:+ String c b) = None.
Proof.
  intros Hc. revert acc; induction a as [|x a IH]; intros acc.
  - rewrite append_nil_l. cbn [strconv.digits]. now rewrite Hc.
  - rewrite append_cons. cbn [strconv.digits].
    destruct (strconv.digit x); [apply IH | reflexivity].
Qed.

Lemma Atoi_nondigit a c b :
  strconv.digit c = None ->
  (a = EmptyString -> c <> "-"%char /\ c <> "+"%char) ->
  strconv.Atoi (a +:+ String c b) = None.
Proof.
  intros Hc Hsign. destruct a as [|x a].
  - destruct (Hsign eq_refl) as [Hneg Hplus].
    rewrite append_nil_l. unfold strconv.Atoi.
    apply Ascii.eqb_neq in Hneg, Hplus. rewrite Hneg, Hplus. cbn [orb].
    cbn [strconv.digits]. now rewrite Hc.
  - rewrite append_cons. unfold strconv.Atoi.
    destruct (Ascii.eqb x "-" || Ascii.eqb x "+").
    + rewrite (digits_nondigit a c b 0 Hc).
      destruct a; [rewrite append_nil_l | rewrite append_cons]; reflexivity.
    + rewrite <- append_cons. now rewrite (digits_nondigit (String x a) c b 0 Hc).
Qed.

(** ** The routes under /api/test *)

Lemma route_with_id {Conn} (DB : Driver Conn) s body r rest :
  URL_Path r = "/api/test/" +:+ rest ->
  rest <> EmptyString ->
  apiTestHandler DB s body r =
  match strconv.Atoi rest with
  | None => (ReplyError "Invalid ID" 400, s)
  | Some id =>
      if String.eqb (Method r) "GET" then GetById DB s id
      else if String.eqb (Method r) "PUT" then Update DB s body id
      else if String.eqb (Method r) "DELETE" then Delete DB s id
      else (ReplyError "Method not allowed" 405, s)
  end.
Proof.
  intros Hpath Hrest. unfold apiTestHandler. rewrite Hpath.
  destruct rest as [|c rest]; [contradiction|]. reflexivity.
Qed.

(** X10 -- The id printed in decimal after /api/test/ is the id the
    controller is called with, for every [int]: GET goes to [GetById],
    PUT to [Update], DELETE to [Delete], and any other method is answered
    405 without a statement. *)
Theorem id_in_path_reaches_controller {Conn} (DB : Driver Conn) s body r id :
  strconv.minInt <= id <= strconv.maxInt ->
  URL_Path r = "/api/test/" +:+ fmt.decimal id ->
  apiTestHandler DB s body r =
  if String.eqb (Method r) "GET" then GetById DB s id
  else if String.eqb (Method r) "PUT" then Update DB s body id
  else if String.eqb (Method r) "DELETE" then Delete DB s id
  else (ReplyError "Method not allowed" 405, s).
Proof.
  intros Hid Hpath.
  rewrite (route_with_id DB s body r _ Hpath (decimal_nonempty id)).
  now rewrite (Atoi_decimal_int id Hid).
Qed.

Lemma id_in_path_reaches_controller_witness :
  apiTestHandler sampleDriver newSession (DecodeError "EOF")
    (requestOf "GET" "/api/test/42") =
  (ReplyJSON None (JProject alpha),
   {| conn := tt; issued := [searchPathStatement; selectOne 42] |}).
Proof.
  rewrite (id_in_path_reaches_controller sampleDriver newSession
             (DecodeError "EOF") (requestOf "GET" "/api/test/42") 42);
    [reflexivity | unfold strconv.minInt, strconv.maxInt; lia | reflexivity].
Defined.

(** X11 -- An id that does not fit [int] is not wrapped around: the
    request is answered 400 Invalid ID, whatever its method, and no
    statement is issued. *)
Theorem id_out_of_range_is_rejected {Conn} (DB : Driver Conn) s body r id :
  id < strconv.minInt \/ strconv.maxInt < id ->
  URL_Path r = "/api/test/" +:+ fmt.decimal id ->
  apiTestHandler DB s body r = (ReplyError "Invalid ID" 400, s).
Proof.
  intros Hid Hpath.
  rewrite (route_with_id DB s body r _ Hpath (decimal_nonempty id)).
  rewrite Atoi_decimal.
  destruct (Z.leb_spec strconv.minInt id); [|reflexivity].
  destruct (Z.leb_spec id strconv.maxInt); [lia | reflexivity].
Qed.

Lemma id_out_of_range_is_rejected_witness :
  apiTestHandler sampleDriver newSession (DecodeOK alpha)
    (requestOf "DELETE" "/api/test/9223372036854775808") =
  (ReplyError "Invalid ID" 400, newSession).
Proof.
  apply (id_out_of_range_is_rejected sampleDriver newSession (DecodeOK alpha)
           (requestOf "DELETE" "/api/test/9223372036854775808")
           9223372036854775808);
    [right; unfold strconv.maxInt; lia | reflexivity].
Defined.

(** X12 -- A byte that is not a decimal digit anywhere in the text after
    /api/test/ (a sign in front excepted) makes the id invalid: a further
    path segment, a trailing slash or a fraction are answered 400
    Invalid ID before the method is looked at, and no statement is
    issued. *)
Theorem id_with_other_bytes_is_rejected
  {Conn} (DB : Driver Conn) s body r a c b :
  URL_Path r = "/api/test/" +:+ a +:+ String c b ->
  strconv.digit c = None ->
  (a = EmptyString -> c <> "-"%char /\ c <> "+"%char) ->
  apiTestHandler DB s body r = (ReplyError "Invalid ID" 400, s).
Proof.
  intros Hpath Hc Hsign.
  rewrite (route_with_id DB s body r (a +:+ String c b)).
  - now rewrite Atoi_nondigit.
  - exact Hpath.
  - destruct a; [rewrite append_nil_l | rewrite append_cons]; discriminate.
Qed.

Lemma id_with_other_bytes_is_rejected_witness :
  apiTestHandler sampleDriver newSession (DecodeOK alpha)
    (requestOf "PATCH" "/api/test/42/") =
  (ReplyError "Invalid ID" 400, newSession).
Proof.
  apply (id_with_other_bytes_is_rejected sampleDriver newSession (DecodeOK alpha)
           (requestOf "PATCH" "/api/test/42/") "42" "/"%char EmptyString);
    [reflexivity | reflexivity | discriminate].
Defined.

(** X13 -- The text of an id is not canonical: a plus sign or a zero in
    front of the decimal form of an id that is not negative is read as
    the same id, so these paths are handled as the path with the plain
    number is. *)
Theorem id_with_sign_or_zero_is_same_id
  {Conn} (DB : Driver Conn) s body r id front :
  0 <= id <= strconv.maxInt ->
  front = "+" \/ front = "0" ->
  URL_Path r = "/api/test/" +:+ front +:+ fmt.decimal id ->
  apiTestHandler DB s body r =
  apiTestHandler DB s body (withPath r ("/api/test/" +:+ fmt.decimal id)).
Proof.
  intros Hid Hfront Hpath.
  assert (Hint : strconv.minInt <= id <= strconv.maxInt)
    by (unfold strconv.minInt; lia).
  rewrite (route_with_id DB s body (withPath r _) (fmt.decimal id) eq_refl
             (decimal_nonempty id)), (Atoi_decimal_int id Hint).
  cbn [withPath Method].
  rewrite (route_with_id DB s body r _ Hpath).
  2: { destruct Hfront as [-> | ->]; rewrite append_cons; discriminate. }
  assert (Hatoi : strconv.Atoi (front +:+ fmt.decimal id) = Some id).
  { destruct (decimal_head id) as (c & t & E & Hneg & Hplus); [lia|].
    pose proof (digits_decimal id) as Hdig.
    destruct Hfront as [-> | ->]; rewrite append_cons, append_nil_l;
      unfold strconv.Atoi; cbn [Ascii.eqb Bool.eqb orb].
    - rewrite Hdig by lia. rewrite E.
      destruct (Z.leb_spec strconv.minInt id); [|lia].
      destruct (Z.leb_spec id strconv.maxInt); [|lia]. reflexivity.
    - cbn [strconv.digits]. change (strconv.digit "0") with (Some 0).
      cbv beta iota. change (0 * 10 + 0) with 0. rewrite Hdig by lia.
      destruct (Z.leb_spec strconv.minInt id); [|lia].
      destruct (Z.leb_spec id strconv.maxInt); [|lia]. reflexivity. }
  now rewrite Hatoi.
Qed.

Lemma id_with_sign_or_zero_is_same_id_witness :
  apiTestHandler sampleDriver newSession (DecodeError "EOF")
    (requestOf "GET" "/api/test/+42") =
  apiTestHandler sampleDriver newSession (DecodeError "EOF")
    (requestOf "GET" "/api/test/42").
Proof.
  apply (id_with_sign_or_zero_is_same_id sampleDriver newSession
           (DecodeError "EOF") (requestOf "GET" "/api/test/+42") 42 "+");
    [unfold strconv.maxInt; lia | now left | reflexivity].
Defined.

(** ** The controller and the database *)

Ltac controller_cases :=
  repeat match goal with
  | |- context [match ?x with _ => _ end] =>
      lazymatch x with
      | context [match _ with _ => _ end] => fail
      | context [rejected] => fail
      | _ => destruct x eqn:?; cbv beta iota
      end
  end.

Ltac unfold_controller :=
  unfold apiTestHandler, collection, GetAll, GetById, Create, Update, Delete,
    setSearchPath, Exec_, Query, QueryRow.

(** X14 -- Whatever the request and whatever the database answers, the
    handler issues no statement, or the search path statement alone, or
    the search path statement followed by exactly one of the five
    statements of the controller.  Their text is fixed: the id of the
    path and the name of the decoded body reach the database as bound
    values only. *)
Theorem statements_have_fixed_text {Conn} (DB : Driver Conn) s body r :
  exists extra,
    issued (snd (apiTestHandler DB s body r)) = issued s ++ extra /\
    (extra = [] \/
     extra = [searchPathStatement] \/
     exists st, extra = [searchPathStatement; st] /\
       (st = selectAll \/
        (exists id, st = selectOne id \/ st = deleteOne id) \/
        (exists name, decodedName body = Some name /\
           (st = insertOne name \/ exists id, st = updateOne name id)))).
Proof.
  unfold_controller. controller_cases; cbn [snd issued];
    try (exists []; split; [now rewrite app_nil_r | now left]);
    try (exists [searchPathStatement]; split; [reflexivity | right; left; reflexivity]);
    rewrite <- app_assoc; cbn [app]; eexists; (split; [reflexivity|]);
    right; right; eexists; (split; [reflexivity|]); cbn [decodedName];
    first [ now left
          | right; left; eexists; left; reflexivity
          | right; left; eexists; right; reflexivity
          | right; right; eexists; split; [reflexivity|]; left; reflexivity
          | right; right; eexists; split; [reflexivity|]; right; eexists; reflexivity ].
Qed.

(** X15 -- A request is turned down on its form alone (400, 405, or not
    found) exactly when the database is left alone: then the session is
    unchanged, and with every other reply the search path statement was
    issued first. *)
Theorem rejected_iff_database_untouched {Conn} (DB : Driver Conn) s body r :
  if rejected (fst (apiTestHandler DB s body r))
  then snd (apiTestHandler DB s body r) = s
  else exists rest,
         issued (snd (apiTestHandler DB s body r)) =
         issued s ++ searchPathStatement :: rest.
Proof.
  unfold_controller. controller_cases;
    cbn [fst snd rejected issued Z.eqb Pos.eqb orb];
    try reflexivity;
    try rewrite <- app_assoc; eexists; reflexivity.
Qed.





(** X17 -- The error replies of the handler are of four kinds: 400 for
    an id that is no number or a body that cannot be decoded (with the
    error of the decoder), 404 Project not found, 405 Method not
    allowed, and 500 with the error text of the database after
    Database error. *)
Theorem error_replies_are_of_four_kinds
  {Conn} (DB : Driver Conn) s body r msg code :
  fst (apiTestHandler DB s body r) = ReplyError msg code ->
  (code = 400 /\
   (msg = "Invalid ID" \/
    exists err, body = DecodeError err /\ msg = "Invalid JSON: " +:+ err)) \/
  (code = 404 /\ msg = "Project not found") \/
  (code = 405 /\ msg = "Method not allowed") \/
  (code = 500 /\ exists err, msg = "Database error: " +:+ err).
Proof.
  unfold_controller. controller_cases; cbn [fst];
    intros H; try discriminate H; injection H as <- <-;
    first [ left; split; [reflexivity|]; left; reflexivity
          | left; split; [reflexivity|]; right; eexists; split; reflexivity
          | right; left; split; reflexivity
          | right; right; left; split; reflexivity
          | right; right; right; split; [reflexivity|]; eexists; reflexivity ].
Qed.

Lemma error_replies_are_of_four_kinds_witness :
  (405 = 400 /\
   ("Method not allowed" = "Invalid ID" \/
    exists err, DecodeOK alpha = DecodeError err /\
                "Method not allowed" = "Invalid JSON: " +:+ err)) \/
  (405 = 404 /\ "Method not allowed" = "Project not found") \/
  (405 = 405 /\ "Method not allowed" = "Method not allowed") \/
  (405 = 500 /\ exists err, "Method not allowed" = "Database error: " +:+ err).
Proof.
  apply (error_replies_are_of_four_kinds sampleDriver newSession (DecodeOK alpha)
           (requestOf "PATCH" "/api/test/1")).
  reflexivity.
Defined.

(** ** Listing, updating and the body of a request *)

Lemma fold_append_items (projects l : list TestProjects) :
  fold_left append projects (Items l) = Items (l ++ projects).
Proof.
  revert l; induction projects as [|p projects IH]; intros l; cbn [fold_left append].
  - now rewrite app_nil_r.
  - rewrite IH, <- app_assoc. reflexivity.
Qed.

Lemma fold_append_nil (projects : list TestProjects) :
  fold_left append projects NilSlice = sliceOf projects.
Proof.
  destruct projects as [|p projects]; [reflexivity|].
  cbn [fold_left append sliceOf]. apply fold_append_items.
Qed.

Lemma scanRows_scanned projects rest acc :
  scanRows acc (map ScanRow projects ++ rest) =
  scanRows (fold_left append projects acc) rest.
Proof.
  revert acc; induction projects as [|p projects IH]; intros acc;
    [reflexivity|]. cbn [map app scanRows fold_left]. apply IH.
Qed.

Lemma GetAll_rows {Conn} (DB : Driver Conn) s result c1 rows c2 :
  dbExec DB (conn s) (q "SET search_path = public, '$user'") [] =
    (ExecResult result, c1) ->
  dbQuery DB c1 (q "SELECT 'Id', 'Name' FROM 'TestProjects' ORDER BY 'Id'") [] =
    (QueryRows rows, c2) ->
  fst (GetAll DB s) =
  match scanRows NilSlice rows with
  | inl err => ReplyError ("Database error: " +:+ err) 500
  | inr projects => ReplyJSON None (JProjects projects)
  end.
Proof.
  intros Hset Hquery. unfold GetAll, setSearchPath, Exec_, Query.
  rewrite Hset. cbn [conn]. rewrite Hquery.
  destruct (scanRows NilSlice rows); reflexivity.
Qed.

Lemma collection_get {Conn} (DB : Driver Conn) s body r :
  Method r = "GET" ->
  URL_Path r = "/api/test" \/ URL_Path r = "/api/test/" ->
  apiTestHandler DB s body r = GetAll DB s.
Proof.
  intros Hm Hp. unfold apiTestHandler, collection. rewrite Hm.
  destruct Hp as [-> | ->]; reflexivity.
Qed.

(** X18 -- GET on /api/test answers the rows of the query in the order
    in which the database gave them, none dropped or added; when there
    is no row the slice that is encoded is the nil slice, not an empty
    one. *)
Theorem listing_keeps_rows_in_order
  {Conn} (DB : Driver Conn) s body r result c1 projects c2 :
  Method r = "GET" ->
  URL_Path r = "/api/test" \/ URL_Path r = "/api/test/" ->
  dbExec DB (conn s) (q "SET search_path = public, '$user'") [] =
    (ExecResult result, c1) ->
  dbQuery DB c1 (q "SELECT 'Id', 'Name' FROM 'TestProjects' ORDER BY 'Id'") [] =
    (QueryRows (map ScanRow projects), c2) ->
  fst (apiTestHandler DB s body r) =
  ReplyJSON None
    (JProjects match projects with [] => NilSlice | _ => Items projects end).
Proof.
  intros Hm Hp Hset Hquery.
  rewrite (collection_get DB s body r Hm Hp), (GetAll_rows DB s _ _ _ _ Hset Hquery).
  rewrite <- (app_nil_r (map ScanRow projects)), scanRows_scanned.
  cbn [scanRows]. now rewrite fold_append_nil.
Qed.

Lemma listing_keeps_rows_in_order_witness :
  fst (apiTestHandler sampleDriver newSession (DecodeError "EOF")
         (requestOf "GET" "/api/test/")) =
  ReplyJSON None (JProjects (Items [alpha; beta])).
Proof.
  apply (listing_keeps_rows_in_order sampleDriver newSession (DecodeError "EOF")
           (requestOf "GET" "/api/test/") (AffectedRows 1) tt [alpha; beta] tt);
    [reflexivity | now right | reflexivity | reflexivity].
Defined.

(** X19 -- When the scan of a row fails, GET on /api/test answers 500
    with the error of that scan: the rows read before it are not
    answered, and the rows after it are not looked at. *)
Theorem listing_stops_at_failed_scan
  {Conn} (DB : Driver Conn) s body r result c1 projects err rest c2 :
  Method r = "GET" ->
  URL_Path r = "/api/test" \/ URL_Path r = "/api/test/" ->
  dbExec DB (conn s) (q "SET search_path = public, '$user'") [] =
    (ExecResult result, c1) ->
  dbQuery DB c1 (q "SELECT 'Id', 'Name' FROM 'TestProjects' ORDER BY 'Id'") [] =
    (QueryRows (map ScanRow projects ++ ScanError err :: rest), c2) ->
  fst (apiTestHandler DB s body r) =
  ReplyError ("Database error: " +:+ err) 500.
Proof.
  intros Hm Hp Hset Hquery.
  rewrite (collection_get DB s body r Hm Hp), (GetAll_rows DB s _ _ _ _ Hset Hquery).
  now rewrite scanRows_scanned.
Qed.

Lemma listing_stops_at_failed_scan_witness :
  fst (apiTestHandler
         (cannedDriver [ScanRow alpha; ScanError "converting NULL to string is unsupported";
                        ScanRow beta]
            ErrNoRows (ExecResult (AffectedRows 0)))
         newSession (DecodeError "EOF") (requestOf "GET" "/api/test")) =
  ReplyError "Database error: converting NULL to string is unsupported" 500.
Proof.
  apply (listing_stops_at_failed_scan _ newSession (DecodeError "EOF")
           (requestOf "GET" "/api/test") (AffectedRows 0) tt [alpha]
           "converting NULL to string is unsupported" [ScanRow beta] tt);
    [reflexivity | now left | reflexivity | reflexivity].
Defined.

(** X20 -- A PUT that changed at least one row answers a project made of
    the id of the path and the name of the body: the Id of the body is
    overwritten, and the row is not read back from the database. *)
Theorem update_answers_path_id_and_body_name
  {Conn} (DB : Driver Conn) s r id sent result c1 rowsAffected c2 :
  strconv.minInt <= id <= strconv.maxInt ->
  Method r = "PUT" ->
  URL_Path r = "/api/test/" +:+ fmt.decimal id ->
  dbExec DB (conn s) (q "SET search_path = public, '$user'") [] =
    (ExecResult result, c1) ->
  dbExec DB c1 (q "UPDATE 'TestProjects' SET 'Name' = $1 WHERE 'Id' = $2")
    [SqlString (Name sent); SqlInt id] =
    (ExecResult (AffectedRows rowsAffected), c2) ->
  rowsAffected <> 0 ->
  apiTestHandler DB s (DecodeOK sent) r =
  (ReplyJSON None (JProject {| Id := id; Name := Name sent |}),
   {| conn := c2;
      issued := issued s ++ [searchPathStatement; updateOne (Name sent) id] |}).
Proof.
  intros Hid Hm Hpath Hset Hupdate Hrows.
  rewrite (route_with_id DB s _ r _ Hpath (decimal_nonempty id)).
  rewrite (Atoi_decimal_int id Hid), Hm. cbn [String.eqb Ascii.eqb Bool.eqb].
  unfold Update, setSearchPath, Exec_. rewrite Hset. cbn [conn issued].
  rewrite Hupdate. destruct (Z.eqb_spec rowsAffected 0); [contradiction|].
  now rewrite <- app_assoc.
Qed.

Lemma update_answers_path_id_and_body_name_witness :
  apiTestHandler sampleDriver newSession
    (DecodeOK {| Id := 99; Name := "gamma" |}) (requestOf "PUT" "/api/test/5") =
  (ReplyJSON None (JProject {| Id := 5; Name := "gamma" |}),
   {| conn := tt; issued := [searchPathStatement; updateOne "gamma" 5] |}).
Proof.
  apply (update_answers_path_id_and_body_name sampleDriver newSession
           (requestOf "PUT" "/api/test/5") 5 {| Id := 99; Name := "gamma" |}
           (AffectedRows 1) tt 1 tt);
    [unfold strconv.minInt, strconv.maxInt; lia | reflexivity | reflexivity
    | reflexivity | reflexivity | discriminate].
Defined.

(** X21 -- The Id of a decoded body plays no part: two bodies with the
    same name get the same reply and leave the same statements, for
    every request and every database. *)
Theorem body_id_is_ignored {Conn} (DB : Driver Conn) s r first second :
  Name first = Name second ->
  apiTestHandler DB s (DecodeOK first) r =
  apiTestHandler DB s (DecodeOK second) r.
Proof.
  intros Hname. unfold apiTestHandler, collection, Create, Update.
  rewrite Hname. reflexivity.
Qed.

Lemma body_id_is_ignored_witness :
  apiTestHandler sampleDriver newSession (DecodeOK {| Id := 1; Name := "alpha" |})
    (requestOf "POST" "/api/test") =
  apiTestHandler sampleDriver newSession (DecodeOK {| Id := 77; Name := "alpha" |})
    (requestOf "POST" "/api/test").
Proof.
  apply (body_id_is_ignored sampleDriver newSession (requestOf "POST" "/api/test")
           {| Id := 1; Name := "alpha" |} {| Id := 77; Name := "alpha" |}).
  reflexivity.
Defined.

(** X22 -- The body is decoded for POST and PUT only: with any other
    method the reply and the statements are the same whatever the body
    holds, so a body that cannot be decoded is never a reason for a
    400 there. *)
Theorem body_is_read_by_post_and_put_only
  {Conn} (DB : Driver Conn) s r first second :
  Method r <> "POST" ->
  Method r <> "PUT" ->
  apiTestHandler DB s first r = apiTestHandler DB s second r.
Proof.
  intros Hpost Hput. unfold apiTestHandler, collection.
  destruct (String.eqb_spec (Method r) "POST"); [contradiction|].
  destruct (String.eqb_spec (Method r) "PUT"); [contradiction|].
  reflexivity.
Qed.

Lemma body_is_read_by_post_and_put_only_witness :
  apiTestHandler sampleDriver newSession (DecodeError "unexpected EOF")
    (requestOf "DELETE" "/api/test/3") =
  apiTestHandler sampleDriver newSession (DecodeOK alpha)
    (requestOf "DELETE" "/api/test/3").
Proof.
  apply (body_is_read_by_post_and_put_only sampleDriver newSession
           (requestOf "DELETE" "/api/test/3"));
    discriminate.
Defined.

(** X23 -- When the search path statement fails, nothing else is sent to
    the database: a request that is not turned down on its form is
    answered 500 with the error of that statement, for every route and
    method. *)
Theorem search_path_failure_ends_request
  {Conn} (DB : Driver Conn) s body r err c :
  dbExec DB (conn s) (q "SET search_path = public, '$user'") [] =
    (ExecError err, c) ->
  (rejected (fst (apiTestHandler DB s body r)) = true /\
   snd (apiTestHandler DB s body r) = s) \/
  apiTestHandler DB s body r =
  (ReplyError ("Database error: " +:+ err) 500,
   {| conn := c; issued := issued s ++ [searchPathStatement] |}).
Proof.
  intros Hset. unfold_controller. rewrite !Hset.
  controller_cases; cbn [fst snd rejected Z.eqb Pos.eqb orb];
    first [ left; split; reflexivity | right; reflexivity ].
Qed.

Lemma search_path_failure_ends_request_witness :
  apiTestHandler
    (cannedDriver [] ErrNoRows (ExecError "pq: permission denied for schema public"))
    newSession (DecodeOK alpha) (requestOf "POST" "/api/test") =
  (ReplyError "Database error: pq: permission denied for schema public" 500,
   {| conn := tt; issued := [searchPathStatement] |}).
Proof.
  destruct (search_path_failure_ends_request
              (cannedDriver [] ErrNoRows
                 (ExecError "pq: permission denied for schema public"))
              newSession (DecodeOK alpha) (requestOf "POST" "/api/test")
              "pq: permission denied for schema public" tt eq_refl)
    as [[Hrejected _] | Hreply]; [discriminate Hrejected | exact Hreply].
Defined.

(** ** [ExtractId] *)

(** X24 -- [ExtractId] does not look at the first ten bytes of the path:
    whatever they are, the result is what [strconv.Atoi] makes of the
    bytes after them. *)
Theorem ExtractId_ignores_prefix prefix rest :
  String.length prefix = 10%nat ->
  ExtractId (prefix +:+ rest) = Ok (strconv.Atoi rest).
Proof.
  intros Hlen. unfold ExtractId.
  rewrite slice_from_ok.
  - cbn [bind]. change (Z.to_nat (len "/api/test/")) with 10%nat.
    do 11 (destruct prefix as [|? prefix]; try discriminate Hlen).
    reflexivity.
  - unfold len. rewrite length_append, Hlen. cbn. lia.
Qed.

Lemma ExtractId_ignores_prefix_witness :
  ExtractId "/api/test/42" = Ok (Some 42) /\
  ExtractId "/orders/v/42" = Ok (Some 42).
Proof.
  split.
  - apply (ExtractId_ignores_prefix "/api/test/" "42"). reflexivity.
  - apply (ExtractId_ignores_prefix "/orders/v/" "42"). reflexivity.
Defined.

(** X25 -- [ExtractId] panics on a path of fewer than ten bytes, such as
    /api/test itself: the slice is taken before anything is checked. *)
Theorem ExtractId_panics_on_short_path path :
  (String.length path < 10)%nat ->
  ExtractId path = Panic "slice bounds out of range".
Proof.
  intros Hlen. unfold ExtractId, slice_from.
  change (len "/api/test/") with 10.
  destruct (Z.leb_spec 10 (len path)) as [H|H]; [unfold len in H; lia|].
  reflexivity.
Qed.

Lemma ExtractId_panics_on_short_path_witness :
  ExtractId "/api/test" = Panic "slice bounds out of range".
Proof.
  apply (ExtractId_panics_on_short_path "/api/test"). cbn. lia.
Defined.

(** ** The payload of a report as a JSON document *)

Lemma skip_spaces n c s :
  json.isWhitespace c = false ->
  json.skipWhitespace (spaces n +:+ String c s) = String c s.
Proof.
  intros Hc. induction n as [|n IH].
  - rewrite append_nil_l. cbn [json.skipWhitespace]. now rewrite Hc.
  - cbn [spaces]. rewrite append_cons. cbn [json.skipWhitespace]. exact IH.
Qed.

Lemma skip_line n c s :
  json.isWhitespace c = false ->
  json.skipWhitespace (newline +:+ spaces n +:+ String c s) = String c s.
Proof.
  intros Hc. unfold newline. rewrite append_cons, append_nil_l.
  cbn [json.skipWhitespace]. change (json.isWhitespace LF) with true.
  cbv iota. now apply skip_spaces.
Qed.

Lemma skip_memberLine n name rest :
  json.skipWhitespace (memberLine n name rest) =
  String dquote (name +:+ String dquote (String ":" rest)).
Proof. unfold memberLine. now apply skip_line. Qed.

Lemma members_step fuel name v :
  needsEscaping name = false ->
  json.members (S fuel) (String dquote (name +:+ String dquote (String ":" v))) =
  match json.value fuel (json.skipWhitespace v) with
  | Some afterValue =>
      match json.skipWhitespace afterValue with
      | String "," more => json.members fuel (json.skipWhitespace more)
      | String "}" rest => Some rest
      | _ => None
      end
  | None => None
  end.
Proof.
  intros Hname.
  change (json.members (S fuel) (String dquote ?s))
    with (match json.unquote s with
          | Some (_, afterName) =>
              match json.skipWhitespace afterName with
              | String ":" afterColon =>
                  match json.value fuel (json.skipWhitespace afterColon) with
                  | Some afterValue =>
                      match json.skipWhitespace afterValue with
                      | String "," more => json.members fuel (json.skipWhitespace more)
                      | String "}" rest => Some rest
                      | _ => None
                      end
                  | None => None
                  end
              | _ => None
              end
          | None => None
          end).
  rewrite unquote_plain by assumption. reflexivity.
Qed.

(** A member whose value is a token, with a further member behind it. *)
Lemma members_token fuel n name t next rest :
  needsEscaping name = false ->
  jsonToken t ->
  json.members (S (S fuel))
    (String dquote (name +:+ String dquote
       (String ":" (t +:+ String "," (memberLine n next rest))))) =
  json.members (S fuel)
    (String dquote (next +:+ String dquote (String ":" rest))).
Proof.
  intros Hname Ht. rewrite members_step by assumption.
  rewrite Ht.
  change (json.skipWhitespace (String "," ?more)) with (String "," more).
  cbv iota beta. now rewrite skip_memberLine.
Qed.

(** A member whose value is a string, with a further member behind it. *)
Lemma members_text fuel n name t next rest :
  needsEscaping name = false ->
  jsonText t ->
  json.members (S (S fuel))
    (String dquote (name +:+ String dquote
       (String ":" (String dquote
          (t +:+ String dquote (String "," (memberLine n next rest))))))) =
  json.members (S fuel)
    (String dquote (next +:+ String dquote (String ":" rest))).
Proof.
  intros Hname Ht. rewrite members_step by assumption.
  change (json.skipWhitespace (String dquote ?s)) with (String dquote s).
  rewrite value_string.
  destruct (Ht (String "," (memberLine n next rest))) as [d ->].
  cbn [option_map snd].
  change (json.skipWhitespace (String "," ?more)) with (String "," more).
  cbv iota beta. now rewrite skip_memberLine.
Qed.

(** The last member: a string, and the brace that closes the object on
    the line after it. *)
Lemma members_text_last fuel m name t :
  needsEscaping name = false ->
  jsonText t ->
  json.members (S (S fuel))
    (String dquote (name +:+ String dquote
       (String ":" (String dquote
          (t +:+ String dquote (newline +:+ spaces m +:+ "}")))))) =
  Some EmptyString.
Proof.
  intros Hname Ht. rewrite members_step by assumption.
  change (json.skipWhitespace (String dquote ?s)) with (String dquote s).
  rewrite value_string.
  destruct (Ht (newline +:+ spaces m +:+ "}")) as [d ->].
  cbn [option_map snd]. rewrite skip_line by reflexivity. reflexivity.
Qed.

Lemma value_object fuel n name rest :
  json.value (S fuel) (String "{" (memberLine n name rest)) =
  json.members fuel (String dquote (name +:+ String dquote (String ":" rest))).
Proof.
  change (json.value (S fuel) (String "{" ?s))
    with (match json.skipWhitespace s with
          | String "}" rest => Some rest
          | inside => json.members fuel inside
          end).
  rewrite skip_memberLine. reflexivity.
Qed.

(** *** Tokens and texts *)

Lemma jsonToken_null : jsonToken "null".
Proof. intros fuel more. reflexivity. Qed.

Lemma jsonToken_quoted t :
  jsonText t -> jsonToken (q "'" +:+ t +:+ q "'").
Proof.
  intros Ht fuel more.
  change (q "'" +:+ t +:+ q "'") with (String dquote (t +:+ String dquote EmptyString)).
  rewrite append_cons, append_assoc.
  change (String dquote EmptyString +:+ String "," more)
    with (String dquote (String "," more)).
  change (json.skipWhitespace (String dquote ?s)) with (String dquote s).
  rewrite value_string. destruct (Ht (String "," more)) as [d ->]. reflexivity.
Qed.

Lemma jsonText_plain t : needsEscaping t = false -> jsonText t.
Proof. intros H rest. exists t. now apply unquote_plain. Qed.

Lemma jsonText_trace stackTrace :
  onlyLineControls stackTrace = true -> jsonText (escapeStackTrace stackTrace).
Proof.
  intros H rest. exists stackTrace. rewrite escapeStackTrace_bytes.
  now apply unquote_escaped.
Qed.

Lemma jsonText_message err :
  noControls (fmt.render err) = true -> jsonText (escapeMessage err).
Proof.
  intros H rest. exists (fmt.render err). rewrite escapeMessage_bytes.
  now apply unquote_escapedQuote.
Qed.

Lemma unquote_quoteEscapedByte c t :
  negb (Ascii.eqb c backslash) && negb (isControl c) = true ->
  json.unquote (quoteEscapedByte c +:+ t) =
  json.push (String c EmptyString) (json.unquote t).
Proof.
  destruct c as [[] [] [] [] [] [] [] []]; intros H;
    try discriminate H; reflexivity.
Qed.

Lemma unquote_quoteEscaped s rest :
  plainButQuotes s = true ->
  json.unquote (mapBytes quoteEscapedByte s +:+ String dquote rest) = Some (s, rest).
Proof.
  unfold plainButQuotes.
  induction s as [|c s IH]; intros H; [reflexivity|].
  cbn [list_ascii_of_string forallb] in H. apply andb_true_iff in H as [Hc Hs].
  cbn [mapBytes]. rewrite append_assoc, unquote_quoteEscapedByte, IH by assumption.
  reflexivity.
Qed.

Lemma jsonToken_file fileName :
  plainButQuotes fileName = true -> jsonToken (fileJson fileName).
Proof.
  intros H. unfold fileJson. destruct (nonempty fileName); [|apply jsonToken_null].
  apply jsonToken_quoted. intros rest. exists fileName.
  change (q "'") with (String dquote EmptyString).
  change (q "\'") with (String backslash (String dquote EmptyString)).
  rewrite ReplaceAll_byte. now apply unquote_quoteEscaped.
Qed.

Lemma jsonToken_boardId boardId :
  needsEscaping boardId = false -> jsonToken (boardIdJson boardId).
Proof.
  intros H. unfold boardIdJson.
  destruct (String.eqb boardId EmptyString); [apply jsonToken_null|].
  now apply jsonToken_quoted, jsonText_plain.
Qed.

(** The decimal form of a positive number starts with a digit other
    than zero. *)
Lemma nzhead_not_zero u v : Decimal.nzhead u <> Decimal.D0 v.
Proof. induction u; cbn [Decimal.nzhead]; try discriminate. exact IHu. Qed.

Lemma to_uint_head p :
  match Pos.to_uint p with
  | Decimal.Nil | Decimal.D0 _ => False
  | _ => True
  end.
Proof.
  pose proof (DecimalPos.Unsigned.to_of (Pos.to_uint p)) as H.
  rewrite DecimalPos.Unsigned.of_to in H. cbn [N.to_uint] in H.
  pose proof (DecimalPos.Unsigned.to_uint_nonzero p) as Hnz.
  pose proof (DecimalPos.Unsigned.to_uint_nonnil p) as Hnn.
  destruct (Pos.to_uint p) as [|u| | | | | | | | |]; try exact I.
  - contradiction.
  - unfold Decimal.unorm in H. cbn [Decimal.nzhead] in H.
    pose proof (nzhead_not_zero u) as Hu.
    destruct (Decimal.nzhead u) eqn:E; try discriminate H.
    + injection H as ->. contradiction.
    + now apply (Hu u0).
Qed.

Lemma skipDigits_uint u more :
  json.skipDigits (NilEmpty.string_of_uint u +:+ String "," more) = String "," more.
Proof.
  induction u; cbn [NilEmpty.string_of_uint];
    [reflexivity | rewrite append_cons; cbn [json.skipDigits];
                   match goal with
                   | |- context [json.isDigit ?c] =>
                       change (json.isDigit c) with true
                   end; exact IHu ..].
Qed.

Lemma jsonToken_decimal n : 0 < n -> jsonToken (fmt.decimal n).
Proof.
  intros Hn fuel more. destruct n as [|p|p]; [lia | | lia].
  rewrite decimal_pos. pose proof (to_uint_head p) as Hhead.
  destruct (Pos.to_uint p) as [|u|u|u|u|u|u|u|u|u|u]; try contradiction;
    cbn [NilEmpty.string_of_uint]; rewrite append_cons;
    change (json.skipWhitespace (String ?c ?s)) with (String c s);
    change (json.value (S fuel) (String ?c ?s))
      with (mbind json.exponent (json.fraction (json.skipDigits s)));
    rewrite skipDigits_uint; reflexivity.
Qed.

Lemma jsonToken_line lineNumber : jsonToken (lineJson lineNumber).
Proof.
  unfold lineJson. destruct (Z.ltb_spec 0 lineNumber); [|apply jsonToken_null].
  change (fmt.Sprintf "%d" [VInt lineNumber])
    with (fmt.decimal lineNumber +:+ EmptyString).
  rewrite append_nil_r. now apply jsonToken_decimal.
Qed.

(** *** The ten members *)

Lemma reportLayout_members n m
  tenant now file line trace message kind path method agent :
  reportLayout (spaces n) (spaces m)
    tenant now file line trace message kind path method agent =
  String "{"
   (memberLine n "boardId" (tenant +:+ String ","
   (memberLine n "timestamp" (String dquote (now +:+ String dquote (String ","
   (memberLine n "file" (file +:+ String ","
   (memberLine n "line" (line +:+ String ","
   (memberLine n "stackTrace" (String dquote (trace +:+ String dquote (String ","
   (memberLine n "message" (String dquote (message +:+ String dquote (String ","
   (memberLine n "exceptionType" (String dquote (kind +:+ String dquote (String ","
   (memberLine n "requestPath" (String dquote (path +:+ String dquote (String ","
   (memberLine n "requestMethod" (String dquote (method +:+ String dquote (String ","
   (memberLine n "userAgent" (String dquote (agent +:+ String dquote
      (newline +:+ spaces m +:+ "}")))))))))))))))))))))))))))))))))).
Proof.
  unfold reportLayout, memberLine.
  generalize (spaces n), (spaces m). intros indent closing. reflexivity.
Qed.

Lemma fuel_enough k :
  (11 <= k)%nat ->
  exists fuel, S k = S (S (S (S (S (S (S (S (S (S (S (S fuel))))))))))).
Proof. intros H. exists (k - 11)%nat. lia. Qed.

Lemma reportLayout_valid n m
  tenant now file line trace message kind path method agent :
  jsonToken tenant -> jsonText now -> jsonToken file -> jsonToken line ->
  jsonText trace -> jsonText message -> jsonText kind ->
  jsonText path -> jsonText method -> jsonText agent ->
  json.valid (reportLayout (spaces n) (spaces m)
                tenant now file line trace message kind path method agent) = true.
Proof.
  intros Htenant Hnow Hfile Hline Htrace Hmessage Hkind Hpath Hmethod Hagent.
  rewrite reportLayout_members. unfold json.valid.
  change (json.skipWhitespace (String "{" ?s)) with (String "{" s).
  match goal with
  | |- context [String.length ?s] =>
      destruct (fuel_enough (String.length s)) as [fuel ->]
  end.
  { unfold memberLine at 1. cbn [String.length].
    rewrite !length_append. cbn [String.length].
    rewrite length_append. cbn [String.length]. lia. }
  rewrite value_object.
  rewrite members_token by (reflexivity || assumption).
  rewrite members_text by (reflexivity || assumption).
  rewrite members_token by (reflexivity || assumption).
  rewrite members_token by (reflexivity || assumption).
  rewrite members_text by (reflexivity || assumption).
  rewrite members_text by (reflexivity || assumption).
  rewrite members_text by (reflexivity || assumption).
  rewrite members_text by (reflexivity || assumption).
  rewrite members_text by (reflexivity || assumption).
  rewrite members_text_last by (reflexivity || assumption).
  reflexivity.
Qed.

(** X26 -- The payload of a request report is a well-formed JSON
    document whenever the values that are put into it unescaped allow
    it: the tenant id, the time stamp, the path, the method and the user
    agent hold no double quote, backslash or control character, the file
    name no backslash or control character, the trace no control
    character other than line feed, carriage return and tab, and the
    text of the panic value no control character at all.  The line
    number and an absent tenant id or file name never stand in the
    way. *)
Theorem report_payload_is_json now boardId r err stackTrace fileName lineNumber :
  needsEscaping boardId = false ->
  needsEscaping now = false ->
  plainButQuotes fileName = true ->
  onlyLineControls stackTrace = true ->
  noControls (fmt.render err) = true ->
  needsEscaping (URL_Path r) = false ->
  needsEscaping (Method r) = false ->
  needsEscaping (UserAgent r) = false ->
  json.valid (encodeReport now boardId r err stackTrace fileName lineNumber) = true.
Proof.
  intros Hboard Hnow Hfile Htrace Herr Hpath Hmethod Hagent.
  rewrite encodeReport_layout. apply reportLayout_valid.
  - now apply jsonToken_boardId.
  - now apply jsonText_plain.
  - now apply jsonToken_file.
  - apply jsonToken_line.
  - now apply jsonText_trace.
  - now apply jsonText_message.
  - now apply jsonText_plain.
  - now apply jsonText_plain.
  - now apply jsonText_plain.
  - now apply jsonText_plain.
Qed.

Lemma report_payload_is_json_witness :
  json.valid
    (encodeReport "2026-03-01T10:15:00Z" "65f0a1b2c3d4e5f6a7b8c9d0"
       (requestOf "GET" "/api/test/7") (VError "runtime error: integer divide by zero")
       scenarioTrace (q "my'file.go") 42) = true.
Proof.
  apply (report_payload_is_json "2026-03-01T10:15:00Z" "65f0a1b2c3d4e5f6a7b8c9d0"
           (requestOf "GET" "/api/test/7")
           (VError "runtime error: integer divide by zero")
           scenarioTrace (q "my'file.go") 42);
    reflexivity.
Defined.

(** X27 -- The payload of either start-up report is a well-formed JSON
    document under the same conditions on the tenant id, the time stamp,
    the file name, the trace and the text of the failure; its path,
    method and user agent are constants. *)
Theorem startup_payload_is_json
  format now boardId failure stackTrace fileName lineNumber :
  format = startupPanicPayloadFormat \/ format = startupErrorPayloadFormat ->
  needsEscaping boardId = false ->
  needsEscaping now = false ->
  plainButQuotes fileName = true ->
  onlyLineControls stackTrace = true ->
  noControls (fmt.render failure) = true ->
  json.valid (encodeStartupReport format now boardId failure stackTrace
                fileName lineNumber) = true.
Proof.
  intros Hformat Hboard Hnow Hfile Htrace Herr.
  destruct Hformat as [-> | ->];
    [rewrite encodeStartupPanic_layout | rewrite encodeStartupError_layout];
    apply reportLayout_valid;
    first [ now apply jsonToken_boardId
          | now apply jsonToken_file
          | apply jsonToken_line
          | now apply jsonText_trace
          | now apply jsonText_message
          | now apply jsonText_plain ].
Qed.

Lemma startup_payload_is_json_witness :
  json.valid
    (encodeStartupReport startupErrorPayloadFormat "2026-03-01T10:15:00Z"
       EmptyString (VError "listen tcp 0.0.0.0:8080: bind: address already in use")
       scenarioTrace EmptyString 0) = true.
Proof.
  apply (startup_payload_is_json startupErrorPayloadFormat "2026-03-01T10:15:00Z"
           EmptyString
           (VError "listen tcp 0.0.0.0:8080: bind: address already in use")
           scenarioTrace EmptyString 0);
    [now right | reflexivity ..].
Defined.

(** X28 -- The body of the 500 response is a well-formed JSON document
    when the text of the panic value holds no double quote, backslash or
    control character. *)
Theorem panic_body_is_json_for_plain_text err :
  needsEscaping (fmt.Sprintf "%v" [err]) = false ->
  json.valid (panicBody err) = true.
Proof.
  intros Hplain. rewrite panicBody_members.
  set (tail := fmt.Sprintf "%v" [err] +:+ String dquote (String "}" EmptyString)).
  set (second := "message" +:+ String dquote (String ":" (String dquote tail))).
  set (first := "error" +:+ _).
  unfold json.valid.
  change (json.skipWhitespace (String "{" (String dquote first)))
    with (String "{" (String dquote first)).
  change (String.length (String "{" (String dquote first)))
    with (S (S (String.length first))).
  assert (Hfirst : exists n, String.length first = S (S n)).
  { subst first. rewrite length_append. cbn [String.length Nat.add].
    eexists. reflexivity. }
  destruct Hfirst as [n ->].
  change (json.value (S (S (S (S (S n))))) (String "{" (String dquote first)))
    with (json.members (S (S (S (S n)))) (String dquote first)).
  subst first. rewrite members_string_member by reflexivity.
  rewrite value_string, unquote_plain by reflexivity.
  cbn [option_map snd].
  change (json.skipWhitespace (String "," (String dquote second)))
    with (String "," (String dquote second)).
  cbv iota beta.
  change (json.skipWhitespace (String dquote second)) with (String dquote second).
  subst second. rewrite members_string_member by reflexivity.
  subst tail. rewrite value_string, unquote_plain by assumption.
  reflexivity.
Qed.

Lemma panic_body_is_json_for_plain_text_witness :
  json.valid (panicBody (VError "runtime error: integer divide by zero")) = true.
Proof.
  apply (panic_body_is_json_for_plain_text
           (VError "runtime error: integer divide by zero")).
  reflexivity.
Defined.
